(** * Deep Work Tracker: a shallow embedding of [deepwork.py]

    The development follows the source file top to bottom.

    The Python library the program calls comes first, each part as far
    as the program uses it:
    - [Float]: Python's [float], IEEE 754 binary64, with [+], [*], [/],
      the comparisons and [round(x, 2)];
    - [Datetime]: [date] and [datetime] with [isoformat], [fromisoformat]
      (the format [datetime.isoformat] writes, as Python 3.7 to 3.10 read
      it), ordinals, weekdays and differences;
    - [Dict]: dicts with string keys, in insertion order;
    - [FloatText] and [Json]: [repr(float)], [json.dump] and [json.load],
      with text as its UTF-8 bytes;
    - [Py]: exceptions, the file system, the clock, the standard output,
      and the monad the program runs in;
    - [Argparse]: the parser [main] builds.

    The program itself follows: [Ledger] is the shape of [self.data],
    [DeepWorkTracker] the class, method by method, and [Cli] the function
    [main].  [self.data] is kept as a record, so the methods are modelled
    on ledger-shaped data: sessions with a start time, an optional end
    time, a float duration, a category and an optional description, and
    goals from category to float.  These are the ledgers the program
    itself builds.  Python also constructs an instance from any other
    document and only trips, if at all, where a method uses it; the
    embedding does not follow such an instance and ends the run at the
    constructor with the mark [Unmodelled], which is no exception of
    Python's.

    [Notions] holds what the statements need besides; the facts about
    the library models and the properties of the program come last. *)

From Stdlib Require Import ZArith List String Ascii Bool Lia DecimalString.
Import ListNotations.
Open Scope Z_scope.

Set Warnings "-register-all".

(* ================================================================= *)
(** ** Python floats *)

Module Float.

(** Every finite binary64 number is an integer multiple of [2^-1074], the
    smallest subnormal.  A finite float is stored as that integer, so the
    exact sum of two floats is the sum of two integers, and every
    operation is "compute exactly, then round to the nearest double, ties
    to even". *)

Definition prec : Z := 53.
Definition scale : Z := 2 ^ 1074.     (* 1.0 in units of 2^-1074 *)
Definition top : Z := 2 ^ 2098.       (* 2^1024 in units of 2^-1074 *)

Inductive float : Type :=
| Fnum (k : Z)        (* the number k * 2^-1074; [Fnum 0] is +0.0 *)
| Fnzero              (* -0.0 *)
| Finf (neg : bool)   (* +inf, -inf *)
| Fnan.

(** How many low bits a magnitude with integer part [q] has to drop to fit
    in 53 bits. *)
Definition shift (q : Z) : Z := Z.max 0 (Z.log2 q + 1 - prec).

(** Nearest integer to [n / d], ties to even ([0 <= n], [0 < d]). *)
Definition rne (n d : Z) : Z :=
  let q := n / d in
  match 2 * (n mod d) ?= d with
  | Lt => q
  | Gt => q + 1
  | Eq => if Z.even q then q else q + 1
  end.

(** Nearest double (in units of 2^-1074) to the rational [n / d]. *)
Definition round_ratio (n d : Z) : Z :=
  let j := shift (n / d) in
  rne n (d * 2 ^ j) * 2 ^ j.

Definition signed_zero (neg : bool) : float :=
  if neg then Fnzero else Fnum 0.

(** The float nearest to [(-1)^neg * n / d] units; overflow gives an
    infinity, underflow a signed zero. *)
Definition of_ratio (neg : bool) (n d : Z) : float :=
  let k := round_ratio n d in
  if top <=? k then Finf neg
  else if k =? 0 then signed_zero neg
  else Fnum (if neg then - k else k).

(** [float(z)] for a Python int. *)
Definition of_Z (z : Z) : float :=
  if z =? 0 then Fnum 0 else of_ratio (z <? 0) (Z.abs z * scale) 1.

(** True division of two Python ints, [p / q] with [q <> 0]. *)
Definition int_truediv (p q : Z) : float :=
  if p =? 0 then signed_zero (q <? 0)
  else of_ratio (xorb (p <? 0) (q <? 0)) (Z.abs p * scale) (Z.abs q).

Definition is_neg (x : float) : bool :=
  match x with
  | Fnum k => k <? 0
  | Fnzero => true
  | Finf s => s
  | Fnan => false
  end.

Definition is_zero (x : float) : bool :=
  match x with
  | Fnum k => k =? 0
  | Fnzero => true
  | _ => false
  end.

(** [x + y] *)
Definition fadd (x y : float) : float :=
  match x, y with
  | Fnan, _ | _, Fnan => Fnan
  | Finf s, Finf t => if Bool.eqb s t then Finf s else Fnan
  | Finf s, _ => Finf s
  | _, Finf t => Finf t
  | Fnzero, Fnzero => Fnzero
  | Fnzero, Fnum b => Fnum b
  | Fnum a, Fnzero => Fnum a
  | Fnum a, Fnum b =>
      let s := a + b in
      if s =? 0 then Fnum 0 else of_ratio (s <? 0) (Z.abs s) 1
  end.

(** [x * y] *)
Definition fmul (x y : float) : float :=
  match x, y with
  | Fnan, _ | _, Fnan => Fnan
  | Finf s, _ => if is_zero y then Fnan else Finf (xorb s (is_neg y))
  | _, Finf t => if is_zero x then Fnan else Finf (xorb (is_neg x) t)
  | Fnum a, Fnum b =>
      if a * b =? 0 then signed_zero (xorb (a <? 0) (b <? 0))
      else of_ratio (xorb (a <? 0) (b <? 0)) (Z.abs (a * b)) scale
  | _, _ => signed_zero (xorb (is_neg x) (is_neg y))
  end.

(** [x / y]; [None] stands for Python's [ZeroDivisionError]. *)
Definition fdiv (x y : float) : option float :=
  if is_zero y then None
  else Some
    match x, y with
    | Fnan, _ | _, Fnan => Fnan
    | Finf _, Finf _ => Fnan
    | Finf s, _ => Finf (xorb s (is_neg y))
    | _, Finf t => signed_zero (xorb (is_neg x) t)
    | Fnum a, Fnum b =>
        if a =? 0 then signed_zero (b <? 0)
        else of_ratio (xorb (a <? 0) (b <? 0)) (Z.abs a * scale) (Z.abs b)
    | _, _ => signed_zero (xorb (is_neg x) (is_neg y))
    end.

(** [round(x, 2)]: the decimal with two places nearest to the exact value
    of [x] (ties to even), then the double nearest to that decimal. *)
Definition round2 (x : float) : float :=
  match x with
  | Fnum k =>
      let h := rne (Z.abs k * 100) scale in
      of_ratio (k <? 0) (h * scale) 100
  | _ => x
  end.

(** Comparisons; every comparison with NaN is false. *)
Definition fval (x : float) : Z :=
  match x with
  | Fnum k => k
  | _ => 0
  end.

Definition fle (x y : float) : bool :=
  match x, y with
  | Fnan, _ | _, Fnan => false
  | Finf true, _ => true
  | _, Finf false => true
  | Finf false, _ => false
  | _, Finf true => false
  | _, _ => fval x <=? fval y
  end.

Definition flt (x y : float) : bool :=
  match x, y with
  | Fnan, _ | _, Fnan => false
  | Finf s, Finf t => s && negb t
  | Finf true, _ => true
  | _, Finf false => true
  | Finf false, _ => false
  | _, Finf true => false
  | _, _ => fval x <? fval y
  end.

(** The integers that are doubles: at most 53 significant bits, below
    [2^1024]. *)
Definition representable (k : Z) : bool :=
  (Z.abs k <? top) && (Z.abs k mod 2 ^ shift (Z.abs k) =? 0).

Definition is_double (x : float) : bool :=
  match x with
  | Fnum k => representable k
  | _ => true
  end.

(** [sum(xs)] for a sequence of floats: the int [0], then one [+] per
    element, left to right.  (Since Python 3.12 [sum] also carries a
    correction term; the proofs below use nothing of [fsum] but that it
    is a function of the list.) *)
Definition fsum (xs : list float) : float :=
  fold_left fadd xs (Fnum 0).

(** A float that Python finds [>= 0]: a non-negative double, a zero of
    either sign, or [+inf]. *)
Definition nonneg (x : float) : bool := fle (Fnum 0) x && is_double x.

(** The value of a non-negative float, with [+inf] placed at [top], just
    above every finite double. *)
Definition ev (x : float) : Z :=
  match x with
  | Fnum k => k
  | Finf false => top
  | _ => 0
  end.

(** What a non-negative exact result [k] becomes: itself, or [+inf] from
    [top] on. *)
Definition capped (k : Z) : float :=
  if top <=? k then Finf false else Fnum k.

End Float.

(* ================================================================= *)
(** ** Python's [datetime] *)

Module Datetime.

Open Scope string_scope.
Open Scope Z_scope.

Record date : Type := mkDate { year : Z; month : Z; day : Z }.

(** A [datetime]; [tzoffset] is [None] for a naive value and the UTC
    offset in microseconds for an aware one. *)
Record datetime : Type := mkDatetime {
  dt_date : date;
  hour : Z;
  minute : Z;
  second : Z;
  microsecond : Z;
  tzoffset : option Z
}.

Definition is_leap (y : Z) : bool :=
  (y mod 4 =? 0) && (negb (y mod 100 =? 0) || (y mod 400 =? 0)).

Definition days_in_month (y m : Z) : Z :=
  match m with
  | 2 => if is_leap y then 29 else 28
  | 4 | 6 | 9 | 11 => 30
  | _ => 31
  end.

Definition days_before_year (y : Z) : Z :=
  let y' := y - 1 in
  y' * 365 + y' / 4 - y' / 100 + y' / 400.

Definition days_before_month_table (m : Z) : Z :=
  match m with
  | 1 => 0 | 2 => 31 | 3 => 59 | 4 => 90 | 5 => 120 | 6 => 151
  | 7 => 181 | 8 => 212 | 9 => 243 | 10 => 273 | 11 => 304 | 12 => 334
  | _ => 0
  end.

Definition days_before_month (y m : Z) : Z :=
  days_before_month_table m + (if (2 <? m) && is_leap y then 1 else 0).

Definition ymd2ord (y m d : Z) : Z :=
  days_before_year y + days_before_month y m + d.

Definition toordinal (d : date) : Z := ymd2ord (year d) (month d) (day d).

Definition MAXORDINAL : Z := 3652059.   (* date(9999, 12, 31).toordinal() *)

(** The end of [_ord2ymd]: the month and the day of the [n]-th day of a
    year, counted from 0.  The month is first estimated, then corrected. *)
Definition month_and_day (leapyear : bool) (n : Z) : Z * Z :=
  let m := Z.shiftr (n + 50) 5 in
  let preceding :=
    days_before_month_table m + (if (2 <? m) && leapyear then 1 else 0) in
  if n <? preceding then
    let m' := m - 1 in
    let dim := match m' with
               | 2 => if leapyear then 29 else 28
               | 4 | 6 | 9 | 11 => 30
               | _ => 31
               end in
    (m', n - (preceding - dim) + 1)
  else (m, n - preceding + 1).

(** [_ord2ymd], the inverse of [ymd2ord] on [1 .. MAXORDINAL]: whole
    cycles of 400, 100, 4 and 1 years, then the day of the year. *)
Definition ord2ymd (n0 : Z) : date :=
  let n := n0 - 1 in
  let n400 := n / 146097 in
  let n := n mod 146097 in
  let n100 := n / 36524 in
  let n := n mod 36524 in
  let n4 := n / 1461 in
  let n := n mod 1461 in
  let n1 := n / 365 in
  let n := n mod 365 in
  let y := n400 * 400 + 1 + n100 * 100 + n4 * 4 + n1 in
  if (n1 =? 4) || (n100 =? 4) then mkDate (y - 1) 12 31
  else
    let leapyear := (n1 =? 3) && (negb (n4 =? 24) || (n100 =? 3)) in
    let '(m, d) := month_and_day leapyear n in
    mkDate y m d.

(** What [month_and_day] has to satisfy on day [n] of a year: a month of
    the year, a day from 1 on, and [n] days before that day. *)
Definition month_and_day_ok (leapyear : bool) (n : Z) : bool :=
  let '(m, d) := month_and_day leapyear n in
  (1 <=? m) && (m <=? 12) && (1 <=? d) &&
  (days_before_month_table m + (if (2 <? m) && leapyear then 1 else 0) + d
   =? n + 1).

(** [d.weekday()]: Monday is 0, Sunday is 6. *)
Definition weekday (d : date) : Z := (toordinal d + 6) mod 7.

(** [d - timedelta(days=n)]; [None] is Python's [OverflowError]. *)
Definition date_sub_days (d : date) (n : Z) : option date :=
  let o := toordinal d - n in
  if (0 <? o) && (o <=? MAXORDINAL) then Some (ord2ymd o) else None.

(** Dates compare as the tuples (year, month, day). *)
Definition date_cmp (a b : date) : comparison :=
  match year a ?= year b with
  | Eq => match month a ?= month b with
          | Eq => day a ?= day b
          | c => c
          end
  | c => c
  end.

Definition date_ge (a b : date) : bool :=
  match date_cmp a b with Lt => false | _ => true end.


(** [datetime.min.date()] *)
Definition date_min : date := mkDate 1 1 1.

Definition valid_date (d : date) : bool :=
  (1 <=? year d) && (year d <=? 9999) &&
  (1 <=? month d) && (month d <=? 12) &&
  (1 <=? day d) && (day d <=? days_in_month (year d) (month d)).

Definition valid_time (h mi s us : Z) : bool :=
  (0 <=? h) && (h <? 24) && (0 <=? mi) && (mi <? 60) &&
  (0 <=? s) && (s <? 60) && (0 <=? us) && (us <? 1000000).

Definition valid_datetime (t : datetime) : bool :=
  valid_date (dt_date t) &&
  valid_time (hour t) (minute t) (second t) (microsecond t).

(** What [datetime.now()] returns: a valid naive datetime. *)
Definition naive_now (t : datetime) : bool :=
  valid_datetime t && match tzoffset t with None => true | Some _ => false end.

(** *** Printing *)

Definition digit_char (d : Z) : ascii := ascii_of_nat (48 + Z.to_nat d).

(** ["%0<w>d" % n] for [0 <= n < 10^w]. *)
Fixpoint zpad (w : nat) (n : Z) : string :=
  match w with
  | O => ""
  | S w' => zpad w' (n / 10) ++ String (digit_char (n mod 10)) ""
  end.

Definition isoformat_date (d : date) : string :=
  zpad 4 (year d) ++ "-" ++ zpad 2 (month d) ++ "-" ++ zpad 2 (day d).

Definition isoformat_hms (h mi s us : Z) : string :=
  zpad 2 h ++ ":" ++ zpad 2 mi ++ ":" ++ zpad 2 s ++
  (if us =? 0 then "" else "." ++ zpad 6 us).

(** The offset suffix of an aware datetime: [+HH:MM[:SS[.ffffff]]]. *)
Definition isoformat_offset (off : Z) : string :=
  let a := Z.abs off in
  let us := a mod 1000000 in
  let secs := a / 1000000 in
  (if off <? 0 then "-" else "+") ++
  zpad 2 (secs / 3600) ++ ":" ++ zpad 2 (secs / 60 mod 60) ++
  (if (secs mod 60 =? 0) && (us =? 0) then ""
   else ":" ++ zpad 2 (secs mod 60) ++
        (if us =? 0 then "" else "." ++ zpad 6 us)).

(** [t.isoformat()] *)
Definition isoformat (t : datetime) : string :=
  isoformat_date (dt_date t) ++ "T" ++
  isoformat_hms (hour t) (minute t) (second t) (microsecond t) ++
  match tzoffset t with
  | None => ""
  | Some off => isoformat_offset off
  end.

(** *** Parsing *)

Definition is_digit (c : ascii) : bool :=
  let n := nat_of_ascii c in (48 <=? n)%nat && (n <=? 57)%nat.

Definition digit_val (c : ascii) : Z := Z.of_nat (nat_of_ascii c) - 48.

(** Read exactly [w] decimal digits from the front of [s]. *)
Fixpoint take_digits (w : nat) (s : string) : option (Z * string) :=
  match w with
  | O => Some (0, s)
  | S w' =>
      match take_digits w' s with
      | Some (a, String c rest) =>
          if is_digit c then Some (10 * a + digit_val c, rest) else None
      | _ => None
      end
  end.

Definition expect (c : ascii) (s : string) : option string :=
  match s with
  | String c' rest => if Ascii.eqb c c' then Some rest else None
  | EmptyString => None
  end.

(** [HH[:MM[:SS[.fff[fff]]]]], returning what follows it. *)
Definition parse_hh_mm_ss_ff (s : string) : option (Z * Z * Z * Z * string) :=
  match take_digits 2 s with
  | None => None
  | Some (h, s1) =>
    match expect ":" s1 with
    | None => Some (h, 0, 0, 0, s1)
    | Some s2 =>
      match take_digits 2 s2 with
      | None => None
      | Some (mi, s3) =>
        match expect ":" s3 with
        | None => Some (h, mi, 0, 0, s3)
        | Some s4 =>
          match take_digits 2 s4 with
          | None => None
          | Some (sec, s5) =>
            match expect "." s5 with
            | None => Some (h, mi, sec, 0, s5)
            | Some s6 =>
              match take_digits 6 s6 with
              | Some (us, s7) => Some (h, mi, sec, us, s7)
              | None =>
                match take_digits 3 s6 with
                | Some (ms, s7) => Some (h, mi, sec, ms * 1000, s7)
                | None => None
                end
              end
            end
          end
        end
      end
    end
  end.

(** The UTC offset after the time: nothing, or a sign and
    [HH:MM], [HH:MM:SS] or [HH:MM:SS.ffffff] and nothing more, strictly
    between -24h and +24h. *)
Definition parse_offset (s : string) : option (option Z) :=
  match s with
  | EmptyString => Some None
  | String c rest =>
      if Ascii.eqb c "+" || Ascii.eqb c "-" then
        let offset (h mi sec us : Z) : option (option Z) :=
          let off := ((h * 60 + mi) * 60 + sec) * 1000000 + us in
          if off <? 86400000000
          then Some (Some (if Ascii.eqb c "-" then - off else off))
          else None in
        match take_digits 2 rest with
        | None => None
        | Some (h, s1) =>
          match expect ":" s1 with
          | None => None
          | Some s2 =>
            match take_digits 2 s2 with
            | None => None
            | Some (mi, EmptyString) => offset h mi 0 0
            | Some (mi, s3) =>
              match expect ":" s3 with
              | None => None
              | Some s4 =>
                match take_digits 2 s4 with
                | None => None
                | Some (sec, EmptyString) => offset h mi sec 0
                | Some (sec, s5) =>
                  match expect "." s5 with
                  | None => None
                  | Some s6 =>
                    match take_digits 6 s6 with
                    | Some (us, EmptyString) => offset h mi sec us
                    | _ => None
                    end
                  end
                end
              end
            end
          end
        end
      else None
  end.

(** What follows the character that separates date and time.  The
    separator is any one character: in UTF-8 one byte, or a first byte
    that tells how many more belong to it. *)
Definition after_separator (sep : ascii) (rest : string) : string :=
  let n := nat_of_ascii sep in
  let drop (k : nat) := String.substring k (String.length rest - k) rest in
  if (n <? 128)%nat then rest
  else if (240 <=? n)%nat then drop 3%nat
  else if (224 <=? n)%nat then drop 2%nat
  else drop 1%nat.

(** [datetime.fromisoformat(s)] for the format Python 3.7 to 3.10
    document,
    [YYYY-MM-DD[*HH[:MM[:SS[.fff[fff]]]][+HH:MM[:SS[.ffffff]]]]], where [*]
    is any one character; [None] is Python's [ValueError]. *)
Definition fromisoformat (s : string) : option datetime :=
  match take_digits 4 s with
  | None => None
  | Some (y, s1) =>
  match expect "-" s1 with
  | None => None
  | Some s2 =>
  match take_digits 2 s2 with
  | None => None
  | Some (m, s3) =>
  match expect "-" s3 with
  | None => None
  | Some s4 =>
  match take_digits 2 s4 with
  | None => None
  | Some (d, s5) =>
      let dd := mkDate y m d in
      match s5 with
      | EmptyString =>
          if valid_date dd then Some (mkDatetime dd 0 0 0 0 None) else None
      | String sep rest =>
          match parse_hh_mm_ss_ff (after_separator sep rest) with
          | None => None
          | Some (h, mi, sec, us, s7) =>
              match parse_offset s7 with
              | None => None
              | Some tz =>
                  if valid_date dd && valid_time h mi sec us
                  then Some (mkDatetime dd h mi sec us tz)
                  else None
              end
          end
      end
  end end end end end.

(** *** Differences *)

(** [(a - b)] in microseconds, for two naive datetimes. *)
Definition diff_microseconds (a b : datetime) : Z :=
  let secs t := second t + minute t * 60 + hour t * 3600 in
  ((toordinal (dt_date a) - toordinal (dt_date b)) * 86400
   + (secs a - secs b)) * 1000000
  + (microsecond a - microsecond b).

(** [timedelta.total_seconds()]: the microseconds divided by [10**6]. *)
Definition total_seconds (us : Z) : Float.float :=
  Float.int_truediv us (10 ^ 6).

(** Datetimes compare by date and time of day when both are naive. *)
Definition datetime_le (a b : datetime) : bool :=
  0 <=? diff_microseconds b a.

End Datetime.

(* ================================================================= *)
(** ** Python dicts with string keys *)

Module Dict.

(** A dict keeps its keys in insertion order; assigning to a key that is
    present replaces the value where it stands. *)
Definition dict (V : Type) : Type := list (string * V).

Fixpoint get {V} (d : dict V) (k : string) : option V :=
  match d with
  | [] => None
  | (k', v) :: d' => if String.eqb k k' then Some v else get d' k
  end.

Fixpoint set {V} (d : dict V) (k : string) (v : V) : dict V :=
  match d with
  | [] => [(k, v)]
  | (k', v') :: d' =>
      if String.eqb k k' then (k', v) :: d' else (k', v') :: set d' k v
  end.

Definition has {V} (d : dict V) (k : string) : bool :=
  match get d k with Some _ => true | None => false end.

(** [dict(pairs)]: later pairs overwrite earlier ones. *)
Definition of_pairs {V} (ps : list (string * V)) : dict V :=
  fold_left (fun d kv => set d (fst kv) (snd kv)) ps [].

Definition keys {V} (d : dict V) : list string := map fst d.
Definition values {V} (d : dict V) : list V := map snd d.

(** The attributes of the built-in type [dict]. *)
Definition attributes : list string :=
  ["clear"; "copy"; "fromkeys"; "get"; "items"; "keys"; "pop"; "popitem";
   "setdefault"; "update"; "values"]%string.

End Dict.

(* ================================================================= *)
(** ** Floats as text: [float(str)] and [repr(float)] *)

Module FloatText.

Import Float.
Open Scope string_scope.
Open Scope Z_scope.

(** The double nearest to [(-1)^neg * c * 10^e]. *)
Definition of_decimal (neg : bool) (c e : Z) : float :=
  if c =? 0 then signed_zero neg
  else if 0 <=? e then of_ratio neg (c * 10 ^ e * scale) 1
  else of_ratio neg (c * scale) (10 ^ (- e)).

(** Is [10^e <= a * 2^-1074]? *)
Definition pow10_le (e a : Z) : bool :=
  if 0 <=? e then 10 ^ e * scale <=? a else scale <=? a * 10 ^ (- e).

(** The largest [e <= hi] with [10^e <= a * 2^-1074], searched downwards
    from [hi]. *)
Fixpoint dec_exp_from (fuel : nat) (hi a : Z) : Z :=
  match fuel with
  | O => hi
  | S f => if pow10_le hi a then hi else dec_exp_from f (hi - 1) a
  end.

(** The decimal exponent of [a * 2^-1074]: [floor (log10 (a * 2^-1074))],
    found from the binary exponent ([log10 2] is about 0.30103). *)
Definition dec_exp (a : Z) : Z :=
  dec_exp_from 4 ((Z.log2 a - 1074) * 30103 / 100000 + 1) a.

(** The shortest decimal [c * 10^e] that rounds to [Fnum a], trying [p],
    [p + 1], ... significant digits; of two candidates the one nearer to
    the float wins. *)
Fixpoint shortest (fuel : nat) (p n10 a : Z) : Z * Z :=
  let e := n10 - (p - 1) in
  let num := if 0 <=? e then a else a * 10 ^ (- e) in
  let den := if 0 <=? e then scale * 10 ^ e else scale in
  let lo := num / den in
  let near := rne num den in
  let far := if near =? lo then lo + 1 else lo in
  let hits c :=
    match of_decimal false c e with
    | Fnum k => k =? a
    | _ => false
    end in
  match fuel with
  | O => (near, e)
  | S f =>
      if hits near then (near, e)
      else if hits far then (far, e)
      else shortest f (p + 1) n10 a
  end.

Definition string_of_nonneg (z : Z) : string :=
  NilZero.string_of_uint (N.to_uint (Z.to_N z)).

Definition string_of_Z (z : Z) : string :=
  if z <? 0 then "-" ++ string_of_nonneg (- z) else string_of_nonneg z.

(** Drop the trailing zeros of a decimal coefficient. *)
Fixpoint strip_zeros (fuel : nat) (c e : Z) : Z * Z :=
  match fuel with
  | O => (c, e)
  | S f => if (c mod 10 =? 0) && negb (c =? 0)
           then strip_zeros f (c / 10) (e + 1) else (c, e)
  end.

Fixpoint zeros (n : nat) : string :=
  match n with O => "" | S n' => "0" ++ zeros n' end.

Definition substring_from (n : nat) (s : string) : string :=
  String.substring n (String.length s - n) s.

(** [repr(x)] for a finite non-zero magnitude: digits and the position of
    the decimal point, then fixed or exponent notation as Python's
    [float_repr_style == 'short'] chooses. *)
Definition repr_magnitude (a : Z) : string :=
  let n10 := dec_exp a in
  let '(c0, e0) := shortest 17 1 n10 a in
  let '(c, e) := strip_zeros 20 c0 e0 in
  let ds := string_of_nonneg c in
  let len := Z.of_nat (String.length ds) in
  let decpt := len + e in
  if (decpt <? -3) || (16 <? decpt) then
    let x := decpt - 1 in
    let mant := String.substring 0 1 ds ++
                (if len =? 1 then "" else "." ++ substring_from 1 ds) in
    let xs := string_of_nonneg (Z.abs x) in
    mant ++ "e" ++ (if x <? 0 then "-" else "+") ++
    (if Z.abs x <? 10 then "0" ++ xs else xs)
  else if decpt <=? 0 then
    "0." ++ zeros (Z.to_nat (- decpt)) ++ ds
  else if len <=? decpt then
    ds ++ zeros (Z.to_nat (decpt - len)) ++ ".0"
  else
    String.substring 0 (Z.to_nat decpt) ds ++ "." ++
    substring_from (Z.to_nat decpt) ds.

(** [repr(x)], which is also [str(x)]. *)
Definition repr (x : float) : string :=
  match x with
  | Fnan => "nan"
  | Finf false => "inf"
  | Finf true => "-inf"
  | Fnzero => "-0.0"
  | Fnum k =>
      if k =? 0 then "0.0"
      else (if k <? 0 then "-" else "") ++ repr_magnitude (Z.abs k)
  end.

End FloatText.

(* ================================================================= *)
(** ** Python's [json] *)

Module Json.

Import Float.
Open Scope string_scope.
Open Scope Z_scope.

(** The Python values [json.load] can return; [json.dump] accepts the
    same.  A [str] is modelled by its UTF-8 bytes; a lone surrogate, which
    a [str] may hold, by the three bytes the same scheme gives it. *)
Inductive json : Type :=
| JNull
| JBool (b : bool)
| JInt (z : Z)
| JFloat (x : float)
| JStr (s : string)
| JList (l : list json)
| JDict (d : list (string * json)).

Definition dquote : ascii := "034"%char.
Definition newline : ascii := "010"%char.
Definition quoted (s : string) : string :=
  String dquote (s ++ String dquote "").

(** *** Encoding *)

Definition hex_digit (n : nat) : ascii :=
  if (n <? 10)%nat then ascii_of_nat (48 + n) else ascii_of_nat (87 + n).

(** ['\\u{0:04x}'.format(n)] *)
Definition escape_unit (n : N) : string :=
  let h (k : N) := hex_digit (N.to_nat (k mod 16)%N) in
  "\u" ++ String (h (n / 4096)%N) (String (h (n / 256)%N)
            (String (h (n / 16)%N) (String (h n) ""))).

(** A code point as [ensure_ascii=True] writes it when it is not a
    printable ASCII character: one escape, or the two of a surrogate pair
    from [U+10000] on. *)
Definition escape_code_point (cp : N) : string :=
  if (cp <? 65536)%N then escape_unit cp
  else
    let v := (cp - 65536)%N in
    escape_unit (55296 + v / 1024)%N ++ escape_unit (56320 + v mod 1024)%N.

(** One ASCII character of a string, escaped as [ensure_ascii=True]
    does. *)
Definition escape_char (c : ascii) : string :=
  let n := nat_of_ascii c in
  if Ascii.eqb c dquote then String "\" (String dquote "")
  else if Ascii.eqb c "\" then "\\"
  else if (n =? 10)%nat then "\n"
  else if (n =? 13)%nat then "\r"
  else if (n =? 9)%nat then "\t"
  else if (n =? 12)%nat then "\f"
  else if (n =? 8)%nat then "\b"
  else if (32 <=? n)%nat && (n <=? 126)%nat then String c ""
  else escape_unit (N.of_nat n).

(** The payload of a continuation byte of UTF-8, [10xxxxxx]. *)
Definition continuation (c : ascii) : option N :=
  let n := N_of_ascii c in
  if (128 <=? n)%N && (n <? 192)%N then Some (n - 128)%N else None.

(** The text of a string literal: the characters are read off the UTF-8
    bytes, one, two, three or four at a time.  (A byte that starts no
    character of UTF-8 does not occur in the bytes of a [str]; it is
    written as the character of that number.) *)
Fixpoint escape (s : string) : string :=
  match s with
  | EmptyString => ""
  | String c r =>
      let n := N_of_ascii c in
      let single := escape_char c ++ escape r in
      if (n <? 192)%N then single
      else
        match r with
        | String c1 r1 =>
            match continuation c1 with
            | None => single
            | Some x1 =>
                if (n <? 224)%N
                then escape_code_point ((n - 192) * 64 + x1)%N ++ escape r1
                else
                  match r1 with
                  | String c2 r2 =>
                      match continuation c2 with
                      | None => single
                      | Some x2 =>
                          if (n <? 240)%N
                          then escape_code_point
                                 ((n - 224) * 4096 + x1 * 64 + x2)%N ++
                               escape r2
                          else
                            match r2 with
                            | String c3 r3 =>
                                match continuation c3 with
                                | None => single
                                | Some x3 =>
                                    escape_code_point
                                      ((n - 240) * 262144 + x1 * 4096 +
                                       x2 * 64 + x3)%N ++
                                    escape r3
                                end
                            | EmptyString => single
                            end
                      end
                  | EmptyString => single
                  end
            end
        | EmptyString => single
        end
  end.

Definition encode_str (s : string) : string := quoted (escape s).

Definition encode_float (x : float) : string :=
  match x with
  | Fnan => "NaN"
  | Finf false => "Infinity"
  | Finf true => "-Infinity"
  | _ => FloatText.repr x
  end.

Fixpoint spaces (n : nat) : string :=
  match n with O => "" | S n' => " " ++ spaces n' end.

(** The text between two items: [", "] without indentation, a comma and a
    fresh indented line with it. *)
Definition item_sep (indent : option nat) (level : nat) : string :=
  match indent with
  | None => ", "
  | Some n => "," ++ String newline (spaces (n * level))
  end.

Definition open_with (indent : option nat) (level : nat) : string :=
  match indent with
  | None => ""
  | Some n => String newline (spaces (n * level))
  end.

Fixpoint join (sep : string) (l : list string) : string :=
  match l with
  | [] => ""
  | [x] => x
  | x :: r => x ++ sep ++ join sep r
  end.

(** [JSONEncoder(indent=indent).encode(v)]; [level] is the nesting depth. *)
Fixpoint encode (indent : option nat) (level : nat) (v : json) : string :=
  match v with
  | JNull => "null"
  | JBool true => "true"
  | JBool false => "false"
  | JInt z => FloatText.string_of_Z z
  | JFloat x => encode_float x
  | JStr s => encode_str s
  | JList [] => "[]"
  | JList l =>
      "[" ++ open_with indent (S level) ++
      join (item_sep indent (S level)) (map (encode indent (S level)) l) ++
      open_with indent level ++ "]"
  | JDict [] => "{}"
  | JDict d =>
      "{" ++ open_with indent (S level) ++
      join (item_sep indent (S level))
        ((fix members (d : list (string * json)) : list string :=
            match d with
            | [] => []
            | (k, x) :: d' =>
                (encode_str k ++ ": " ++ encode indent (S level) x)
                :: members d'
            end) d) ++
      open_with indent level ++ "}"
  end.

Definition dumps (indent : option nat) (v : json) : string :=
  encode indent 0 v.

(** The keyword parameters of [JSONEncoder.__init__]; [json.dump] passes
    every keyword argument it is given on to it. *)
Definition encoder_parameters : list string :=
  ["skipkeys"; "ensure_ascii"; "check_circular"; "allow_nan"; "sort_keys";
   "indent"; "separators"; "default"].

(** *** Decoding *)

Definition is_ws (c : ascii) : bool :=
  let n := nat_of_ascii c in
  (n =? 32)%nat || (n =? 9)%nat || (n =? 10)%nat || (n =? 13)%nat.

Fixpoint skip_ws (s : string) : string :=
  match s with
  | String c r => if is_ws c then skip_ws r else s
  | EmptyString => s
  end.

Definition hex_val (c : ascii) : option nat :=
  let n := nat_of_ascii c in
  if (48 <=? n)%nat && (n <=? 57)%nat then Some (n - 48)%nat
  else if (97 <=? n)%nat && (n <=? 102)%nat then Some (n - 87)%nat
  else if (65 <=? n)%nat && (n <=? 70)%nat then Some (n - 55)%nat
  else None.

(** The number four hexadecimal digits write. *)
Definition hex4 (h1 h2 h3 h4 : ascii) : option N :=
  match hex_val h1, hex_val h2, hex_val h3, hex_val h4 with
  | Some a, Some b, Some c, Some d =>
      Some (N.of_nat a * 4096 + N.of_nat b * 256 + N.of_nat c * 16 +
            N.of_nat d)%N
  | _, _, _, _ => None
  end.

(** The UTF-8 bytes of a code point. *)
Definition utf8 (cp : N) : string :=
  let byte (n : N) := ascii_of_N n in
  if (cp <? 128)%N then String (byte cp) ""
  else if (cp <? 2048)%N then
    String (byte (192 + cp / 64)%N) (String (byte (128 + cp mod 64)%N) "")
  else if (cp <? 65536)%N then
    String (byte (224 + cp / 4096)%N)
      (String (byte (128 + cp / 64 mod 64)%N)
         (String (byte (128 + cp mod 64)%N) ""))
  else
    String (byte (240 + cp / 262144)%N)
      (String (byte (128 + cp / 4096 mod 64)%N)
         (String (byte (128 + cp / 64 mod 64)%N)
            (String (byte (128 + cp mod 64)%N) ""))).

Definition is_high_surrogate (cp : N) : bool :=
  (55296 <=? cp)%N && (cp <? 56320)%N.

Definition is_low_surrogate (cp : N) : bool :=
  (56320 <=? cp)%N && (cp <? 57344)%N.

(** The body of a string literal after its opening quote: the decoded
    text and what follows the closing quote.  Control characters are
    refused.  A [\uXXXX] escape gives the character of that number; a high
    surrogate followed by the escape of a low one gives the one character
    the pair stands for. *)
Fixpoint scanstring (s : string) : option (string * string) :=
  match s with
  | EmptyString => None
  | String c r =>
      if Ascii.eqb c dquote then Some ("", r)
      else if Ascii.eqb c "\" then
        match r with
        | String e r1 =>
            let plain (ch : ascii) :=
              match scanstring r1 with
              | Some (t, r2) => Some (String ch t, r2)
              | None => None
              end in
            if Ascii.eqb e dquote then plain dquote
            else if Ascii.eqb e "\" then plain "\"%char
            else if Ascii.eqb e "/" then plain "/"%char
            else if Ascii.eqb e "b" then plain "008"%char
            else if Ascii.eqb e "f" then plain "012"%char
            else if Ascii.eqb e "n" then plain "010"%char
            else if Ascii.eqb e "r" then plain "013"%char
            else if Ascii.eqb e "t" then plain "009"%char
            else if Ascii.eqb e "u" then
              match r1 with
              | String h1 (String h2 (String h3 (String h4 r2))) =>
                  match hex4 h1 h2 h3 h4 with
                  | None => None
                  | Some cp =>
                      let alone :=
                        match scanstring r2 with
                        | Some (t, r3) => Some (utf8 cp ++ t, r3)
                        | None => None
                        end in
                      if is_high_surrogate cp then
                        match r2 with
                        | String b (String u (String g1 (String g2
                            (String g3 (String g4 r3))))) =>
                            if Ascii.eqb b "\" && Ascii.eqb u "u" then
                              match hex4 g1 g2 g3 g4 with
                              | None => None
                              | Some low =>
                                  if is_low_surrogate low then
                                    match scanstring r3 with
                                    | Some (t, r4) =>
                                        Some (utf8 (65536 +
                                                    (cp - 55296) * 1024 +
                                                    (low - 56320))%N ++ t,
                                              r4)
                                    | None => None
                                    end
                                  else alone
                              end
                            else alone
                        | _ => alone
                        end
                      else alone
                  end
              | _ => None
              end
            else None
        | EmptyString => None
        end
      else if (nat_of_ascii c <? 32)%nat then None
      else
        match scanstring r with
        | Some (t, r') => Some (String c t, r')
        | None => None
        end
  end.

(** A run of decimal digits: its value, its length, the rest. *)
Fixpoint scan_digits (s : string) (acc : Z) (n : Z) : Z * Z * string :=
  match s with
  | String c r =>
      if Datetime.is_digit c
      then scan_digits r (10 * acc + Datetime.digit_val c) (n + 1)
      else (acc, n, s)
  | EmptyString => (acc, n, s)
  end.

Definition starts_with_digit (s : string) : bool :=
  match s with
  | String c _ => Datetime.is_digit c
  | EmptyString => false
  end.

(** A number: an optional minus sign, the integer part (a lone zero, or
    digits that do not start with a zero), an optional fraction (a point
    and digits) and an optional exponent (e or E, an optional sign and
    digits).  It is an int unless it has a fraction or an exponent. *)
Definition scan_number (s : string) : option (json * string) :=
  let '(neg, s0) :=
    match s with
    | String "-" r => (true, r)
    | _ => (false, s)
    end in
  if negb (starts_with_digit s0) then None
  else
    let '(ip, s1) :=
      match s0 with
      | String "0" r => (0, r)
      | _ => let '(v, _, r) := scan_digits s0 0 0 in (v, r)
      end in
    let '(fp, flen, s2) :=
      match s1 with
      | String "." r =>
          if starts_with_digit r then
            let '(v, n, r') := scan_digits r 0 0 in (Some v, n, r')
          else (None, 0, s1)
      | _ => (None, 0, s1)
      end in
    let '(ep, s3) :=
      match s2 with
      | String c r =>
          if Ascii.eqb c "e" || Ascii.eqb c "E" then
            let '(eneg, r1) :=
              match r with
              | String "-" r' => (true, r')
              | String "+" r' => (false, r')
              | _ => (false, r)
              end in
            if starts_with_digit r1 then
              let '(v, _, r2) := scan_digits r1 0 0 in
              (Some (if eneg then - v else v), r2)
            else (None, s2)
          else (None, s2)
      | EmptyString => (None, s2)
      end in
    match fp, ep with
    | None, None => Some (JInt (if neg then - ip else ip), s3)
    | _, _ =>
        let f := match fp with Some v => v | None => 0 end in
        let e := match ep with Some v => v | None => 0 end in
        Some (JFloat (FloatText.of_decimal neg (ip * 10 ^ flen + f) (e - flen)),
              s3)
    end.

Definition strip_prefix (p s : string) : option string :=
  if String.prefix p s
  then Some (String.substring (String.length p)
                              (String.length s - String.length p) s)
  else None.

Definition scan_constant (s : string) : option (json * string) :=
  match strip_prefix "null" s with Some r => Some (JNull, r) | None =>
  match strip_prefix "true" s with Some r => Some (JBool true, r) | None =>
  match strip_prefix "false" s with Some r => Some (JBool false, r) | None =>
  match strip_prefix "NaN" s with Some r => Some (JFloat Fnan, r) | None =>
  match strip_prefix "Infinity" s with
  | Some r => Some (JFloat (Finf false), r) | None =>
  match strip_prefix "-Infinity" s with
  | Some r => Some (JFloat (Finf true), r) | None => scan_number s
  end end end end end end.

(** What the scanner is reading: one value, the rest of an array, or the
    rest of an object. *)
Inductive mode : Type :=
| MValue
| MElems (acc : list json)
| MMembers (acc : list (string * json)).

(** [scan_once]: one value from the front of [s].  Of any two steps in a
    row one consumes a character, so twice the length of [s] is fuel
    enough. *)
Fixpoint scan (fuel : nat) (m : mode) (s : string) : option (json * string) :=
  match fuel with
  | O => None
  | S f =>
    match m with
    | MValue =>
        match s with
        | String "{" r =>
            match skip_ws r with
            | String "}" r' => Some (JDict [], r')
            | r' => scan f (MMembers []) r'
            end
        | String "[" r =>
            match skip_ws r with
            | String "]" r' => Some (JList [], r')
            | r' => scan f (MElems []) r'
            end
        | String c r =>
            if Ascii.eqb c dquote then
              match scanstring r with
              | Some (t, r') => Some (JStr t, r')
              | None => None
              end
            else scan_constant s
        | EmptyString => None
        end
    | MElems acc =>
        match scan f MValue s with
        | Some (v, r) =>
            match skip_ws r with
            | String "," r' => scan f (MElems (v :: acc)) (skip_ws r')
            | String "]" r' => Some (JList (rev (v :: acc)), r')
            | _ => None
            end
        | None => None
        end
    | MMembers acc =>
        match s with
        | String c r =>
            if Ascii.eqb c dquote then
              match scanstring r with
              | Some (k, r1) =>
                  match skip_ws r1 with
                  | String ":" r2 =>
                      match scan f MValue (skip_ws r2) with
                      | Some (v, r3) =>
                          match skip_ws r3 with
                          | String "," r4 =>
                              scan f (MMembers ((k, v) :: acc)) (skip_ws r4)
                          | String "}" r4 =>
                              Some (JDict (Dict.of_pairs (rev ((k, v) :: acc))),
                                    r4)
                          | _ => None
                          end
                      | None => None
                      end
                  | _ => None
                  end
              | None => None
              end
            else None
        | EmptyString => None
        end
    end
  end.

(** [json.loads(s)]; [None] is Python's [JSONDecodeError]. *)
Definition loads (s : string) : option json :=
  match scan (2 * String.length s + 2) MValue (skip_ws s) with
  | Some (v, r) =>
      match skip_ws r with
      | EmptyString => Some v
      | _ => None
      end
  | None => None
  end.

(** *** The limits of the interpreter *)

(** The decoder above reads arrays and objects nested to any depth and
    ints of any length.  The interpreter does not: a text nested deeper
    than its recursion limit allows (a thousand frames unless it is
    changed) raises [RecursionError], and newer versions refuse an int of
    more than 4300 digits with [ValueError].  The two measures below tell
    how far a text is from either. *)

(** The deepest nesting of brackets outside string literals. *)
Fixpoint nesting_from (s : string) (in_string escaped : bool)
                      (depth deepest : N) : N :=
  match s with
  | EmptyString => deepest
  | String c r =>
      if in_string then
        if escaped then nesting_from r true false depth deepest
        else if Ascii.eqb c "\" then nesting_from r true true depth deepest
        else if Ascii.eqb c dquote
        then nesting_from r false false depth deepest
        else nesting_from r true false depth deepest
      else if Ascii.eqb c dquote then nesting_from r true false depth deepest
      else if Ascii.eqb c "[" || Ascii.eqb c "{" then
        nesting_from r false false (depth + 1) (N.max deepest (depth + 1))
      else if Ascii.eqb c "]" || Ascii.eqb c "}" then
        nesting_from r false false (depth - 1) deepest
      else nesting_from r false false depth deepest
  end.

Definition nesting (s : string) : N := nesting_from s false false 0 0.

(** The longest run of decimal digits. *)
Fixpoint digit_run_from (s : string) (run longest : N) : N :=
  match s with
  | EmptyString => longest
  | String c r =>
      if Datetime.is_digit c
      then digit_run_from r (run + 1) (N.max longest (run + 1))
      else digit_run_from r 0 longest
  end.

Definition digit_run (s : string) : N := digit_run_from s 0 0.

(** A text well within both limits. *)
Definition moderate (s : string) : bool :=
  (nesting s <=? 100)%N && (digit_run s <=? 1000)%N.

End Json.

(* ================================================================= *)
(** ** The process: exceptions, the world, the monad *)

Module Py.

Import Float Datetime Json.
Open Scope string_scope.
Open Scope Z_scope.

(** The exceptions the program can meet.  [Unmodelled] is none of
    Python's: it marks where a run leaves what the embedding follows. *)
Inductive exn : Type :=
| FileNotFoundError (path : string)
| IsADirectoryError (path : string)
| PermissionError (path : string)
| UnicodeDecodeError
| JSONDecodeError
| TypeError (what : string)
| ValueError (what : string)
| AttributeError (type_name attr : string)
| KeyError (key : string)
| UnboundLocalError (name : string)
| OverflowError
| ZeroDivisionError
| SystemExit (code : Z)
| Unmodelled (what : string).

Inductive result (A : Type) : Type :=
| Ok (a : A)
| Raise (e : exn).
Arguments Ok {A} a.
Arguments Raise {A} e.

(** What a path names. *)
Inductive node : Type :=
| File (content : string)   (* a file and the text Python reads from it *)
| Undecodable         (* a file whose bytes are no text in the encoding
                         Python reads it with *)
| Directory
| Locked.             (* a file the user may neither read nor write *)

(** What the program does besides printing and writing files. *)
Inductive effect : Type :=
| Sleep (seconds : Z)
| BarChart (labels : list string) (heights : list float).

(** The world outside the interpreter: [clock n] is what the [n]-th call
    of [datetime.now()] returns. *)
Record World : Type := mkWorld {
  clock : nat -> datetime;
  ticks : nat;
  files : Dict.dict node;
  stdout : list string;
  effects : list effect
}.

(** Computations over a state [S] that return or raise; the state
    survives an exception. *)
Definition M (S A : Type) : Type := S -> result A * S.

Definition ret {S A} (a : A) : M S A := fun s => (Ok a, s).

Definition raise {S A} (e : exn) : M S A := fun s => (Raise e, s).

Definition bind {S A B} (m : M S A) (k : A -> M S B) : M S B :=
  fun s =>
    match m s with
    | (Ok a, s') => k a s'
    | (Raise e, s') => (Raise e, s')
    end.

Notation "x <- m ;; k" := (bind m (fun x => k))
  (at level 61, m at next level, right associativity).
Notation "m ;;; k" := (bind m (fun _ => k))
  (at level 61, right associativity).

(** [try: m  except <the exceptions h accepts>: ...] *)
Definition try_except {S A} (m : M S A) (h : exn -> option (M S A)) : M S A :=
  fun s =>
    match m s with
    | (Raise e, s') =>
        match h e with
        | Some k => k s'
        | None => (Raise e, s')
        end
    | r => r
    end.

Definition of_option {S A} (o : option A) (e : exn) : M S A :=
  match o with
  | Some a => ret a
  | None => raise e
  end.

(** *** The world's operations *)

(** [datetime.now()] *)
Definition now : M World datetime :=
  fun w => (Ok (clock w (ticks w)),
            mkWorld (clock w) (S (ticks w)) (files w) (stdout w) (effects w)).

(** [print(line)] *)
Definition print (line : string) : M World unit :=
  fun w => (Ok tt,
            mkWorld (clock w) (ticks w) (files w) (stdout w ++ [line])
                    (effects w)).

Definition perform (e : effect) : M World unit :=
  fun w => (Ok tt,
            mkWorld (clock w) (ticks w) (files w) (stdout w)
                    (effects w ++ [e])).

Definition set_files (fs : Dict.dict node) (w : World) : World :=
  mkWorld (clock w) (ticks w) fs (stdout w) (effects w).

(** [open(path, 'r').read()] *)
Definition read_file (path : string) : M World string :=
  fun w =>
    match Dict.get (files w) path with
    | None => (Raise (FileNotFoundError path), w)
    | Some (File c) => (Ok c, w)
    | Some Undecodable => (Raise UnicodeDecodeError, w)
    | Some Directory => (Raise (IsADirectoryError path), w)
    | Some Locked => (Raise (PermissionError path), w)
    end.

(** [open(path, 'w')]: the file is created, or emptied if it exists. *)
Definition open_write (path : string) : M World unit :=
  fun w =>
    match Dict.get (files w) path with
    | Some Directory => (Raise (IsADirectoryError path), w)
    | Some Locked => (Raise (PermissionError path), w)
    | _ => (Ok tt, set_files (Dict.set (files w) path (File "")) w)
    end.

(** [f.write(text)] on a file opened for writing. *)
Definition write (path : string) (text : string) : M World unit :=
  fun w =>
    match Dict.get (files w) path with
    | Some (File c) =>
        (Ok tt, set_files (Dict.set (files w) path (File (c ++ text))) w)
    | _ => (Raise (ValueError "I/O operation on closed file"), w)
    end.

(** *** Calls *)

Definition mem (x : string) (l : list string) : bool :=
  existsb (String.eqb x) l.

(** The first keyword argument a callee does not know makes the call
    raise [TypeError]. *)
Fixpoint check_keywords {S} (callee : string) (accepted given : list string)
  : M S unit :=
  match given with
  | [] => ret tt
  | k :: rest =>
      if mem k accepted then check_keywords callee accepted rest
      else raise (TypeError (callee ++
                  " got an unexpected keyword argument '" ++ k ++ "'"))
  end.

(** [json.load(f)] on the text of [f]. *)
Definition json_load {S} (text : string) : M S json :=
  of_option (loads text) JSONDecodeError.

(** [json.dump(obj, f, **kw)]: the encoder is built from the keyword
    arguments, then its output is written.  Of the keywords only [indent]
    changes the text in this model. *)
Definition json_dump (obj : json) (path : string)
                     (kw : list (string * json)) : M World unit :=
  check_keywords "JSONEncoder.__init__()" ("cls" :: encoder_parameters)
                 (map fst kw) ;;;
  let indent := match Dict.get kw "indent" with
                | Some (JInt n) => Some (Z.to_nat n)
                | _ => None
                end in
  write path (dumps indent obj).

End Py.

(* ================================================================= *)
(** ** The data model *)

Module Ledger.

Import Float Json.
Open Scope string_scope.

(** A session as [end_session] builds it.  [end_time] is [None] when the
    dict has no such key; [description] is [None] for Python's [None]. *)
Record Session : Type := mkSession {
  start_time : string;
  end_time : option string;
  duration : float;
  category : string;
  description : option string
}.

(** [self.data]: the sessions in insertion order and the goals, a dict
    from category to hours per week. *)
Record Ledger : Type := mkLedger {
  sessions : list Session;
  goals : Dict.dict float
}.

Definition empty : Ledger := mkLedger [] [].

(** The dict a session is, keys in the order [end_session] writes them. *)
Definition session_items (s : Session) : Dict.dict json :=
  ([("start_time", JStr (start_time s))] ++
   match end_time s with
   | Some e => [("end_time", JStr e)]
   | None => []
   end ++
   [("duration", JFloat (duration s));
    ("category", JStr (category s));
    ("description", match description s with
                    | Some d => JStr d
                    | None => JNull
                    end)])%list.

Definition to_json (l : Ledger) : json :=
  JDict [("sessions", JList (map (fun s => JDict (session_items s))
                                 (sessions l)));
         ("goals", JDict (map (fun kv => (fst kv, JFloat (snd kv)))
                              (goals l)))].

(** A number of the ledger: a float, as [round(duration, 2)] and
    [type=float] make them.  (An int would stay an int in Python.) *)
Definition as_float (v : json) : option float :=
  match v with
  | JFloat x => Some x
  | _ => None
  end.

(** The keys of a session.  [csv.DictWriter] refuses a dict with any
    other key. *)
Definition session_keys : list string :=
  ["start_time"; "end_time"; "duration"; "category"; "description"].

(** The session a dict of a document is, when it is one the record holds
    without loss. *)
Definition session_of_json (v : json) : option Session :=
  match v with
  | JDict d =>
      if forallb (fun kv => existsb (String.eqb (fst kv)) session_keys) d
      then
        match Dict.get d "start_time", Dict.get d "duration",
              Dict.get d "category" with
        | Some (JStr st), Some dv, Some (JStr c) =>
            match as_float dv,
                  match Dict.get d "end_time" with
                  | None => Some None
                  | Some (JStr e) => Some (Some e)
                  | Some _ => None
                  end,
                  match Dict.get d "description" with
                  | Some (JStr t) => Some (Some t)
                  | Some JNull | None => Some None
                  | Some _ => None
                  end with
            | Some x, Some e, Some t => Some (mkSession st e x c t)
            | _, _, _ => None
            end
        | _, _, _ => None
        end
      else None
  | _ => None
  end.

Fixpoint all_some {A B} (f : A -> option B) (l : list A) : option (list B) :=
  match l with
  | [] => Some []
  | a :: r =>
      match f a, all_some f r with
      | Some b, Some bs => Some (b :: bs)
      | _, _ => None
      end
  end.

(** The ledger a loaded document is, when it has the shape of one. *)
Definition of_json (v : json) : option Ledger :=
  match v with
  | JDict d =>
      match Dict.get d "sessions", Dict.get d "goals" with
      | Some (JList ss), Some (JDict gs) =>
          match all_some session_of_json ss,
                all_some (fun kv => match as_float (snd kv) with
                                    | Some x => Some (fst kv, x)
                                    | None => None
                                    end) gs with
          | Some ss', Some gs' => Some (mkLedger ss' gs')
          | _, _ => None
          end
      | _, _ => None
      end
  | _ => None
  end.

End Ledger.

(* ================================================================= *)
(** ** [class DeepWorkTracker] *)

Module DeepWorkTracker.

Import Float Datetime Json Py Ledger.
Open Scope string_scope.
Open Scope Z_scope.

(** An instance: its two attributes. *)
Record Tracker : Type := mkTracker {
  filename : string;
  data : Ledger
}.

(** A running method sees the instance and the world. *)
Record Process : Type := mkProcess {
  self : Tracker;
  world : World
}.

Definition Method (A : Type) : Type := M Process A.

(** Run a computation on the world from inside a method. *)
Definition io {A} (m : M World A) : Method A :=
  fun p =>
    let '(r, w) := m (world p) in (r, mkProcess (self p) w).

Definition get_self : Method Tracker := fun p => (Ok (self p), p).

Definition set_data (l : Ledger) : Method unit :=
  fun p => (Ok tt, mkProcess (mkTracker (filename (self p)) l) (world p)).

(** The names an instance answers to: its attributes and the methods of
    the class. *)
Definition attributes : list string :=
  ["filename"; "data"; "__init__"; "load_data"; "save_data";
   "start_session"; "end_session"; "list_sessions"; "get_total_time";
   "get_summary"; "export_to_csv"; "pomodoro_timer"; "set_goal";
   "get_goals"; "track_goals"; "calculate_productivity_score";
   "visualize_time_distribution"].

(** [{"sessions": [], "goals": {}}] *)
Definition empty_document : json := Ledger.to_json Ledger.empty.

(** The body of the [try] in [load_data]: open the file for reading and
    decode its text. *)
Definition read_document (filename : string) : M World json :=
  text <- read_file filename ;;
  json_load text.

(** [load_data]: line 14.  It reads [self.filename] only. *)
Definition load_data (filename : string) : M World json :=
  try_except
    (read_document filename)
    (fun e => match e with
              | FileNotFoundError _ => Some (ret empty_document)
              | _ => None
              end).

(** [__init__]: line 10.  The instance holds the file name and what
    [load_data] returns, which the embedding keeps as a [Ledger].  Python
    constructs the instance from any document; where it is no such
    ledger the embedding stops (see [Unmodelled]). *)
Definition init (filename : string) : M World Tracker :=
  doc <- load_data filename ;;
  match Ledger.of_json doc with
  | Some l => ret (mkTracker filename l)
  | None => raise (Unmodelled "self.data is not a ledger of the program")
  end.

(** [save_data]: line 21. *)
Definition save_data : Method unit :=
  t <- get_self ;;
  io (open_write (filename t)) ;;;
  io (json_dump (Ledger.to_json (data t)) (filename t)
                [("incident", JInt 2)]).

(** [start_session]: line 25. *)
Definition start_session (category : string) : Method (string * string) :=
  t <- io now ;;
  let start_time := isoformat t in
  io (print "Deep work started at {start_time}") ;;;
  ret (start_time, category).

(** [a - b] for two datetimes, in microseconds. *)
Definition datetime_sub {S} (a b : datetime) : M S Z :=
  match tzoffset a, tzoffset b with
  | None, None => ret (diff_microseconds a b)
  | Some oa, Some ob => ret (diff_microseconds a b - oa + ob)
  | _, _ =>
      raise (TypeError "can't subtract offset-naive and offset-aware datetimes")
  end.

Definition parse_datetime {S} (s : string) : M S datetime :=
  of_option (fromisoformat s) (ValueError "Invalid isoformat string").

(** [x / y] on floats. *)
Definition divide {S} (x y : float) : M S float :=
  of_option (fdiv x y) ZeroDivisionError.

(** [end_session]: line 30. *)
Definition end_session (start_time category : string)
                       (description : option string) : Method unit :=
  t <- io now ;;
  let end_time := isoformat t in
  e <- parse_datetime end_time ;;
  s <- parse_datetime start_time ;;
  delta <- datetime_sub e s ;;
  duration <- divide (total_seconds delta) (of_Z 3600) ;;
  let session := mkSession start_time (Some end_time) (round2 duration)
                           category description in
  me <- get_self ;;
  set_data (mkLedger (sessions (data me) ++ [session]) (goals (data me))) ;;;
  save_data ;;;
  io (print "Session ended. Duration: {round(duration, 2)}hours").

Definition print_lines (lines : list string) : M World unit :=
  fold_right (fun l k => print l ;;; k) (ret tt) lines.

(** [list_sessions]: line 44.  No string is an f-string, so every session
    prints the same seven lines. *)
Definition list_sessions : Method unit :=
  t <- get_self ;;
  io (fold_right
        (fun (_ : Session) k =>
           print_lines ["Session {i}:";
                        "Start: {session['start_time']}";
                        "End: {session['end_time']}";
                        "Duration: {session['duration']} hours";
                        "Category: {session['category]}";
                        "Description: {session['description']}";
                        ""] ;;; k)
        (ret tt) (sessions (data t))).

(** [get_total_time]: line 54. *)
Definition get_total_time : Method float :=
  t <- get_self ;;
  ret (round2 (fsum (map duration (sessions (data t))))).

(** What [get_summary] returns. *)
Record Summary : Type := mkSummary {
  total_time : float;
  category_time : Dict.dict float;
  num_sessions : Z
}.

(** The first lines of [get_summary]: the date the period starts at. *)
Definition period_start (period : string) : M World date :=
  if String.eqb period "daily" then
    t <- now ;; ret (dt_date t)
  else if String.eqb period "weekly" then
    t1 <- now ;;
    t2 <- now ;;
    of_option (date_sub_days (dt_date t1) (weekday (dt_date t2)))
              OverflowError
  else ret date_min.

(** The list comprehension of line 66: sessions that start on
    [start_date] or later, in order.  The first start time that does not
    parse raises. *)
Fixpoint filter_since {S} (start_date : date) (l : list Session)
  : M S (list Session) :=
  match l with
  | [] => ret []
  | s :: rest =>
      t <- parse_datetime (start_time s) ;;
      kept <- filter_since start_date rest ;;
      ret (if date_ge (dt_date t) start_date then s :: kept else kept)
  end.

(** [category_time[c] += d] on a [defaultdict(float)]. *)
Definition add_to (d : Dict.dict float) (c : string) (x : float)
  : Dict.dict float :=
  Dict.set d c (fadd (match Dict.get d c with
                      | Some v => v
                      | None => Fnum 0
                      end) x).

(** The loop of line 73. *)
Definition sum_by_category (l : list Session) : Dict.dict float :=
  fold_left (fun d s => add_to d (category s) (duration s)) l [].

(** The dict, sums and count line 76 returns for the filtered sessions. *)
Definition summarize (filtered : list Session) : Summary :=
  mkSummary (round2 (fsum (map duration filtered)))
            (map (fun kv => (fst kv, round2 (snd kv)))
                 (sum_by_category filtered))
            (Z.of_nat (List.length filtered)).

(** [get_summary]: line 58. *)
Definition get_summary (period : string) : Method Summary :=
  start_date <- io (period_start period) ;;
  t <- get_self ;;
  filtered <- filter_since start_date (sessions (data t)) ;;
  ret (summarize filtered).

(** One field of a CSV row, quoted when it has to be. *)
Definition csv_field (s : string) : string :=
  let special c := Ascii.eqb c "," || Ascii.eqb c dquote ||
                   Ascii.eqb c "010" || Ascii.eqb c "013" in
  if existsb special (list_ascii_of_string s) then
    quoted (String.concat ""
      (map (fun c => if Ascii.eqb c dquote then String dquote (String dquote "")
                     else String c "")
           (list_ascii_of_string s)))
  else s.

Definition csv_row (fields : list string) : string :=
  String.concat "," (map csv_field fields) ++
  String "013" (String "010" "").

(** [export_to_csv]: line 82. *)
Definition export_to_csv (path : string) : Method unit :=
  t <- get_self ;;
  io (open_write path) ;;;
  io (write path (csv_row ["start_time"; "end_time"; "duration"; "category";
                           "description"])) ;;;
  io (fold_right
        (fun s k =>
           write path (csv_row [start_time s;
                                match end_time s with
                                | Some e => e
                                | None => ""
                                end;
                                FloatText.repr (duration s);
                                category s;
                                match description s with
                                | Some d => d
                                | None => ""
                                end]) ;;; k)
        (ret tt) (sessions (data t))) ;;;
  io (print "Data exported to {filename}").

(** [time.sleep(seconds)] for an int: the clock counts nanoseconds in 64
    bits, and a negative length is refused. *)
Definition sleep (seconds : Z) : M World unit :=
  if (seconds <? - 9223372036) || (9223372036 <? seconds)
  then raise OverflowError
  else if seconds <? 0
  then raise (ValueError "sleep length must be non-negative")
  else perform (Sleep seconds).

(** [pomodoro_timer]: line 91. *)
Definition pomodoro_timer (duration : Z) : Method unit :=
  io (print "Starting pomodoro timer for {duration} miniutes...") ;;;
  io (sleep (duration * 60)) ;;;
  io (print "Pomodoro session completed!").

(** [pomodoro_timer(duration)] for a [duration] that is no number: the
    announcement is printed, then [duration * 60] or the sleep raises
    [TypeError]. *)
Definition pomodoro_timer_without_number (complaint : string) : Method unit :=
  io (print "Starting pomodoro timer for {duration} miniutes...") ;;;
  raise (TypeError complaint).

(** [set_goal]: line 96. *)
Definition set_goal (category : string) (hours_per_week : float)
  : Method unit :=
  t <- get_self ;;
  set_data (mkLedger (sessions (data t))
                     (Dict.set (goals (data t)) category hours_per_week)) ;;;
  save_data ;;;
  io (print "Goal set for {category}: {hours_per_week} hours per week").

(** [get_goals]: line 101. *)
Definition get_goals : Method (Dict.dict float) :=
  t <- get_self ;;
  ret (goals (data t)).

(** [d.<name>()] on a dict.  A name a dict does not have raises
    [AttributeError]; of the methods a dict has the program means
    [items], and the embedding follows no other. *)
Definition dict_call {S V} (name : string) (d : Dict.dict V)
  : M S (list (string * V)) :=
  if mem name Dict.attributes then
    if String.eqb name "items" then ret d
    else raise (Unmodelled "a method of dict other than items")
  else raise (AttributeError "dict" name).

(** [track_goals]: line 104. *)
Definition track_goals : Method unit :=
  goals <- get_goals ;;
  match goals with
  | [] => io (print "No goals set. Use 'set-goals' to set some goals first.")
  | _ =>
      weekly_summary <- get_summary "weekly" ;;
      io (print "Weekly Goal Tracking:") ;;;
      items <- dict_call "item" goals ;;
      fold_right
        (fun (kv : string * float) k =>
           let goal_hours := snd kv in
           let actual_hours :=
             match Dict.get (category_time weekly_summary) (fst kv) with
             | Some v => v
             | None => Fnum 0
             end in
           progress <-
             (if flt (Fnum 0) goal_hours
              then q <- divide actual_hours goal_hours ;;
                   ret (fmul q (of_Z 100))
              else ret (Fnum 0)) ;;
           let _ := (progress : float) in
           io (print_lines ["  {category}:";
                            "     Goal: {goal_hours} hours";
                            "     Actual: {actual_hours} hours";
                            "     Progress: {progress:.2f}%"]) ;;; k)
        (ret tt) items
  end.

(** [self.<name>] for a method that takes a period and returns a summary.
    A name the instance does not have raises [AttributeError]; of the
    names it has the program means [get_summary], and the embedding
    follows no other. *)
Definition summary_method (name : string) : Method (string -> Method Summary) :=
  if mem name attributes then
    if String.eqb name "get_summary" then ret get_summary
    else raise (Unmodelled "an attribute other than get_summary")
  else raise (AttributeError "DeepWorkTracker" name).

(** [calculate_productivity_score]: line 120. *)
Definition calculate_productivity_score : Method float :=
  summary <- summary_method "summary" ;;
  weekly_summary <- summary "weekly" ;;
  let total_time := total_time weekly_summary in
  let num_sessions := num_sessions weekly_summary in
  let base_score := total_time in
  let session_bonus := fmul (of_Z num_sessions) (Fnum (scale / 2)) in
  let score := fadd base_score session_bonus in
  ret (round2 score).

(** [visualize_time_distribution]: line 131. *)
Definition visualize_time_distribution : Method unit :=
  summary <- get_summary "all" ;;
  let categories := Dict.keys (category_time summary) in
  let times := Dict.values (category_time summary) in
  io (perform (BarChart categories times)).

End DeepWorkTracker.

(* ================================================================= *)
(** ** [argparse], as far as [main] uses it *)

Module Argparse.

Import Float Json Py.
Open Scope string_scope.
Open Scope Z_scope.

(** The value of a keyword argument of [add_argument]. *)
Inductive setting : Type :=
| Text (s : string)
| Number (z : Z)
| IntType
| FloatType
| Choices (l : list string).

Record Argument : Type := mkArgument {
  arg_name : string;
  arg_settings : Dict.dict setting
}.

(** A parser with sub-commands: the attribute the chosen command is
    stored under, and each command with its arguments, in the order they
    were added. *)
Record Parser : Type := mkParser {
  dest : option string;
  commands : Dict.dict (list Argument)
}.

(** The value of an attribute of the parsed namespace. *)
Inductive value : Type :=
| VNone
| VStr (s : string)
| VInt (z : Z)
| VFloat (x : float).

Definition Namespace : Type := Dict.dict value.

(** The attributes of an [ArgumentParser] and of the object
    [add_subparsers] returns that [main] could mean. *)
Definition parser_attributes : list string :=
  ["add_argument"; "add_subparsers"; "parse_args"; "parse_known_args";
   "print_help"; "print_usage"; "error"; "exit"; "set_defaults";
   "get_default"; "format_help"; "format_usage"].

Definition subparsers_attributes : list string :=
  ["add_parser"; "choices"; "dest"; "help"; "metavar"; "required"].

(** The keyword parameters of [ArgumentParser], of [add_subparsers] and
    of [add_parser], which hands the keywords it does not use itself to
    [ArgumentParser]. *)
Definition parser_parameters : list string :=
  ["prog"; "usage"; "description"; "epilog"; "parents"; "formatter_class";
   "prefix_chars"; "fromfile_prefix_chars"; "argument_default";
   "conflict_handler"; "add_help"; "allow_abbrev"; "exit_on_error"].

Definition subparsers_parameters : list string :=
  ["title"; "description"; "prog"; "parser_class"; "action";
   "option_strings"; "dest"; "required"; "help"; "metavar"].

Definition add_parser_parameters : list string :=
  "help" :: "aliases" :: parser_parameters.

(** The keyword parameters of the action [add_argument] builds when no
    [action] is named, together with [action] itself. *)
Definition store_action_parameters : list string :=
  ["action"; "option_strings"; "dest"; "nargs"; "const"; "default"; "type";
   "choices"; "required"; "help"; "metavar"].

(** [obj.<name>]: a name the object does not have raises. *)
Definition getattr {S} (type_name : string) (attrs : list string)
                   (name : string) : M S unit :=
  if mem name attrs then ret tt
  else raise (AttributeError type_name name).

(** [argparse.ArgumentParser(...)] with the given keywords *)
Definition new_parser {S} (keywords : list string) : M S Parser :=
  check_keywords "ArgumentParser.__init__()" parser_parameters keywords ;;;
  ret (mkParser None []).

(** [parser.add_subparsers(dest=name, ...)] with the given keywords *)
Definition add_subparsers {S} (p : Parser) (name : string)
                          (keywords : list string) : M S Parser :=
  check_keywords "add_subparsers()" subparsers_parameters
                 ("dest" :: keywords) ;;;
  ret (mkParser (Some name) (commands p)).

(** [subparsers.<method>(command, ...)] with the given keywords *)
Definition add_parser {S} (method : string) (p : Parser) (command : string)
                      (keywords : list string) : M S Parser :=
  getattr "_SubParsersAction" subparsers_attributes method ;;;
  (if String.eqb method "add_parser" then
     check_keywords "ArgumentParser.__init__()" add_parser_parameters
                    keywords ;;;
     ret (mkParser (dest p) (Dict.set (commands p) command []))
   else raise (TypeError "not callable")).

(** [<command parser>.add_argument(name, **settings)] *)
Definition add_argument {S} (p : Parser) (command name : string)
                        (settings : Dict.dict setting) : M S Parser :=
  check_keywords "_StoreAction.__init__()" store_action_parameters
                 (Dict.keys settings) ;;;
  ret (mkParser (dest p)
         (Dict.set (commands p) command
            (match Dict.get (commands p) command with
             | Some args => args
             | None => []
             end ++ [mkArgument name settings])%list)).

Definition is_option (name : string) : bool := String.prefix "--" name.

Definition dest_of (name : string) : string :=
  if is_option name
  then String.substring 2 (String.length name - 2) name
  else name.

(** [int(s)] and [float(s)] for the plain decimal notations. *)
Definition int_of_string (s : string) : option Z :=
  let body := match s with
              | String "-" r | String "+" r => r
              | _ => s
              end in
  match body with
  | EmptyString => None
  | _ =>
      let '(v, _, rest) := scan_digits body 0 0 in
      match rest with
      | EmptyString =>
          Some (match s with String "-" _ => - v | _ => v end)
      | _ => None
      end
  end.

Definition float_of_string (s : string) : option float :=
  match scan_constant (match s with String "+" r => r | _ => s end) with
  | Some (JFloat x, EmptyString) => Some x
  | Some (JInt z, EmptyString) =>
      Some (match s with
            | String "-" _ => if (z =? 0)%Z then Fnzero else of_Z z
            | _ => of_Z z
            end)
  | _ => None
  end.

(** Convert and check one argument value; [None] is a usage error. *)
Definition convert (a : Argument) (raw : string) : option value :=
  let typed :=
    match Dict.get (arg_settings a) "type" with
    | Some IntType =>
        match int_of_string raw with Some z => Some (VInt z) | None => None end
    | Some FloatType =>
        match float_of_string raw with
        | Some x => Some (VFloat x)
        | None => None
        end
    | _ => Some (VStr raw)
    end in
  match Dict.get (arg_settings a) "choices", typed with
  | Some (Choices l), Some (VStr s) => if mem s l then typed else None
  | Some (Choices _), _ => None
  | _, _ => typed
  end.

Definition default_of (a : Argument) : value :=
  match Dict.get (arg_settings a) "default" with
  | Some (Text s) => VStr s
  | Some (Number z) => VInt z
  | _ => VNone
  end.

(** The words after the command: options are [--name value] pairs,
    everything else fills the positional arguments in order. *)
Fixpoint parse_words (fuel : nat) (args : list Argument) (words : list string)
                     (ns : Namespace) : option Namespace :=
  match fuel, words with
  | _, [] =>
      if existsb (fun a => negb (is_option (arg_name a)) &&
                           negb (Dict.has ns (dest_of (arg_name a)))) args
      then None else Some ns
  | O, _ => None
  | S f, w :: rest =>
      if is_option w then
        match find (fun a => String.eqb (arg_name a) w) args, rest with
        | Some a, raw :: rest' =>
            match convert a raw with
            | Some v => parse_words f args rest' (Dict.set ns (dest_of w) v)
            | None => None
            end
        | _, _ => None
        end
      else
        match find (fun a => negb (is_option (arg_name a)) &&
                             negb (Dict.has ns (dest_of (arg_name a)))) args with
        | Some a =>
            match convert a w with
            | Some v =>
                parse_words f args rest (Dict.set ns (dest_of (arg_name a)) v)
            | None => None
            end
        | None => None
        end
  end.

(** [parser.parse_args()] on the words of the command line; a usage error
    exits with status 2. *)
Definition parse_args {St} (p : Parser) (argv : list string)
  : M St Namespace :=
  let chosen (v : value) : Namespace :=
    match dest p with
    | Some name => [(name, v)]
    | None => []
    end in
  match argv with
  | [] => ret (chosen VNone)
  | command :: words =>
      match Dict.get (commands p) command with
      | None => raise (SystemExit 2)
      | Some args =>
          let defaults :=
            fold_left (fun ns a =>
                         if is_option (arg_name a)
                         then Dict.set ns (dest_of (arg_name a)) (default_of a)
                         else ns)
                      args (chosen (VStr command)) in
          of_option (parse_words (S (List.length words)) args words defaults)
                    (SystemExit 2)
      end
  end.

(** [args.<name>] *)
Definition attr {S} (ns : Namespace) (name : string) : M S value :=
  of_option (Dict.get ns name) (AttributeError "Namespace" name).

End Argparse.

(* ================================================================= *)
(** ** [main] *)

Module Cli.

Import Float Json Py Ledger DeepWorkTracker Argparse.
Open Scope string_scope.
Open Scope Z_scope.

(** Call a method of [tracker] from [main]: the result and the instance
    after the call. *)
Definition invoke {A} (tracker : Tracker) (m : Method A)
  : M World (A * Tracker) :=
  fun w =>
    match m (mkProcess tracker w) with
    | (Ok a, p) => (Ok (a, self p), world p)
    | (Raise e, p) => (Raise e, world p)
    end.

(** [tracker.<name>()] for a method without arguments or result.  A name
    the instance does not have raises [AttributeError]; of the names it
    has the embedding follows the three that [main] means. *)
Definition call_plain (tracker : Tracker) (name : string)
  : M World (unit * Tracker) :=
  if mem name DeepWorkTracker.attributes then
    if String.eqb name "list_sessions" then invoke tracker list_sessions
    else if String.eqb name "track_goals" then invoke tracker track_goals
    else if String.eqb name "visualize_time_distribution"
    then invoke tracker visualize_time_distribution
    else raise (Unmodelled "another attribute called without arguments")
  else raise (AttributeError "DeepWorkTracker" name).

(** An attribute the parser stores a string under.  The embedding
    follows [main] on the namespaces its parser can give; any other
    value ends the run with [Unmodelled]. *)
Definition as_string {S} (v : value) : M S string :=
  match v with
  | VStr s => ret s
  | _ => raise (Unmodelled "an argument that is no string")
  end.

(** An option without type and default: a string, or [None] when the
    command line does not have it. *)
Definition as_optional_string {S} (v : value) : M S (option string) :=
  match v with
  | VStr s => ret (Some s)
  | VNone => ret None
  | _ => raise (Unmodelled "an argument that is no string")
  end.

(** A local variable of [main]: reading it before any assignment on the
    path taken raises. *)
Definition read_local {S A} (name : string) (binding : option A) : M S A :=
  of_option binding (UnboundLocalError name).

(** Lines 146 to 187: the parser and its sub-commands. *)
Definition build_parser : M World Parser :=
  p <- new_parser ["description"] ;;
  p <- add_subparsers p "action" ["help"] ;;
  p <- add_parser "add_parser" p "start" ["help"] ;;
  p <- add_argument p "start" "category"
         [("help", Text "Category of the work session")] ;;
  p <- add_parser "add_parser" p "end" ["help"] ;;
  p <- add_argument p "end" "--description"
         [("help", Text "Description of the work session")] ;;
  p <- add_parser "add_parser" p "list" ["help"] ;;
  p <- add_parser "add_parser" p "total" ["help"] ;;
  p <- add_parser "add_parser" p "summary" ["help"] ;;
  p <- add_argument p "summary" "--period"
         [("choices", Choices ["daily"; "weekly"; "all"]);
          ("default", Text "all");
          ("help", Text "Period for summary")] ;;
  p <- add_parser "add_parser" p "export" ["help"] ;;
  p <- add_argument p "export" "filename"
         [("help", Text "Filename for export")] ;;
  p <- add_parser "add_parser" p "pomodoro" ["help"] ;;
  p <- add_argument p "pomodoro" "--duration"
         [("type", IntType);
          ("defualt", Number 25);
          ("help", Text "Duration for pomodoro timer(in minutes)")] ;;
  p <- add_parser "add_parser" p "set_goal" ["help"] ;;
  p <- add_argument p "set_goal" "category"
         [("help", Text "Category for the goal")] ;;
  p <- add_argument p "set_goal" "hours"
         [("type", FloatType); ("help", Text "Hours per week")] ;;
  p <- add_parser "add_paerser" p "track_goals" ["help"] ;;
  p <- add_parser "add_parser" p "score" ["help"] ;;
  p <- add_parser "add_parser" p "visualize" ["help"] ;;
  ret p.

(** The last element of a list, [l[-1]]. *)
Definition last_of {A} (l : list A) : option A :=
  match rev l with
  | [] => None
  | x :: _ => Some x
  end.

(** Lines 195 to 199: the [end] command. *)
Definition dispatch_end (args : Namespace) (tracker : Tracker) : M World unit :=
  match last_of (sessions (data tracker)) with
  | None => print "No active session to end. Start a new session first."
  | Some last =>
      match end_time last with
      | Some _ => print "No active session to end. Start a new session first."
      | None =>
          (* the arguments of the call, left to right; [category] has no
             binding on this path *)
          let start := start_time last in
          key <- read_local "category" (None : option string) ;;
          cat <- of_option (Dict.get (session_items last) key) (KeyError key) ;;
          cat <- match cat with
                 | JStr c => ret c
                 | _ => raise (Unmodelled "a category that is no string")
                 end ;;
          descr <- attr args "description" ;;
          descr <- as_optional_string descr ;;
          invoke tracker (end_session start cat descr) ;;;
          ret tt
      end
  end.

(** [args.action == name] *)
Definition is_action (v : value) (name : string) : bool :=
  match v with
  | VStr s => String.eqb s name
  | _ => false
  end.

(** Lines 192 to 225: one branch per command. *)
Definition dispatch (args : Namespace) (tracker : Tracker) : M World unit :=
  action <- attr args "action" ;;
  if is_action action "start" then
    c <- attr args "category" ;;
    c <- as_string c ;;
    invoke tracker (start_session c) ;;;
    print "Started session in category '{category}' at {start_time}"
  else if is_action action "end" then dispatch_end args tracker
  else if is_action action "list" then
    call_plain tracker "list_sessions" ;;; ret tt
  else if is_action action "total" then
    invoke tracker get_total_time ;;;
    print "Total deep work time: {total_time} hours"
  else if is_action action "summary" then
    period <- attr args "period" ;;
    period <- as_string period ;;
    r <- invoke tracker (get_summary period) ;;
    print "Summary for {args.period} period:" ;;;
    print "Total time: {summary['total_time]} hours" ;;;
    print "Time by category:" ;;;
    fold_right (fun (_ : string * float) k =>
                  print "  {category}: {time} hours" ;;; k)
               (ret tt) (category_time (fst r)) ;;;
    print "Number of sessions: {summary['num_sessions']}"
  else if is_action action "export" then
    f <- attr args "filename" ;;
    f <- as_string f ;;
    invoke tracker (export_to_csv f) ;;;
    ret tt
  else if is_action action "pomodoro" then
    d <- attr args "duration" ;;
    match d with
    | VInt n => invoke tracker (pomodoro_timer n) ;;; ret tt
    | VNone =>
        (* no [--duration] on the command line *)
        invoke tracker
          (pomodoro_timer_without_number
             "unsupported operand type(s) for *: 'NoneType' and 'int'") ;;;
        ret tt
    | VStr _ =>
        invoke tracker
          (pomodoro_timer_without_number
             "'str' object cannot be interpreted as an integer") ;;;
        ret tt
    | VFloat _ =>
        (* [type=int] gives the parser no way to store a float here *)
        raise (Unmodelled "a float duration")
    end
  else if is_action action "set_goal" then
    c <- attr args "category" ;;
    c <- as_string c ;;
    h <- attr args "hours" ;;
    match h with
    | VFloat x => invoke tracker (set_goal c x) ;;; ret tt
    | _ =>
        (* [hours] is a positional argument with [type=float] *)
        raise (Unmodelled "hours that are no float")
    end
  else if is_action action "track_goals" then
    call_plain tracker "tracker_goals" ;;; ret tt
  else if is_action action "score" then
    invoke tracker calculate_productivity_score ;;;
    print "Your current productivity score is: {score}"
  else if is_action action "visualize" then
    call_plain tracker "visualize_time_distribution" ;;; ret tt
  else ret tt.

(** [main]: line 145, run on the words of the command line. *)
Definition main (argv : list string) : M World unit :=
  parser <- build_parser ;;
  Argparse.getattr "ArgumentParser" parser_attributes "parser_args" ;;;
  args <- parse_args parser argv ;;
  tracker <- DeepWorkTracker.init "deep_work_data.json" ;;
  dispatch args tracker.

End Cli.

(* ================================================================= *)
(** ** Notions the statements use *)

Module Notions.

Import Float Datetime Json Py Ledger DeepWorkTracker.
Open Scope string_scope.
Open Scope Z_scope.

(** The world after [n] more readings of the clock. *)
Definition ticked (n : nat) (w : World) : World :=
  mkWorld (clock w) (n + ticks w) (files w) (stdout w) (effects w).

(** The [TypeError] that [save_data] meets. *)
Definition unexpected_incident : exn :=
  TypeError
    "JSONEncoder.__init__() got an unexpected keyword argument 'incident'".

(** The file can be opened for writing: it is absent or a plain file. *)
Definition writable (w : World) (path : string) : bool :=
  match Dict.get (files w) path with
  | Some Directory | Some Locked => false
  | _ => true
  end.

(** The hours from [start] to [finish], as line 32 computes them. *)
Definition elapsed_hours (start finish : datetime) : float :=
  match fdiv (total_seconds (diff_microseconds finish start)) (of_Z 3600) with
  | Some q => q
  | None => Fnan
  end.

(** The session [end_session] builds at time [finish]. *)
Definition completed (start_time category : string)
    (description : option string) (start finish : datetime) : Session :=
  mkSession start_time (Some (isoformat finish))
            (round2 (elapsed_hours start finish)) category description.

(** The start time of the session parses. *)
Definition parses (s : Session) : bool :=
  match fromisoformat (start_time s) with
  | Some _ => true
  | None => false
  end.

(** The session starts on [d] or later. *)
Definition starts_since (d : date) (s : Session) : bool :=
  match fromisoformat (start_time s) with
  | Some t => date_ge (dt_date t) d
  | None => false
  end.


(** One step of the loop of line 73, seen from one category. *)
Definition cat_add (o : option float) (x : float) : option float :=
  Some (fadd (match o with Some v => v | None => Fnum 0 end) x).

(** What the loop leaves under category [c], starting from [o]. *)
Fixpoint cat_total (c : string) (l : list Session) (o : option float)
  : option float :=
  match l with
  | [] => o
  | s :: rest =>
      cat_total c rest
        (if String.eqb c (category s) then cat_add o (duration s) else o)
  end.

(** [o1] is at most [o2], an absent sum counting as zero; a sum that is
    present on the left is present on the right. *)
Definition below (o1 o2 : option float) : Prop :=
  match o1, o2 with
  | None, None => True
  | None, Some b => nonneg b = true
  | Some a, Some b => nonneg a = true /\ nonneg b = true /\ ev a <= ev b
  | Some _, None => False
  end.

(** *** Sample data *)

(** Wednesday 10 January 2024, at [h]:[mi]. *)
Definition wednesday (h mi : Z) : datetime :=
  mkDatetime (mkDate 2024 1 10) h mi 0 0 None.

(** A world whose clock stands at [t], with the files [fs]. *)
Definition world_at (t : datetime) (fs : Dict.dict node) : World :=
  mkWorld (fun _ => t) 0 fs [] [].

Definition fresh : Tracker := mkTracker "deep_work_data.json" Ledger.empty.

Definition tracking (l : list Session) (g : Dict.dict float) : Tracker :=
  mkTracker "deep_work_data.json" (mkLedger l g).

(** A finished session of [hours] whole hours. *)
Definition session_on (day cat : string) (hours : Z) : Session :=
  mkSession (day ++ "T09:00:00") (Some (day ++ "T10:00:00")) (of_Z hours)
            cat None.

(** 0.5, 1.5 and 3.5 *)
Definition half : float := Fnum (scale / 2).
Definition one_and_a_half : float := FloatText.of_decimal false 15 (-1).
Definition three_and_a_half : float := FloatText.of_decimal false 35 (-1).

End Notions.

(* ================================================================= *)
(** ** What a call leaves behind *)

Module Traces.

Import Float Datetime Json Py Ledger DeepWorkTracker.
Open Scope string_scope.
Open Scope Z_scope.

(** The world after [lines] more lines of output. *)
Definition printed (lines : list string) (w : World) : World :=
  mkWorld (clock w) (ticks w) (files w) (stdout w ++ lines) (effects w).

(** The world after one more effect. *)
Definition performed (e : effect) (w : World) : World :=
  mkWorld (clock w) (ticks w) (files w) (stdout w) (effects w ++ [e]).

(** The world with [content] in the file [path]. *)
Definition with_file (path content : string) (w : World) : World :=
  set_files (Dict.set (files w) path (File content)) w.

(** [m] keeps the state it ends in related by [R] to the state it starts
    in, whether it returns or raises. *)
Definition keeps {S A} (R : S -> S -> Prop) (m : M S A) : Prop :=
  forall s, R s (snd (m s)).

(** Nothing changed but, possibly, how often the clock was read. *)
Definition only_clock (w w' : World) : Prop :=
  clock w' = clock w /\ (ticks w <= ticks w')%nat /\ files w' = files w /\
  stdout w' = stdout w /\ effects w' = effects w.

(** No file changed. *)
Definition same_files (w w' : World) : Prop := files w' = files w.

(** A relation on worlds, seen from a method: the instance is the same
    and the worlds are related. *)
Definition same_self (R : World -> World -> Prop) (p p' : Process) : Prop :=
  self p' = self p /\ R (world p) (world p').

(** The session has an end time: it is not what line 196 takes for an
    active session. *)
Definition finished (s : Session) : bool :=
  match end_time s with
  | Some _ => true
  | None => false
  end.

(** The seven lines [list_sessions] prints for a session, lines 46 to
    52. *)
Definition session_lines : list string :=
  ["Session {i}:";
   "Start: {session['start_time']}";
   "End: {session['end_time']}";
   "Duration: {session['duration']} hours";
   "Category: {session['category]}";
   "Description: {session['description']}";
   ""].




(** The categories of [l], each once, in the order of their first
    session. *)
Fixpoint categories (l : list Session) (seen : list string) : list string :=
  match l with
  | [] => []
  | s :: rest =>
      if mem (category s) seen then categories rest seen
      else category s :: categories rest (category s :: seen)
  end.

End Traces.

(* ================================================================= *)
(** * Facts about the models *)

(** ** The library models on known values *)

(** Values as CPython prints them. *)

Module ModelChecks.

Import Float Datetime Json FloatText Notions.
Open Scope string_scope.
Open Scope Z_scope.

(** [0.1 + 0.2] is [0.30000000000000004]. *)
Example tenth_plus_fifth :
  repr (fadd (of_decimal false 1 (-1)) (of_decimal false 2 (-1))) =
  "0.30000000000000004".
Proof. vm_compute. reflexivity. Qed.

(** [round(0.125, 2)] is [0.12]: a tie goes to the even digit. *)
Example round2_tie : round2 (of_decimal false 125 (-3)) = of_decimal false 12 (-2).
Proof. vm_compute. reflexivity. Qed.

(** [round(2.675, 2)] is [2.67]: the double nearest to 2.675 is below it. *)
Example round2_below_tie :
  round2 (of_decimal false 2675 (-3)) = of_decimal false 267 (-2).
Proof. vm_compute. reflexivity. Qed.

(** [round(-0.001, 2)] is [-0.0]. *)
Example round2_negative_zero :
  round2 (of_decimal true 1 (-3)) = Fnzero /\ repr Fnzero = "-0.0".
Proof. vm_compute. split; reflexivity. Qed.

(** [repr] chooses between fixed and exponent notation as Python does. *)
Example repr_notations :
  repr (of_Z (10 ^ 16)) = "1e+16" /\
  repr (of_decimal false 1 (-5)) = "1e-05" /\
  repr (of_Z 10) = "10.0" /\
  repr (int_truediv 1 3) = "0.3333333333333333".
Proof. vm_compute. repeat split; reflexivity. Qed.

(** 5400 seconds are 1.5 hours. *)
Example ninety_minutes :
  fdiv (total_seconds 5400000000) (of_Z 3600) = Some one_and_a_half.
Proof. vm_compute. reflexivity. Qed.

(** 10 January 2024 is a Wednesday, day 738895 of the calendar. *)
Example a_wednesday :
  weekday (mkDate 2024 1 10) = 2 /\
  toordinal (mkDate 2024 1 10) = 738895 /\
  ord2ymd 738895 = mkDate 2024 1 10.
Proof. vm_compute. repeat split; reflexivity. Qed.

Example isoformat_examples :
  isoformat (wednesday 11 30) = "2024-01-10T11:30:00" /\
  isoformat (mkDatetime (mkDate 2024 1 10) 11 30 0 250 None) =
    "2024-01-10T11:30:00.000250" /\
  fromisoformat "2024-01-10T11:30:00.000250" =
    Some (mkDatetime (mkDate 2024 1 10) 11 30 0 250 None) /\
  fromisoformat "2024-02-30" = None /\
  fromisoformat "tomorrow" = None.
Proof. vm_compute. repeat split; reflexivity. Qed.

(** The empty ledger as [json.dump(..., indent=2)] writes it, and read
    back. *)
Example empty_ledger_text :
  let text := "{" ++ String newline ("  " ++ quoted "sessions" ++ ": [],") ++
              String newline ("  " ++ quoted "goals" ++ ": {}") ++
              String newline "}" in
  dumps (Some 2%nat) DeepWorkTracker.empty_document = text /\
  loads text = Some DeepWorkTracker.empty_document /\
  Ledger.of_json DeepWorkTracker.empty_document = Some Ledger.empty.
Proof. vm_compute. repeat split; reflexivity. Qed.

(** An empty file and a truncated document are no JSON; a repeated key
    keeps its last value. *)
Example loads_examples :
  loads "" = None /\
  loads "{" = None /\
  loads ("{" ++ quoted "a" ++ ": [1, 2.5, null], " ++ quoted "a" ++ ": true}")
  = Some (JDict [("a", JBool true)]).
Proof. vm_compute. repeat split; reflexivity. Qed.

End ModelChecks.

(* ================================================================= *)
(** ** Rounding to the nearest double keeps the order *)

Module FloatFacts.
Import Float.

#[local] Arguments top : simpl never.
#[local] Arguments scale : simpl never.
#[local] Arguments round_ratio : simpl never.
#[local] Arguments representable : simpl never.

Lemma rne_bounds n d : 0 < d -> n / d <= rne n d <= n / d + 1.
Proof.
  intros Hd. unfold rne.
  destruct (2 * (n mod d) ?= d); try destruct (Z.even (n / d)); lia.
Qed.

Lemma rne_mono n1 n2 d : 0 < d -> n1 <= n2 -> rne n1 d <= rne n2 d.
Proof.
  intros Hd Hn.
  assert (Hq : n1 / d <= n2 / d) by (apply Z.div_le_mono; lia).
  destruct (Z.eq_dec (n1 / d) (n2 / d)) as [E | NE].
  - assert (Hr : n1 mod d <= n2 mod d).
    { pose proof (Z.div_mod n1 d ltac:(lia)).
      pose proof (Z.div_mod n2 d ltac:(lia)). nia. }
    unfold rne. rewrite E.
    destruct (Z.compare_spec (2 * (n1 mod d)) d);
      destruct (Z.compare_spec (2 * (n2 mod d)) d);
      destruct (Z.even (n2 / d)); lia.
  - pose proof (rne_bounds n1 d Hd). pose proof (rne_bounds n2 d Hd). lia.
Qed.

Lemma rne_exact n d : 0 < d -> n mod d = 0 -> rne n d = n / d.
Proof.
  intros Hd H. unfold rne. rewrite H.
  destruct (Z.compare_spec (2 * 0) d); lia.
Qed.

Lemma shift_nonneg q : 0 <= shift q.
Proof. unfold shift. lia. Qed.

Lemma shift_mono q1 q2 : q1 <= q2 -> shift q1 <= shift q2.
Proof.
  intros H. unfold shift. pose proof (Z.log2_le_mono q1 q2 H). lia.
Qed.

Lemma below_shift q : q < 2 ^ (prec + shift q).
Proof.
  destruct (Z_lt_le_dec 0 q) as [Hq | Hq].
  - pose proof (Z.log2_spec q Hq) as [_ Hu].
    eapply Z.lt_le_trans; [exact Hu |].
    apply Z.pow_le_mono_r; [lia |]. unfold shift, prec. lia.
  - pose proof (Z.pow_pos_nonneg 2 (prec + shift q) ltac:(lia)
                  ltac:(pose proof (shift_nonneg q); unfold prec; lia)).
    lia.
Qed.

Lemma above_shift q : 0 < shift q -> 2 ^ (prec - 1 + shift q) <= q.
Proof.
  intros H. unfold shift in *.
  assert (Hl : 53 <= Z.log2 q) by (unfold prec in *; lia).
  assert (Hq : 0 < q).
  { destruct (Z_lt_le_dec 0 q); [assumption |].
    rewrite Z.log2_nonpos in Hl by lia. lia. }
  pose proof (Z.log2_spec q Hq) as [Hlo _].
  replace (prec - 1 + Z.max 0 (Z.log2 q + 1 - prec)) with (Z.log2 q)
    by (unfold prec in *; lia).
  exact Hlo.
Qed.

Lemma round_ratio_nonneg n d : 0 <= n -> 0 < d -> 0 <= round_ratio n d.
Proof.
  intros Hn Hd. unfold round_ratio.
  set (j := shift (n / d)).
  assert (0 < 2 ^ j) by (apply Z.pow_pos_nonneg; [lia | apply shift_nonneg]).
  pose proof (rne_bounds n (d * 2 ^ j) ltac:(nia)).
  assert (0 <= n / (d * 2 ^ j)) by (apply Z.div_pos; nia).
  nia.
Qed.

Lemma round_ratio_upper n d :
  0 <= n -> 0 < d -> round_ratio n d <= 2 ^ (prec + shift (n / d)).
Proof.
  intros Hn Hd. unfold round_ratio.
  set (j := shift (n / d)).
  assert (Hj : 0 <= j) by apply shift_nonneg.
  assert (Hp : 0 < 2 ^ j) by (apply Z.pow_pos_nonneg; lia).
  pose proof (rne_bounds n (d * 2 ^ j) ltac:(nia)) as [_ Hu].
  assert (Hq : n / (d * 2 ^ j) < 2 ^ prec).
  { rewrite <- Z.div_div by lia.
    apply Z.div_lt_upper_bound; [lia |].
    rewrite <- Z.pow_add_r by (unfold prec; lia).
    rewrite Z.add_comm. apply below_shift. }
  rewrite Z.pow_add_r by (unfold prec; lia).
  nia.
Qed.

Lemma round_ratio_lower n d :
  0 <= n -> 0 < d -> 0 < shift (n / d) ->
  2 ^ (prec - 1 + shift (n / d)) <= round_ratio n d.
Proof.
  intros Hn Hd Hs. unfold round_ratio.
  set (j := shift (n / d)) in *.
  assert (Hp : 0 < 2 ^ j) by (apply Z.pow_pos_nonneg; lia).
  pose proof (rne_bounds n (d * 2 ^ j) ltac:(nia)) as [Hl _].
  assert (Hq : 2 ^ (prec - 1) <= n / (d * 2 ^ j)).
  { rewrite <- Z.div_div by lia.
    apply Z.div_le_lower_bound; [lia |].
    rewrite <- Z.pow_add_r by (unfold prec; lia).
    rewrite Z.add_comm. apply above_shift. exact Hs. }
  rewrite Z.pow_add_r by (unfold prec; lia).
  nia.
Qed.

Lemma round_ratio_mono n1 n2 d :
  0 <= n1 -> n1 <= n2 -> 0 < d -> round_ratio n1 d <= round_ratio n2 d.
Proof.
  intros H1 H12 Hd.
  assert (Hq : n1 / d <= n2 / d) by (apply Z.div_le_mono; lia).
  pose proof (shift_mono _ _ Hq) as Hs.
  destruct (Z.eq_dec (shift (n1 / d)) (shift (n2 / d))) as [E | NE].
  - unfold round_ratio. rewrite E.
    set (j := shift (n2 / d)).
    assert (Hp : 0 < 2 ^ j) by (apply Z.pow_pos_nonneg; [lia | apply shift_nonneg]).
    pose proof (rne_mono n1 n2 (d * 2 ^ j) ltac:(nia) H12). nia.
  - pose proof (round_ratio_upper n1 d H1 Hd) as Hu.
    pose proof (shift_nonneg (n1 / d)) as Hn1.
    pose proof (round_ratio_lower n2 d ltac:(lia) Hd ltac:(lia)) as Hl.
    eapply Z.le_trans; [exact Hu |].
    eapply Z.le_trans; [| exact Hl].
    apply Z.pow_le_mono_r; [lia |]. unfold prec. lia.
Qed.

Lemma representable_spec k :
  representable k = true <->
  Z.abs k < top /\ Z.abs k mod 2 ^ shift (Z.abs k) = 0.
Proof.
  unfold representable. rewrite andb_true_iff, Z.ltb_lt, Z.eqb_eq. tauto.
Qed.

Lemma round_ratio_id a :
  0 <= a -> a mod 2 ^ shift a = 0 -> round_ratio a 1 = a.
Proof.
  intros Ha Hm. unfold round_ratio. rewrite Z.div_1_r, Z.mul_1_l.
  assert (Hp : 0 < 2 ^ shift a)
    by (apply Z.pow_pos_nonneg; [lia | apply shift_nonneg]).
  rewrite rne_exact by assumption.
  pose proof (Z.div_mod a (2 ^ shift a) ltac:(lia)). lia.
Qed.

Lemma round_ratio_fits n d :
  0 <= n -> 0 < d ->
  round_ratio n d mod 2 ^ shift (round_ratio n d) = 0.
Proof.
  intros Hn Hd.
  pose proof (round_ratio_upper n d Hn Hd) as Hu.
  pose proof (round_ratio_nonneg n d Hn Hd) as Hnn.
  set (j := shift (n / d)) in *.
  assert (Hj : 0 <= j) by apply shift_nonneg.
  assert (Hdiv : exists m, round_ratio n d = m * 2 ^ j)
    by (eexists; reflexivity).
  destruct Hdiv as [m Hm].
  set (r := round_ratio n d) in *.
  destruct (Z.eq_dec r (2 ^ (prec + j))) as [E | NE].
  - rewrite E. unfold shift. rewrite Z.log2_pow2 by (unfold prec; lia).
    replace (Z.max 0 (prec + j + 1 - prec)) with (j + 1) by lia.
    replace (prec + j) with ((prec - 1) + (j + 1)) by lia.
    rewrite Z.pow_add_r by (unfold prec; lia).
    apply Z.mod_mul.
    pose proof (Z.pow_pos_nonneg 2 (j + 1) ltac:(lia) ltac:(lia)). lia.
  - assert (Hlt : r < 2 ^ (prec + j)) by lia.
    assert (Hs : shift r <= j).
    { unfold shift.
      destruct (Z_lt_le_dec 0 r) as [Hr | Hr].
      - apply Z.log2_lt_pow2 in Hlt; [| assumption]. lia.
      - rewrite Z.log2_nonpos by lia. unfold prec. lia. }
    pose proof (shift_nonneg r) as Hs0.
    set (s := shift r) in *.
    rewrite Hm.
    replace j with ((j - s) + s) by lia.
    rewrite Z.pow_add_r by lia.
    rewrite Z.mul_assoc. apply Z.mod_mul.
    pose proof (Z.pow_pos_nonneg 2 s ltac:(lia) Hs0). lia.
Qed.


Lemma top_pos : 0 < top.
Proof. unfold top. apply Z.pow_pos_nonneg; lia. Qed.

Lemma round_ratio_top : round_ratio top 1 = top.
Proof.
  apply round_ratio_id; [pose proof top_pos; lia |].
  unfold shift, top, prec. rewrite Z.log2_pow2 by lia.
  replace (Z.max 0 (2098 + 1 - 53)) with 2046 by lia.
  replace 2098 with (52 + 2046) by lia.
  rewrite Z.pow_add_r by lia. apply Z.mod_mul.
  pose proof (Z.pow_pos_nonneg 2 2046 ltac:(lia) ltac:(lia)). lia.
Qed.

Lemma nonneg_cases x :
  nonneg x = true ->
  (exists k, x = Fnum k /\ 0 <= k < top /\ k mod 2 ^ shift k = 0) \/
  x = Fnzero \/ x = Finf false.
Proof.
  unfold nonneg. destruct x as [k | | [] | ]; simpl; try discriminate; auto.
  rewrite andb_true_iff, Z.leb_le, representable_spec.
  intros [H0 [Ht Hm]]. left. exists k.
  rewrite Z.abs_eq in * by assumption. auto.
Qed.

Lemma ev_range x : nonneg x = true -> 0 <= ev x <= top.
Proof.
  intros H. pose proof top_pos.
  destruct (nonneg_cases x H) as [[k [-> [Hk _]]] | [-> | ->]]; simpl; lia.
Qed.

Lemma round_ratio_ev x : nonneg x = true -> round_ratio (ev x) 1 = ev x.
Proof.
  intros H.
  destruct (nonneg_cases x H) as [[k [-> [Hk Hm]]] | [-> | ->]]; simpl.
  - apply round_ratio_id; [lia | assumption].
  - reflexivity.
  - apply round_ratio_top.
Qed.

Lemma fle_ev x y :
  nonneg x = true -> nonneg y = true -> fle x y = true <-> ev x <= ev y.
Proof.
  intros Hx Hy. pose proof top_pos.
  destruct (nonneg_cases x Hx) as [[a [-> [Ha _]]] | [-> | ->]];
  destruct (nonneg_cases y Hy) as [[b [-> [Hb _]]] | [-> | ->]];
    simpl; rewrite ?Z.leb_le; try lia; split; intros; try lia;
    try reflexivity; try discriminate.
Qed.

Lemma of_ratio_capped n d :
  of_ratio false n d = capped (round_ratio n d).
Proof.
  unfold of_ratio, capped, signed_zero.
  destruct (top <=? round_ratio n d); [reflexivity |].
  destruct (Z.eqb_spec (round_ratio n d) 0) as [-> | ]; reflexivity.
Qed.

Lemma nonneg_capped n d :
  0 <= n -> 0 < d -> nonneg (capped (round_ratio n d)) = true.
Proof.
  intros Hn Hd. unfold capped.
  destruct (Z.leb_spec top (round_ratio n d)); [reflexivity |].
  unfold nonneg. simpl.
  pose proof (round_ratio_nonneg n d Hn Hd).
  apply andb_true_iff. split; [apply Z.leb_le; assumption |].
  apply representable_spec. rewrite Z.abs_eq by assumption.
  split; [assumption | apply round_ratio_fits; assumption].
Qed.

Lemma ev_capped k : 0 <= k -> ev (capped k) = Z.min top k.
Proof.
  intros Hk. unfold capped.
  destruct (Z.leb_spec top k); simpl; lia.
Qed.

(** Rounding gives doubles, so the operations stay among the doubles. *)
Lemma of_ratio_is_double neg n d :
  0 <= n -> 0 < d -> is_double (of_ratio neg n d) = true.
Proof.
  intros Hn Hd. unfold of_ratio.
  pose proof (round_ratio_nonneg n d Hn Hd) as H0.
  pose proof (round_ratio_fits n d Hn Hd) as Hf.
  destruct (Z.leb_spec top (round_ratio n d)) as [Ht | Ht]; [reflexivity |].
  destruct (Z.eqb_spec (round_ratio n d) 0) as [E | NE];
    [destruct neg; reflexivity |].
  cbn [is_double]. apply representable_spec.
  destruct neg; rewrite ?Z.abs_opp, Z.abs_eq by lia; split; assumption.
Qed.

Lemma round2_is_double x : is_double (round2 x) = true.
Proof.
  destruct x as [k | | s |]; try reflexivity.
  unfold round2.
  assert (Hs : 0 < scale) by (unfold scale; apply Z.pow_pos_nonneg; lia).
  pose proof (rne_bounds (Z.abs k * 100) scale Hs).
  assert (0 <= Z.abs k * 100 / scale) by (apply Z.div_pos; lia).
  apply of_ratio_is_double; [nia | lia].
Qed.

Lemma fadd_is_double x y :
  is_double x = true -> is_double y = true -> is_double (fadd x y) = true.
Proof.
  intros Hx Hy.
  destruct x as [a | | s |], y as [b | | s' |]; cbn [fadd];
    try assumption; try reflexivity.
  - destruct (a + b =? 0); [reflexivity |].
    apply of_ratio_is_double; lia.
  - destruct (Bool.eqb s s'); reflexivity.
Qed.

(** Addition of non-negative floats is the rounded exact sum. *)
Lemma fadd_capped x y :
  nonneg x = true -> nonneg y = true ->
  nonneg (fadd x y) = true /\
  ev (fadd x y) = Z.min top (round_ratio (ev x + ev y) 1).
Proof.
  intros Hx Hy.
  pose proof top_pos as Ht.
  pose proof (round_ratio_ev x Hx) as Rx.
  pose proof (round_ratio_ev y Hy) as Ry.
  pose proof (ev_range x Hx) as Ex.
  pose proof (ev_range y Hy) as Ey.
  assert (Mx : round_ratio (ev x) 1 <= round_ratio (ev x + ev y) 1)
    by (apply round_ratio_mono; lia).
  assert (My : round_ratio (ev y) 1 <= round_ratio (ev x + ev y) 1)
    by (apply round_ratio_mono; lia).
  destruct (nonneg_cases x Hx) as [[a [-> [Ha Hma]]] | [-> | ->]];
  destruct (nonneg_cases y Hy) as [[b [-> [Hb Hmb]]] | [-> | ->]];
    cbn [fadd ev Bool.eqb] in *.
  - destruct (Z.eqb_spec (a + b) 0) as [E | NE].
    + rewrite E. split; [reflexivity |].
      change (round_ratio 0 1) with 0. cbn [ev]. lia.
    + replace (a + b <? 0) with false by (symmetry; apply Z.ltb_ge; lia).
      rewrite Z.abs_eq by lia. rewrite of_ratio_capped.
      split; [apply nonneg_capped; lia |].
      apply ev_capped. apply round_ratio_nonneg; lia.
  - rewrite Z.add_0_r in *. split; [assumption | lia].
  - split; [reflexivity | lia].
  - rewrite Z.add_0_l in *. split; [assumption | lia].
  - split; [reflexivity |]. change (round_ratio (0 + 0) 1) with 0. lia.
  - split; [reflexivity | lia].
  - split; [reflexivity | lia].
  - split; [reflexivity | lia].
  - split; [reflexivity | lia].
Qed.

Lemma fadd_mono x1 x2 y :
  nonneg x1 = true -> nonneg x2 = true -> nonneg y = true ->
  ev x1 <= ev x2 -> ev (fadd x1 y) <= ev (fadd x2 y).
Proof.
  intros H1 H2 Hy Hle.
  destruct (fadd_capped x1 y H1 Hy) as [_ ->].
  destruct (fadd_capped x2 y H2 Hy) as [_ ->].
  pose proof (ev_range x1 H1). pose proof (ev_range y Hy).
  pose proof (round_ratio_mono (ev x1 + ev y) (ev x2 + ev y) 1
                ltac:(lia) ltac:(lia) ltac:(lia)).
  lia.
Qed.

Lemma fadd_grows x y :
  nonneg x = true -> nonneg y = true -> ev x <= ev (fadd x y).
Proof.
  intros Hx Hy.
  destruct (fadd_capped x y Hx Hy) as [_ ->].
  pose proof (ev_range x Hx). pose proof (ev_range y Hy).
  pose proof (round_ratio_ev x Hx).
  pose proof (round_ratio_mono (ev x) (ev x + ev y) 1
                ltac:(lia) ltac:(lia) ltac:(lia)).
  lia.
Qed.

(** [round(x, 2)] keeps the order of non-negative floats. *)
Lemma round2_nonneg x : nonneg x = true -> nonneg (round2 x) = true.
Proof.
  intros Hx.
  destruct (nonneg_cases x Hx) as [[a [-> [Ha Hma]]] | [-> | ->]];
    simpl; try reflexivity.
  replace (a <? 0) with false by (symmetry; apply Z.ltb_ge; lia).
  rewrite of_ratio_capped. apply nonneg_capped; [| lia].
  rewrite Z.abs_eq by lia.
  assert (0 < scale) by (unfold scale; apply Z.pow_pos_nonneg; lia).
  pose proof (rne_bounds (a * 100) scale ltac:(lia)).
  assert (0 <= a * 100 / scale) by (apply Z.div_pos; lia).
  nia.
Qed.

Lemma round2_mono x y :
  nonneg x = true -> nonneg y = true -> ev x <= ev y ->
  fle (round2 x) (round2 y) = true.
Proof.
  intros Hx Hy Hle.
  pose proof (round2_nonneg x Hx) as Rx.
  pose proof (round2_nonneg y Hy) as Ry.
  apply fle_ev; try assumption.
  pose proof top_pos as Ht.
  assert (Hs : 0 < scale) by (unfold scale; apply Z.pow_pos_nonneg; lia).
  assert (Fin : forall a, 0 <= a ->
            ev (round2 (Fnum a)) =
            Z.min top (round_ratio (rne (a * 100) scale * scale) 100)).
  { intros a Ha. simpl.
    replace (a <? 0) with false by (symmetry; apply Z.ltb_ge; lia).
    rewrite of_ratio_capped, Z.abs_eq by lia.
    apply ev_capped. apply round_ratio_nonneg; [| lia].
    pose proof (rne_bounds (a * 100) scale ltac:(lia)).
    assert (0 <= a * 100 / scale) by (apply Z.div_pos; lia).
    nia. }
  assert (Mono : forall a b, 0 <= a -> a <= b ->
            round_ratio (rne (a * 100) scale * scale) 100 <=
            round_ratio (rne (b * 100) scale * scale) 100).
  { intros a b Ha Hab.
    pose proof (rne_mono (a * 100) (b * 100) scale Hs ltac:(lia)).
    pose proof (rne_bounds (a * 100) scale ltac:(lia)).
    assert (0 <= a * 100 / scale) by (apply Z.div_pos; lia).
    apply round_ratio_mono; nia. }
  pose proof (ev_range (round2 x) Rx).
  destruct (nonneg_cases y Hy) as [[b [-> [Hb Hmb]]] | [-> | ->]].
  - destruct (nonneg_cases x Hx) as [[a [-> [Ha Hma]]] | [-> | ->]].
    + cbn [ev] in Hle. rewrite (Fin a), (Fin b) by lia.
      pose proof (Mono a b ltac:(lia) Hle). lia.
    + cbn [ev] in Hle. change (round2 Fnzero) with Fnzero.
      rewrite (Fin b) by lia.
      pose proof (Mono 0 b ltac:(lia) Hle).
      change (ev Fnzero) with 0.
      assert (round_ratio (rne (0 * 100) scale * scale) 100 = 0)
        by (vm_compute; reflexivity).
      lia.
    + cbn [ev] in Hle. lia.
  - assert (ev x <= 0) by exact Hle.
    pose proof (ev_range x Hx).
    destruct (nonneg_cases x Hx) as [[a [-> [Ha Hma]]] | [-> | ->]].
    + cbn [ev] in *. assert (a = 0) by lia. subst a.
      assert (E : ev (round2 (Fnum 0)) = 0) by (vm_compute; reflexivity).
      rewrite E. change (round2 Fnzero) with Fnzero. cbn [ev]. lia.
    + change (round2 Fnzero) with Fnzero. lia.
    + cbn [ev] in *. lia.
  - change (round2 (Finf false)) with (Finf false). cbn [ev]. lia.
Qed.

End FloatFacts.

(* ================================================================= *)
(** ** Dates and their text *)

Module DatetimeFacts.
Import Datetime.
Open Scope string_scope.
Open Scope Z_scope.

Lemma digit_char_is_digit d :
  0 <= d < 10 -> is_digit (digit_char d) = true /\ digit_val (digit_char d) = d.
Proof.
  intros H.
  assert (C : d = 0 \/ d = 1 \/ d = 2 \/ d = 3 \/ d = 4 \/ d = 5 \/ d = 6 \/
              d = 7 \/ d = 8 \/ d = 9) by lia.
  repeat (destruct C as [-> | C]; [split; reflexivity |]).
  subst d. split; reflexivity.
Qed.

Lemma append_assoc (a b c : string) : (a ++ b) ++ c = a ++ (b ++ c).
Proof. induction a; simpl; congruence. Qed.

(** Reading back what [zpad] printed. *)
Lemma take_digits_zpad w : forall v rest,
  0 <= v < 10 ^ Z.of_nat w ->
  take_digits w (zpad w v ++ rest) = Some (v, rest).
Proof.
  induction w as [| w IH]; intros v rest Hv.
  - simpl in *. f_equal. f_equal. lia.
  - rewrite Nat2Z.inj_succ, Z.pow_succ_r in Hv by lia.
    cbn [zpad take_digits].
    rewrite append_assoc. cbn [append].
    rewrite IH.
    + destruct (digit_char_is_digit (v mod 10)) as [-> ->].
      { apply Z.mod_pos_bound. lia. }
      f_equal. f_equal. pose proof (Z.div_mod v 10 ltac:(lia)). lia.
    + split; [apply Z.div_pos; lia | apply Z.div_lt_upper_bound; lia].
Qed.

Lemma valid_date_spec d :
  valid_date d = true <->
  1 <= year d <= 9999 /\ 1 <= month d <= 12 /\
  1 <= day d <= days_in_month (year d) (month d).
Proof.
  unfold valid_date. rewrite !andb_true_iff, !Z.leb_le. tauto.
Qed.

Lemma valid_time_spec h mi s us :
  valid_time h mi s us = true <->
  0 <= h < 24 /\ 0 <= mi < 60 /\ 0 <= s < 60 /\ 0 <= us < 1000000.
Proof.
  unfold valid_time. rewrite !andb_true_iff, !Z.leb_le, !Z.ltb_lt. tauto.
Qed.

Lemma days_in_month_le y m : days_in_month y m <= 31.
Proof.
  unfold days_in_month.
  destruct m as [| p | p]; try lia.
  repeat (destruct p as [p | p |]; try lia); destruct (is_leap y); lia.
Qed.

Lemma after_separator_T rest : after_separator "T" rest = rest.
Proof. reflexivity. Qed.

(** [fromisoformat] reads back what [isoformat] printed for a naive
    datetime. *)
Lemma fromisoformat_isoformat t :
  naive_now t = true -> fromisoformat (isoformat t) = Some t.
Proof.
  unfold naive_now. rewrite andb_true_iff.
  destruct t as [[y m d] h mi s us [off |]]; [intros [_ H]; discriminate |].
  intros [Hv _]. unfold valid_datetime in Hv. cbn [dt_date hour minute second microsecond] in Hv.
  apply andb_true_iff in Hv. destruct Hv as [Hd Ht].
  pose proof Hd as Hd'. pose proof Ht as Ht'.
  apply valid_date_spec in Hd'. cbn [year month day] in Hd'.
  apply valid_time_spec in Ht'.
  pose proof (days_in_month_le y m).
  unfold isoformat, isoformat_date, isoformat_hms, fromisoformat.
  cbn [dt_date year month day hour minute second microsecond tzoffset].
  rewrite !append_assoc.
  rewrite (take_digits_zpad 4) by (change (10 ^ Z.of_nat 4) with 10000; lia).
  cbn [append expect Ascii.eqb Bool.eqb].
  rewrite (take_digits_zpad 2) by (change (10 ^ Z.of_nat 2) with 100; lia).
  cbn [append expect Ascii.eqb Bool.eqb].
  rewrite (take_digits_zpad 2) by (change (10 ^ Z.of_nat 2) with 100; lia).
  cbn [append]. rewrite after_separator_T.
  unfold parse_hh_mm_ss_ff.
  rewrite (take_digits_zpad 2) by (change (10 ^ Z.of_nat 2) with 100; lia).
  cbn [append expect Ascii.eqb Bool.eqb].
  rewrite (take_digits_zpad 2) by (change (10 ^ Z.of_nat 2) with 100; lia).
  cbn [append expect Ascii.eqb Bool.eqb].
  rewrite (take_digits_zpad 2) by (change (10 ^ Z.of_nat 2) with 100; lia).
  destruct (Z.eqb_spec us 0) as [-> | Hus].
  - cbn [append expect parse_offset]. rewrite Hd, Ht. reflexivity.
  - cbn [append expect Ascii.eqb Bool.eqb].
    rewrite (take_digits_zpad 6) by (change (10 ^ Z.of_nat 6) with 1000000; lia).
    cbn [parse_offset]. rewrite Hd, Ht. reflexivity.
Qed.

(** A start time that parses names a real date. *)
Lemma fromisoformat_valid s t :
  fromisoformat s = Some t -> valid_date (dt_date t) = true.
Proof.
  unfold fromisoformat. intros H.
  repeat match type of H with
  | match ?x with _ => _ end = _ => destruct x eqn:?; try discriminate
  | (let '(_, _) := ?x in _) = _ => destruct x eqn:?
  | (if ?c then _ else _) = _ => destruct c eqn:?; try discriminate
  end;
  inversion H; subst; cbn [dt_date];
  rewrite ?andb_true_iff in *; intuition.
Qed.

Lemma date_ge_min d : valid_date d = true -> date_ge d date_min = true.
Proof.
  intros H. apply valid_date_spec in H.
  unfold date_ge, date_cmp, date_min. cbn [year month day].
  destruct (Z.compare_spec (year d) 1); try lia; try reflexivity.
  destruct (Z.compare_spec (month d) 1); try lia; try reflexivity.
  destruct (Z.compare_spec (day d) 1); try lia; reflexivity.
Qed.

(** *** Ordinals *)

(** The table of [month_and_day], checked on every day of a common and
    of a leap year. *)
Lemma month_and_day_table (leapyear : bool) (n : Z) :
  0 <= n < (if leapyear then 366 else 365) ->
  month_and_day_ok leapyear n = true.
Proof.
  intros H.
  assert (All : forallb (fun k => month_and_day_ok true (Z.of_nat k) &&
                                  (month_and_day_ok false (Z.of_nat k) ||
                                   (365 <=? Z.of_nat k)))
                        (seq 0 366) = true) by (vm_compute; reflexivity).
  rewrite forallb_forall in All.
  specialize (All (Z.to_nat n)).
  rewrite Z2Nat.id in All by lia.
  assert (In (Z.to_nat n) (seq 0 366)) as Hin.
  { apply in_seq. destruct leapyear; lia. }
  apply All in Hin. apply andb_true_iff in Hin. destruct Hin as [Ht Hf].
  destruct leapyear; [exact Ht |].
  apply orb_true_iff in Hf. destruct Hf as [Hf | Hf]; [exact Hf |].
  apply Z.leb_le in Hf. lia.
Qed.

Lemma is_leap_cycles n400 n100 n4 n1 :
  0 <= n100 <= 3 -> 0 <= n4 <= 24 -> 0 <= n1 <= 3 ->
  is_leap (n400 * 400 + 1 + n100 * 100 + n4 * 4 + n1) =
  (n1 =? 3) && (negb (n4 =? 24) || (n100 =? 3)).
Proof.
  intros H100 H4 H1. unfold is_leap.
  set (y := n400 * 400 + 1 + n100 * 100 + n4 * 4 + n1).
  assert (E4 : y mod 4 = (n1 + 1) mod 4).
  { unfold y. replace (n400 * 400 + 1 + n100 * 100 + n4 * 4 + n1)
      with ((n1 + 1) + (n400 * 100 + n100 * 25 + n4) * 4) by lia.
    apply Z.mod_add. lia. }
  assert (E100 : y mod 100 = (n4 * 4 + n1 + 1) mod 100).
  { unfold y. replace (n400 * 400 + 1 + n100 * 100 + n4 * 4 + n1)
      with ((n4 * 4 + n1 + 1) + (n400 * 4 + n100) * 100) by lia.
    apply Z.mod_add. lia. }
  assert (E400 : y mod 400 = (n100 * 100 + n4 * 4 + n1 + 1) mod 400).
  { unfold y. replace (n400 * 400 + 1 + n100 * 100 + n4 * 4 + n1)
      with ((n100 * 100 + n4 * 4 + n1 + 1) + n400 * 400) by lia.
    apply Z.mod_add. lia. }
  rewrite E4, E100, E400.
  destruct (Z.eqb_spec n1 3) as [-> | N1].
  - cbn [andb].
    replace ((3 + 1) mod 4) with 0 by reflexivity. cbn [Z.eqb andb].
    destruct (Z.eqb_spec n4 24) as [-> | N4].
    + replace ((24 * 4 + 3 + 1) mod 100) with 0 by reflexivity.
      cbn [Z.eqb negb orb].
      destruct (Z.eqb_spec n100 3) as [-> | N100]; [reflexivity |].
      apply Z.eqb_neq.
      rewrite Z.mod_small by lia. lia.
    + cbn [negb orb].
      replace ((n4 * 4 + 3 + 1) mod 100 =? 0) with false; [reflexivity |].
      symmetry. apply Z.eqb_neq. rewrite Z.mod_small by lia. lia.
  - cbn [andb].
    replace ((n1 + 1) mod 4 =? 0) with false; [reflexivity |].
    symmetry. apply Z.eqb_neq. rewrite Z.mod_small by lia. lia.
Qed.

Lemma days_before_year_cycles n400 n100 n4 n1 :
  0 <= n100 <= 3 -> 0 <= n4 <= 24 -> 0 <= n1 <= 3 ->
  days_before_year (n400 * 400 + 1 + n100 * 100 + n4 * 4 + n1) =
  n400 * 146097 + n100 * 36524 + n4 * 1461 + n1 * 365.
Proof.
  intros H100 H4 H1. unfold days_before_year.
  replace (n400 * 400 + 1 + n100 * 100 + n4 * 4 + n1 - 1)
    with (n400 * 400 + n100 * 100 + n4 * 4 + n1) by lia.
  assert (Q4 : (n400 * 400 + n100 * 100 + n4 * 4 + n1) / 4 =
               n400 * 100 + n100 * 25 + n4).
  { symmetry. apply Z.div_unique with (r := n1); lia. }
  assert (Q100 : (n400 * 400 + n100 * 100 + n4 * 4 + n1) / 100 =
                 n400 * 4 + n100).
  { symmetry. apply Z.div_unique with (r := n4 * 4 + n1); lia. }
  assert (Q400 : (n400 * 400 + n100 * 100 + n4 * 4 + n1) / 400 = n400).
  { symmetry. apply Z.div_unique with (r := n100 * 100 + n4 * 4 + n1); lia. }
  rewrite Q4, Q100, Q400. lia.
Qed.

(** [ymd2ord] undoes [_ord2ymd]. *)
Lemma toordinal_ord2ymd n : 1 <= n -> toordinal (ord2ymd n) = n.
Proof.
  intros Hn. unfold ord2ymd.
  set (a := n - 1).
  set (n400 := a / 146097). set (r1 := a mod 146097).
  set (n100 := r1 / 36524). set (r2 := r1 mod 36524).
  set (n4 := r2 / 1461). set (r3 := r2 mod 1461).
  set (n1 := r3 / 365). set (r4 := r3 mod 365).
  assert (Ha : a = n400 * 146097 + r1)
    by (unfold n400, r1; pose proof (Z.div_mod a 146097); lia).
  assert (B1 : 0 <= r1 < 146097) by (apply Z.mod_pos_bound; lia).
  assert (H1 : r1 = n100 * 36524 + r2)
    by (unfold n100, r2; pose proof (Z.div_mod r1 36524); lia).
  assert (B2 : 0 <= r2 < 36524) by (apply Z.mod_pos_bound; lia).
  assert (H2 : r2 = n4 * 1461 + r3)
    by (unfold n4, r3; pose proof (Z.div_mod r2 1461); lia).
  assert (B3 : 0 <= r3 < 1461) by (apply Z.mod_pos_bound; lia).
  assert (H3 : r3 = n1 * 365 + r4)
    by (unfold n1, r4; pose proof (Z.div_mod r3 365); lia).
  assert (B4 : 0 <= r4 < 365) by (apply Z.mod_pos_bound; lia).
  assert (N100 : 0 <= n100 <= 4) by lia.
  assert (N4 : 0 <= n4 <= 24) by lia.
  assert (N1 : 0 <= n1 <= 4) by lia.
  assert (Hna : n = a + 1) by (unfold a; lia).
  clearbody a n400 r1 n100 r2 n4 r3 n1 r4.
  destruct (Z.eqb_spec n1 4) as [E1 | E1];
    [| destruct (Z.eqb_spec n100 4) as [E100 | E100]]; cbn [orb].
  - (* the last day of a leap year that ends a cycle of four *)
    unfold toordinal, ymd2ord. cbn [year month day].
    replace (n400 * 400 + 1 + n100 * 100 + n4 * 4 + n1 - 1)
      with (n400 * 400 + 1 + n100 * 100 + n4 * 4 + 3) by lia.
    assert (n100 <= 3) by lia.
    rewrite days_before_year_cycles by lia.
    unfold days_before_month. rewrite is_leap_cycles by lia.
    cbn [days_before_month_table Z.ltb Z.compare Pos.compare Pos.compare_cont
         andb Z.eqb Pos.eqb].
    assert (n4 <> 24 \/ n100 = 3) as L by lia.
    destruct (Z.eqb_spec n4 24); destruct (Z.eqb_spec n100 3);
      cbn [negb orb]; lia.
  - (* the last day of a cycle of 400 years *)
    unfold toordinal, ymd2ord. cbn [year month day].
    assert (n4 = 0 /\ n1 = 0 /\ r4 = 0) as [-> [-> ->]] by lia.
    replace (n400 * 400 + 1 + n100 * 100 + 0 * 4 + 0 - 1)
      with (n400 * 400 + 1 + 3 * 100 + 24 * 4 + 3) by lia.
    rewrite days_before_year_cycles by lia.
    unfold days_before_month. rewrite is_leap_cycles by lia.
    cbn. lia.
  - assert (n100 <= 3) by lia. assert (n1 <= 3) by lia.
    set (leapyear := (n1 =? 3) && (negb (n4 =? 24) || (n100 =? 3))).
    assert (Hr : 0 <= r4 < (if leapyear then 366 else 365))
      by (destruct leapyear; lia).
    pose proof (month_and_day_table leapyear r4 Hr) as T.
    unfold month_and_day_ok in T.
    destruct (month_and_day leapyear r4) as [m d].
    rewrite !andb_true_iff, !Z.leb_le, Z.eqb_eq in T.
    destruct T as [[[Hm1 Hm2] Hd] Hsum].
    unfold toordinal, ymd2ord. cbn [year month day].
    rewrite days_before_year_cycles by lia.
    unfold days_before_month. rewrite is_leap_cycles by lia.
    fold leapyear. lia.
Qed.

Lemma toordinal_positive d : valid_date d = true -> 1 <= toordinal d.
Proof.
  intros H. apply valid_date_spec in H.
  unfold toordinal, ymd2ord, days_before_year, days_before_month.
  assert (0 <= days_before_month_table (month d)).
  { unfold days_before_month_table.
    destruct (month d) as [| p | p]; try lia.
    repeat (destruct p as [p | p |]; try lia). }
  assert (0 <= (year d - 1) / 4 - (year d - 1) / 100).
  { pose proof (Z.div_mod (year d - 1) 4 ltac:(lia)).
    pose proof (Z.mod_pos_bound (year d - 1) 4 ltac:(lia)).
    pose proof (Z.div_mod (year d - 1) 100 ltac:(lia)).
    pose proof (Z.mod_pos_bound (year d - 1) 100 ltac:(lia)). lia. }
  assert (0 <= (year d - 1) / 400) by (apply Z.div_pos; lia).
  destruct ((2 <? month d) && is_leap (year d)); lia.
Qed.

(** The day [date_sub_days] gives for "today minus today's weekday" is a
    Monday, at most six days back. *)
Lemma monday_of_the_week today monday :
  1 <= toordinal today ->
  date_sub_days today (weekday today) = Some monday ->
  weekday monday = 0 /\
  toordinal today - 6 <= toordinal monday <= toordinal today.
Proof.
  intros Hpos. unfold date_sub_days, weekday.
  set (o := toordinal today) in *.
  pose proof (Z.mod_pos_bound (o + 6) 7 ltac:(lia)) as Hb.
  destruct ((0 <? o - (o + 6) mod 7) && (o - (o + 6) mod 7 <=? MAXORDINAL))
    eqn:E; [| intros H; discriminate H].
  apply andb_true_iff in E. destruct E as [E1 _]. apply Z.ltb_lt in E1.
  intros H. injection H as <-.
  rewrite toordinal_ord2ymd by lia.
  split; [| lia].
  pose proof (Z.div_mod (o + 6) 7 ltac:(lia)) as Hdm.
  replace (o - (o + 6) mod 7 + 6) with (7 * ((o + 6) / 7)) by lia.
  rewrite Z.mul_comm. apply Z.mod_mul. lia.
Qed.

End DatetimeFacts.

(* ================================================================= *)
(** ** Dicts *)

Module DictFacts.

Lemma get_set_same {V} (d : Dict.dict V) k v :
  Dict.get (Dict.set d k v) k = Some v.
Proof.
  induction d as [| [k' v'] d IH]; simpl.
  - rewrite String.eqb_refl. reflexivity.
  - destruct (String.eqb k k') eqn:E; simpl; rewrite E; auto.
Qed.

Lemma get_set_other {V} (d : Dict.dict V) k k' v :
  k <> k' -> Dict.get (Dict.set d k' v) k = Dict.get d k.
Proof.
  intros Hk.
  assert (Hkk : String.eqb k k' = false) by (apply String.eqb_neq; exact Hk).
  induction d as [| [k0 v0] d IH]; simpl.
  - rewrite Hkk. reflexivity.
  - destruct (String.eqb k' k0) eqn:E; simpl.
    + apply String.eqb_eq in E. subst k0. rewrite Hkk. reflexivity.
    + rewrite IH. reflexivity.
Qed.

Lemma get_map {V W} (f : V -> W) (d : Dict.dict V) k :
  Dict.get (map (fun kv => (fst kv, f (snd kv))) d) k =
  option_map f (Dict.get d k).
Proof.
  induction d as [| [k' v'] d IH]; simpl; [reflexivity |].
  destruct (String.eqb k k'); auto.
Qed.

End DictFacts.

(* ================================================================= *)
(** * The properties of the specification *)

Module Properties.

Import Float Datetime Json Py Ledger DeepWorkTracker Argparse Cli Notions.
Import FloatFacts DatetimeFacts DictFacts.
Open Scope string_scope.
Open Scope Z_scope.

Lemma Ok_inj {A} (a b : A) : Ok a = Ok b -> a = b.
Proof. intros H. injection H as H. exact H. Qed.

(** *** Loading and saving *)

Lemma load_data_cases path w :
  load_data path w =
  match Dict.get (files w) path with
  | None => (Ok empty_document, w)
  | Some (File text) =>
      (match loads text with
       | Some doc => Ok doc
       | None => Raise JSONDecodeError
       end, w)
  | Some Undecodable => (Raise UnicodeDecodeError, w)
  | Some Directory => (Raise (IsADirectoryError path), w)
  | Some Locked => (Raise (PermissionError path), w)
  end.
Proof.
  unfold load_data, try_except, read_document, bind, read_file, json_load,
    of_option, ret, raise.
  destruct (Dict.get (files w) path) as [[text | | |] |]; try reflexivity.
  destruct (loads text); reflexivity.
Qed.

Lemma json_dump_incident obj path w :
  json_dump obj path [("incident", JInt 2)] w = (Raise unexpected_incident, w).
Proof. reflexivity. Qed.

Lemma save_data_cases t w :
  save_data (mkProcess t w) =
  match Dict.get (files w) (filename t) with
  | Some Directory => (Raise (IsADirectoryError (filename t)), mkProcess t w)
  | Some Locked => (Raise (PermissionError (filename t)), mkProcess t w)
  | _ => (Raise unexpected_incident,
          mkProcess t (set_files (Dict.set (files w) (filename t) (File "")) w))
  end.
Proof.
  unfold save_data, bind, get_self, io, open_write. cbn [self world].
  destruct (Dict.get (files w) (filename t)) as [[text | | |] |];
    try reflexivity.
Qed.


(** C8, as the code has it.  [load_data] returns the empty ledger
    [{sessions: [], goals: {}}] when the file is absent, and absence is
    the only failure it answers so.  A file that is present is never
    replaced: when it is read, the document it holds is returned as it
    is (the empty ledger, then, if that is what the file holds), and
    every failure to read it is raised, by [load_data] and by the
    constructor: [JSONDecodeError] for text that is no JSON document,
    [UnicodeDecodeError], [IsADirectoryError] and [PermissionError] for a
    path that cannot be read as text.  In no case is a file or anything
    else changed.  (What is said of the text of a file is said of texts
    within the limits of the interpreter, see [moderate].) *)
Theorem load_data_falls_back_only_when_absent (path : string) (w : World) :
  let empty_ledger := JDict [("sessions", JList []); ("goals", JDict [])] in
  (Dict.get (files w) path = None ->
   load_data path w = (Ok empty_ledger, w)) /\
  (forall text doc,
     Dict.get (files w) path = Some (File text) ->
     moderate text = true ->
     loads text = Some doc ->
     load_data path w = (Ok doc, w)) /\
  (forall text,
     Dict.get (files w) path = Some (File text) ->
     moderate text = true ->
     loads text = None ->
     load_data path w = (Raise JSONDecodeError, w) /\
     init path w = (Raise JSONDecodeError, w)) /\
  (forall text,
     In text [""; "{"; "[1, 2"; "{'sessions': [], 'goals': {}}";
              "sessions,goals"; "{} {}"] ->
     Dict.get (files w) path = Some (File text) ->
     load_data path w = (Raise JSONDecodeError, w)) /\
  (Dict.get (files w) path = Some Undecodable ->
   load_data path w = (Raise UnicodeDecodeError, w) /\
   init path w = (Raise UnicodeDecodeError, w)) /\
  (Dict.get (files w) path = Some Directory ->
   load_data path w = (Raise (IsADirectoryError path), w) /\
   init path w = (Raise (IsADirectoryError path), w)) /\
  (Dict.get (files w) path = Some Locked ->
   load_data path w = (Raise (PermissionError path), w) /\
   init path w = (Raise (PermissionError path), w)) /\
  (forall e,
     Dict.get (files w) path <> None ->
     fst (read_document path w) = Raise e ->
     load_data path w = (Raise e, w) /\ init path w = (Raise e, w)) /\
  (forall doc,
     load_data path w = (Ok doc, w) ->
     Dict.get (files w) path = None /\ doc = empty_ledger \/
     exists text,
       Dict.get (files w) path = Some (File text) /\ loads text = Some doc) /\
  snd (load_data path w) = w.
Proof.
  intros empty_ledger.
  unfold init, bind. rewrite !load_data_cases.
  unfold read_document, bind, read_file, json_load, of_option, ret, raise.
  destruct (Dict.get (files w) path) as [[text | | |] |] eqn:E.
  - assert (Same : forall text', Some (File text) = Some (File text') ->
                                 text' = text).
    { intros text' H.
      apply (f_equal (fun o => match o with
                               | Some (File c) => c
                               | _ => text
                               end)) in H. symmetry. exact H. }
    split; [intros H; discriminate H |].
    split.
    { intros text' doc H _ L. apply Same in H. subst text'. rewrite L.
      reflexivity. }
    split.
    { intros text' H _ L. apply Same in H. subst text'. rewrite L.
      split; reflexivity. }
    split.
    { intros text' Hin H. apply Same in H. subst text'.
      assert (L : loads text = None).
      { cbn [In] in Hin.
        repeat (destruct Hin as [<- | Hin]; [vm_compute; reflexivity |]).
        contradiction. }
      rewrite L. reflexivity. }
    split; [intros H; discriminate H |].
    split; [intros H; discriminate H |].
    split; [intros H; discriminate H |].
    split.
    { intros e _. destruct (loads text); cbn [fst]; intros H;
        [discriminate H |].
      injection H as <-. split; reflexivity. }
    split; [| destruct (loads text); reflexivity].
    intros doc H. right. exists text. split; [reflexivity |].
    destruct (loads text) as [doc' |]; [| discriminate H].
    apply (f_equal fst) in H. cbn [fst] in H. apply Ok_inj in H.
    subst doc'. reflexivity.
  - split; [intros H; discriminate H |].
    split; [intros text doc H; discriminate H |].
    split; [intros text H; discriminate H |].
    split; [intros text _ H; discriminate H |].
    split; [intros _; split; reflexivity |].
    split; [intros H; discriminate H |].
    split; [intros H; discriminate H |].
    split.
    { intros e _ H. cbn [fst] in H. injection H as <-. split; reflexivity. }
    split; [intros doc H; discriminate H | reflexivity].
  - split; [intros H; discriminate H |].
    split; [intros text doc H; discriminate H |].
    split; [intros text H; discriminate H |].
    split; [intros text _ H; discriminate H |].
    split; [intros H; discriminate H |].
    split; [intros _; split; reflexivity |].
    split; [intros H; discriminate H |].
    split.
    { intros e _ H. cbn [fst] in H. injection H as <-. split; reflexivity. }
    split; [intros doc H; discriminate H | reflexivity].
  - split; [intros H; discriminate H |].
    split; [intros text doc H; discriminate H |].
    split; [intros text H; discriminate H |].
    split; [intros text _ H; discriminate H |].
    split; [intros H; discriminate H |].
    split; [intros H; discriminate H |].
    split; [intros _; split; reflexivity |].
    split.
    { intros e _ H. cbn [fst] in H. injection H as <-. split; reflexivity. }
    split; [intros doc H; discriminate H | reflexivity].
  - split; [intros _; reflexivity |].
    split; [intros text doc H; discriminate H |].
    split; [intros text H; discriminate H |].
    split; [intros text _ H; discriminate H |].
    split; [intros H; discriminate H |].
    split; [intros H; discriminate H |].
    split; [intros H; discriminate H |].
    split; [intros e H; contradiction |].
    split; [| reflexivity].
    intros doc H. left. split; [reflexivity |].
    apply (f_equal fst) in H. cbn [fst] in H. apply Ok_inj in H.
    symmetry. exact H.
Qed.

(** A file that is present and holds the empty ledger: [load_data]
    returns the empty ledger although the file is not absent. *)
Lemma load_data_returns_the_empty_ledger_a_file_holds :
  let empty_ledger := JDict [("sessions", JList []); ("goals", JDict [])] in
  let text := "{" ++ String dquote ("sessions" ++ String dquote (": [], " ++
              String dquote ("goals" ++ String dquote ": {}}"))) in
  let w := world_at (wednesday 11 30) [("deep_work_data.json", File text)] in
  dumps None empty_ledger = text /\
  Dict.get (files w) "deep_work_data.json" = Some (File text) /\
  load_data "deep_work_data.json" w = (Ok empty_ledger, w).
Proof. vm_compute. repeat split. Qed.

(** *** Ending a session *)

Lemma divide_by_3600 {S} (x : float) (s : S) :
  divide x (of_Z 3600) s =
  (Ok (match fdiv x (of_Z 3600) with Some q => q | None => Fnan end), s).
Proof.
  unfold divide, fdiv.
  replace (is_zero (of_Z 3600)) with false by (vm_compute; reflexivity).
  reflexivity.
Qed.

(** [end_session] up to its call of [save_data]: the clock is read once,
    the session is appended in memory. *)
Lemma end_session_appends t w start_time category description start :
  naive_now (clock w (ticks w)) = true ->
  fromisoformat start_time = Some start ->
  tzoffset start = None ->
  end_session start_time category description (mkProcess t w) =
  (save_data ;;;
   io (print "Session ended. Duration: {round(duration, 2)}hours"))
    (mkProcess
       (mkTracker (filename t)
          (mkLedger (sessions (data t) ++
                     [completed start_time category description start
                                (clock w (ticks w))])
                    (goals (data t))))
       (ticked 1 w)).
Proof.
  intros Hnow Hstart Htz.
  pose proof (fromisoformat_isoformat _ Hnow) as Hend.
  assert (Hntz : tzoffset (clock w (ticks w)) = None).
  { unfold naive_now in Hnow. apply andb_true_iff in Hnow.
    destruct Hnow as [_ H]. destruct (tzoffset (clock w (ticks w)));
      [discriminate | reflexivity]. }
  unfold end_session.
  unfold bind at 1. unfold io at 1, now. cbn [world self].
  unfold bind at 1. unfold parse_datetime at 1. rewrite Hend.
  cbn [of_option ret].
  unfold bind at 1. unfold parse_datetime at 1. rewrite Hstart.
  cbn [of_option ret].
  unfold bind at 1. unfold datetime_sub. rewrite Hntz, Htz. cbn [ret].
  unfold bind at 1. rewrite divide_by_3600.
  unfold bind at 1. unfold get_self at 1. cbn [self].
  unfold bind at 1. unfold set_data at 1. cbn [self world filename].
  reflexivity.
Qed.

Lemma end_session_unparseable t w start_time category description :
  naive_now (clock w (ticks w)) = true ->
  fromisoformat start_time = None ->
  end_session start_time category description (mkProcess t w) =
  (Raise (ValueError "Invalid isoformat string"), mkProcess t (ticked 1 w)).
Proof.
  intros Hnow Hstart.
  pose proof (fromisoformat_isoformat _ Hnow) as Hend.
  unfold end_session.
  unfold bind at 1. unfold io at 1, now. cbn [world self].
  unfold bind at 1. unfold parse_datetime at 1. rewrite Hend.
  cbn [of_option ret].
  unfold bind at 1. unfold parse_datetime at 1. rewrite Hstart.
  reflexivity.
Qed.

(** C2.  [end_session] with a start time that parses, at a moment the
    clock gives: exactly one session is appended to the ledger in memory,
    with the elapsed hours rounded to two decimals as its duration.  It
    is not persisted: [save_data] empties the data file and raises
    [TypeError], and the closing message is not printed. *)
Theorem end_session_appends_but_does_not_persist
    (t : Tracker) (w : World) (start_time category : string)
    (description : option string) (start : datetime) :
  naive_now (clock w (ticks w)) = true ->
  fromisoformat start_time = Some start ->
  tzoffset start = None ->
  datetime_le start (clock w (ticks w)) = true ->
  writable w (filename t) = true ->
  let finish := clock w (ticks w) in
  let session := mkSession start_time (Some (isoformat finish))
                   (round2 (elapsed_hours start finish))
                   category description in
  exists w',
    end_session start_time category description (mkProcess t w) =
    (Raise unexpected_incident,
     mkProcess (mkTracker (filename t)
                  (mkLedger (sessions (data t) ++ [session]) (goals (data t))))
               w') /\
    Dict.get (files w') (filename t) = Some (File "") /\
    stdout w' = stdout w.
Proof.
  intros Hnow Hstart Htz _ Hw finish session.
  rewrite (end_session_appends _ _ _ _ _ _ Hnow Hstart Htz).
  unfold bind at 1. rewrite save_data_cases.
  cbn [filename files ticked].
  unfold writable in Hw.
  destruct (Dict.get (files w) (filename t)) as [[text | | |] |];
    try discriminate;
    (eexists; split; [reflexivity |]; cbn [files set_files stdout];
     split; [apply get_set_same | reflexivity]).
Qed.

(** A negative exact value rounds to a negative float: a negative
    number, [-0.0] or [-inf]. *)
Lemma of_ratio_negative n d :
  0 <= n -> 0 < d -> is_neg (of_ratio true n d) = true.
Proof.
  intros Hn Hd. unfold of_ratio.
  pose proof (round_ratio_nonneg n d Hn Hd) as H.
  destruct (top <=? round_ratio n d); [reflexivity |].
  destruct (Z.eqb_spec (round_ratio n d) 0); [reflexivity |].
  cbn [is_neg]. apply Z.ltb_lt. lia.
Qed.

Lemma total_seconds_negative us :
  us < 0 -> is_neg (total_seconds us) = true.
Proof.
  intros H. unfold total_seconds, int_truediv.
  replace (us =? 0) with false by (symmetry; apply Z.eqb_neq; lia).
  replace (us <? 0) with true by (symmetry; apply Z.ltb_lt; lia).
  change (10 ^ 6 <? 0) with false. cbn [xorb].
  apply of_ratio_negative.
  - assert (0 < scale) by (unfold scale; apply Z.pow_pos_nonneg; lia). nia.
  - reflexivity.
Qed.

Lemma hours_negative x :
  is_neg x = true ->
  is_neg (match fdiv x (of_Z 3600) with Some q => q | None => Fnan end) = true.
Proof.
  intros H.
  assert (E : of_Z 3600 = Fnum (3600 * scale)) by (vm_compute; reflexivity).
  rewrite E. unfold fdiv.
  assert (Hs : 0 < scale) by (unfold scale; apply Z.pow_pos_nonneg; lia).
  replace (is_zero (Fnum (3600 * scale))) with false
    by (symmetry; cbn [is_zero]; apply Z.eqb_neq; lia).
  destruct x as [k | | [] |].
  all: cbn [is_neg] in H.
  all: try discriminate H.
  2, 3: reflexivity.
  apply Z.ltb_lt in H.
  replace (k =? 0) with false by (symmetry; apply Z.eqb_neq; lia).
  replace (k <? 0) with true by (symmetry; apply Z.ltb_lt; lia).
  replace (3600 * scale <? 0) with false by (symmetry; apply Z.ltb_ge; lia).
  cbn [xorb]. apply of_ratio_negative; [nia | lia].
Qed.

Lemma round2_negative x : is_neg x = true -> is_neg (round2 x) = true.
Proof.
  intros H. destruct x as [k | | [] |]; cbn [is_neg] in H; try discriminate.
  2, 3: reflexivity.
  unfold round2. rewrite H.
  assert (Hs : 0 < scale) by (unfold scale; apply Z.pow_pos_nonneg; lia).
  pose proof (rne_bounds (Z.abs k * 100) scale Hs).
  assert (0 <= Z.abs k * 100 / scale) by (apply Z.div_pos; lia).
  apply of_ratio_negative; [nia | lia].
Qed.

(** C3, as the code has it.  A start time that does not parse makes
    [end_session] raise [ValueError] before anything is appended or
    written.  An end time before the start is not checked: the session is
    appended with its negative duration (a negative number or [-0.0]). *)
Theorem end_session_validates_only_the_format
    (t : Tracker) (w : World) (start_time category : string)
    (description : option string) :
  naive_now (clock w (ticks w)) = true ->
  (fromisoformat start_time = None ->
   end_session start_time category description (mkProcess t w) =
   (Raise (ValueError "Invalid isoformat string"),
    mkProcess t (ticked 1 w))) /\
  (forall start,
     fromisoformat start_time = Some start ->
     tzoffset start = None ->
     diff_microseconds (clock w (ticks w)) start < 0 ->
     let duration := round2 (elapsed_hours start (clock w (ticks w))) in
     is_neg duration = true /\
     sessions (data (self (snd
       (end_session start_time category description (mkProcess t w))))) =
     (sessions (data t) ++
      [mkSession start_time (Some (isoformat (clock w (ticks w))))
                 duration category description])%list).
Proof.
  intros Hnow. split.
  - intros Hstart. apply end_session_unparseable; assumption.
  - intros start Hstart Htz Hlt duration. split.
    + apply round2_negative. unfold elapsed_hours.
      apply hours_negative. apply total_seconds_negative. exact Hlt.
    + rewrite (end_session_appends _ _ _ _ _ _ Hnow Hstart Htz).
      unfold bind at 1. rewrite save_data_cases.
      cbn [filename files ticked].
      destruct (Dict.get (files w) (filename t)) as [[text | | |] |];
        reflexivity.
Qed.

(** *** Summaries *)

(** The comprehension of line 66 is a filter when every start time
    parses, and raises otherwise. *)
Lemma filter_since_parses {S} d l (st : S) :
  forallb parses l = true ->
  filter_since d l st = (Ok (filter (starts_since d) l), st).
Proof.
  induction l as [| s l IH]; intros H; [reflexivity |].
  cbn [forallb] in H. apply andb_true_iff in H. destruct H as [Hs Hl].
  cbn [filter_since filter]. unfold bind at 1.
  unfold parses in Hs. unfold starts_since at 1. unfold parse_datetime.
  destruct (fromisoformat (start_time s)) as [t |]; [| discriminate Hs].
  cbn [of_option ret]. unfold bind at 1. rewrite (IH Hl).
  unfold ret. destruct (date_ge (dt_date t) d); reflexivity.
Qed.

Lemma filter_since_returns {S} d l (st st' : S) r :
  filter_since d l st = (Ok r, st') ->
  forallb parses l = true /\ st' = st /\ r = filter (starts_since d) l.
Proof.
  revert r st'. induction l as [| s l IH]; intros r st' H.
  - inversion H. auto.
  - cbn [filter_since] in H. unfold bind at 1 in H.
    unfold parse_datetime in H. cbn [forallb filter].
    unfold parses at 1. unfold starts_since at 1.
    destruct (fromisoformat (start_time s)) as [t |];
      cbn [of_option ret raise] in H; [| discriminate H].
    unfold bind at 1 in H.
    destruct (filter_since d l st) as [[kept | e] st1] eqn:E;
      [| discriminate H].
    destruct (IH _ _ eq_refl) as [Hp [-> ->]].
    unfold ret in H. inversion H. subst. rewrite Hp. auto.
Qed.

Lemma starts_since_min s : parses s = true -> starts_since date_min s = true.
Proof.
  unfold parses, starts_since.
  destruct (fromisoformat (start_time s)) as [t |] eqn:E; [| discriminate].
  intros _. apply date_ge_min. eapply fromisoformat_valid. exact E.
Qed.

Lemma filter_all {A} (f : A -> bool) l :
  forallb f l = true -> filter f l = l.
Proof.
  induction l as [| a l IH]; [reflexivity |].
  cbn [forallb filter]. intros H. apply andb_true_iff in H.
  destruct H as [-> H]. rewrite (IH H). reflexivity.
Qed.

Lemma get_summary_all t w :
  forallb parses (sessions (data t)) = true ->
  get_summary "all" (mkProcess t w) =
  (Ok (summarize (sessions (data t))), mkProcess t w).
Proof.
  intros H. unfold get_summary.
  unfold bind at 1. unfold io, period_start.
  cbn [String.eqb Ascii.eqb Bool.eqb world self ret].
  unfold bind at 1. unfold get_self at 1. cbn [self].
  unfold bind at 1. rewrite (filter_since_parses _ _ _ H).
  rewrite filter_all; [reflexivity |].
  apply forallb_forall. intros s Hs. apply starts_since_min.
  rewrite forallb_forall in H. apply H. exact Hs.
Qed.

Lemma get_summary_daily t w :
  forallb parses (sessions (data t)) = true ->
  get_summary "daily" (mkProcess t w) =
  (Ok (summarize (filter (starts_since (dt_date (clock w (ticks w))))
                         (sessions (data t)))),
   mkProcess t (ticked 1 w)).
Proof.
  intros H. unfold get_summary.
  unfold bind at 1. unfold io, period_start.
  cbn [String.eqb Ascii.eqb Bool.eqb world self].
  unfold bind at 1. unfold now at 1. cbn [ret].
  unfold bind at 1. unfold get_self at 1. cbn [self].
  unfold bind at 1. rewrite (filter_since_parses _ _ _ H).
  reflexivity.
Qed.

Lemma get_summary_weekly t w monday :
  forallb parses (sessions (data t)) = true ->
  date_sub_days (dt_date (clock w (ticks w)))
                (weekday (dt_date (clock w (S (ticks w))))) = Some monday ->
  get_summary "weekly" (mkProcess t w) =
  (Ok (summarize (filter (starts_since monday) (sessions (data t)))),
   mkProcess t (ticked 2 w)).
Proof.
  intros H Hm. unfold get_summary.
  unfold bind at 1. unfold io, period_start.
  cbn [String.eqb Ascii.eqb Bool.eqb world self].
  unfold bind at 1. unfold now at 1.
  unfold bind at 1. unfold now at 1. cbn [clock ticks].
  rewrite Hm. cbn [of_option ret].
  unfold bind at 1. unfold get_self at 1. cbn [self].
  unfold bind at 1. rewrite (filter_since_parses _ _ _ H).
  reflexivity.
Qed.


(** C10.  When every start time parses, the total of
    [get_summary('all')] is the value [get_total_time] returns: both are
    the sum of all durations, rounded to two decimals, because every date
    that parses is on or after [datetime.min.date()]. *)
Theorem get_summary_all_total_is_get_total_time (t : Tracker) (w : World) :
  forallb parses (sessions (data t)) = true ->
  exists summary,
    get_summary "all" (mkProcess t w) = (Ok summary, mkProcess t w) /\
    get_total_time (mkProcess t w) =
      (Ok (total_time summary), mkProcess t w) /\
    total_time summary = round2 (fsum (map duration (sessions (data t)))).
Proof.
  intros H. exists (summarize (sessions (data t))).
  split; [apply get_summary_all; exact H |].
  split; reflexivity.
Qed.

(** *** Sums by category *)

Lemma get_add_to d c c' x :
  Dict.get (add_to d c' x) c =
  if String.eqb c c' then cat_add (Dict.get d c) x else Dict.get d c.
Proof.
  unfold add_to. destruct (String.eqb_spec c c') as [-> | Hne].
  - apply get_set_same.
  - apply get_set_other. exact Hne.
Qed.

Lemma get_sum_by_category c l : forall d,
  Dict.get (fold_left (fun d s => add_to d (category s) (duration s)) l d) c =
  cat_total c l (Dict.get d c).
Proof.
  induction l as [| s l IH]; intros d; [reflexivity |].
  cbn [fold_left cat_total]. rewrite IH, get_add_to. reflexivity.
Qed.

Lemma get_category_time c l :
  Dict.get (category_time (summarize l)) c =
  option_map round2 (cat_total c l None).
Proof.
  unfold summarize. cbn [category_time].
  rewrite get_map. unfold sum_by_category.
  rewrite get_sum_by_category. reflexivity.
Qed.

Lemma below_cat_add o1 o2 x :
  nonneg x = true -> below o1 o2 -> below (cat_add o1 x) (cat_add o2 x).
Proof.
  intros Hx H. unfold cat_add, below in *.
  assert (Z0 : nonneg (Fnum 0) = true) by reflexivity.
  destruct o1 as [a |], o2 as [b |]; try contradiction.
  - destruct H as [Ha [Hb Hab]].
    repeat split; try (apply fadd_capped; assumption).
    apply fadd_mono; assumption.
  - repeat split; try (apply fadd_capped; assumption).
    apply fadd_mono; try assumption.
    cbn [ev]. apply ev_range. exact H.
  - repeat split; try (apply fadd_capped; assumption). lia.
Qed.

Lemma below_cat_add_right o1 o2 x :
  nonneg x = true -> below o1 o2 -> below o1 (cat_add o2 x).
Proof.
  intros Hx H. unfold cat_add, below in *.
  assert (Z0 : nonneg (Fnum 0) = true) by reflexivity.
  destruct o1 as [a |], o2 as [b |]; try contradiction.
  - destruct H as [Ha [Hb Hab]].
    repeat split; try assumption; try (apply fadd_capped; assumption).
    pose proof (fadd_grows b x Hb Hx). lia.
  - apply fadd_capped; assumption.
  - apply fadd_capped; assumption.
Qed.

(** Leaving sessions out can only lower the sum of a category, when no
    duration is negative. *)
Lemma cat_total_filter c (keep : Session -> bool) l :
  forallb (fun s => nonneg (duration s)) l = true ->
  forall o1 o2, below o1 o2 ->
  below (cat_total c (filter keep l) o1) (cat_total c l o2).
Proof.
  induction l as [| s l IH]; intros H o1 o2 Hb; [exact Hb |].
  cbn [forallb] in H. apply andb_true_iff in H. destruct H as [Hs Hl].
  cbn [filter cat_total].
  destruct (keep s); cbn [cat_total];
    destruct (String.eqb c (category s)); apply IH; try assumption.
  - apply below_cat_add; assumption.
  - apply below_cat_add_right; assumption.
Qed.

Lemma io_keeps_self {A} (m : M World A) p r p' :
  io m p = (r, p') -> self p' = self p.
Proof.
  unfold io. destruct (m (world p)) as [r0 w0]. intros H.
  inversion H. reflexivity.
Qed.

(** A summary that is returned is the summary of a filter. *)
Lemma get_summary_returns period t w summary p' :
  get_summary period (mkProcess t w) = (Ok summary, p') ->
  forallb parses (sessions (data t)) = true /\
  exists d, summary = summarize (filter (starts_since d) (sessions (data t))).
Proof.
  unfold get_summary. unfold bind at 1.
  destruct (io (period_start period) (mkProcess t w)) as [[d | e] p1] eqn:E;
    [| intros H; discriminate H].
  apply io_keeps_self in E. cbn [self] in E.
  unfold bind at 1. unfold get_self at 1. rewrite E.
  unfold bind at 1.
  destruct (filter_since d (sessions (data t)) p1) as [[kept | e] p2] eqn:F;
    [| intros H; discriminate H].
  apply filter_since_returns in F. destruct F as [Hp [_ ->]].
  unfold ret. intros H. inversion H. split; [exact Hp |].
  exists d. reflexivity.
Qed.

(** The durations [end_session] records are doubles. *)
Lemma completed_duration_is_double start_time category description start finish :
  is_double
    (duration (completed start_time category description start finish)) = true.
Proof. apply round2_is_double. Qed.

(** C5, as the code has it.  When every duration [d] is a float with
    [0 <= d] (so none is negative and none is NaN), every value of the
    weekly [category_time] is at most the value of the same category in
    the [category_time] of [get_summary('all')]. *)
Theorem weekly_category_time_at_most_all
    (t : Tracker) (w w' : World) (weekly all : Summary) (pw pa : Process) :
  forallb (fun s => nonneg (duration s)) (sessions (data t)) = true ->
  get_summary "weekly" (mkProcess t w) = (Ok weekly, pw) ->
  get_summary "all" (mkProcess t w') = (Ok all, pa) ->
  forall c v,
    Dict.get (category_time weekly) c = Some v ->
    exists v',
      Dict.get (category_time all) c = Some v' /\ fle v v' = true.
Proof.
  intros Hnn Hw Ha c v Hv.
  apply get_summary_returns in Hw. destruct Hw as [Hp [d ->]].
  rewrite (get_summary_all _ _ Hp) in Ha. inversion Ha; subst all pa.
  rewrite get_category_time in *.
  pose proof (cat_total_filter c (starts_since d) _ Hnn None None I) as Hb.
  destruct (cat_total c (filter (starts_since d) (sessions (data t))) None)
    as [a |]; [| discriminate Hv].
  cbn [option_map] in Hv. inversion Hv; subst v.
  destruct (cat_total c (sessions (data t)) None) as [b |];
    [| contradiction].
  destruct Hb as [Hna [Hnb Hab]].
  exists (round2 b). split; [reflexivity |].
  apply round2_mono; assumption.
Qed.

(** *** Goals *)

(** C7.  With at least one goal set, [track_goals] reports no progress
    at all: after the weekly summary and the heading it asks the dict of
    goals for an attribute [item], which a dict does not have, and
    raises [AttributeError].  (When the weekly summary itself raises,
    that exception comes first.) *)
Theorem track_goals_raises (t : Tracker) (w : World) :
  goals (data t) <> [] ->
  exists e p',
    track_goals (mkProcess t w) = (Raise e, p') /\
    (forall summary p1,
       get_summary "weekly" (mkProcess t w) = (Ok summary, p1) ->
       e = AttributeError "dict" "item" /\
       stdout (world p') = (stdout (world p1) ++ ["Weekly Goal Tracking:"])%list).
Proof.
  intros Hg. unfold track_goals.
  unfold bind at 1. unfold get_goals. unfold bind at 1.
  unfold get_self at 1. cbn [self ret].
  destruct (goals (data t)) as [| g gs]; [contradiction |].
  unfold bind at 1.
  destruct (get_summary "weekly" (mkProcess t w)) as [[sm | e] p1].
  - unfold bind at 1. unfold io at 1, print at 1.
    unfold bind at 1.
    eexists. eexists. split; [reflexivity |].
    intros summary p2 H. inversion H; subst. split; reflexivity.
  - eexists. eexists. split; [reflexivity |].
    intros summary p2 H. discriminate H.
Qed.

(** *** The productivity score *)

(** C6.  [calculate_productivity_score] asks the instance for an
    attribute [summary], which the class does not define (the method is
    [get_summary]): it raises [AttributeError] for every ledger and
    computes no score. *)
Theorem calculate_productivity_score_raises (p : Process) :
  calculate_productivity_score p =
    (Raise (AttributeError "DeepWorkTracker" "summary"), p) /\
  mem "summary" DeepWorkTracker.attributes = false /\
  mem "get_summary" DeepWorkTracker.attributes = true.
Proof. repeat split; reflexivity. Qed.

(** *** The command line *)

(** The branch of the [end] command, were it reached: without a pending
    session it prints its message and changes nothing else. *)
Lemma dispatch_end_without_pending_session args t w :
  Dict.get args "action" = Some (VStr "end") ->
  match last_of (sessions (data t)) with
  | None => True
  | Some s => end_time s <> None
  end ->
  dispatch args t w =
  (Ok tt,
   mkWorld (clock w) (ticks w) (files w)
           (stdout w ++ ["No active session to end. Start a new session first."])
           (effects w)).
Proof.
  intros Ha Hl. unfold dispatch, bind, attr. rewrite Ha.
  cbn [of_option ret is_action]. unfold dispatch_end.
  destruct (last_of (sessions (data t))) as [s |]; [| reflexivity].
  destruct (end_time s); [reflexivity | contradiction].
Qed.

(** With a pending session the branch reads the local [category], which
    has no value there. *)
Lemma dispatch_end_with_pending_session args t w s :
  Dict.get args "action" = Some (VStr "end") ->
  last_of (sessions (data t)) = Some s ->
  end_time s = None ->
  dispatch args t w = (Raise (UnboundLocalError "category"), w).
Proof.
  intros Ha Hl He. unfold dispatch, bind, attr. rewrite Ha.
  cbn [of_option ret is_action]. unfold dispatch_end. rewrite Hl, He.
  reflexivity.
Qed.

(** C9.  [main] never reaches the branch of a command: building the
    parser raises [TypeError] at the misspelt keyword [defualt] of line
    173, whatever the command line and the world are.  Nothing is printed
    and no file is touched.  The branch of the [end] command itself, run
    on a parsed command line, does report that there is no active session
    and leaves the ledger and the files as they are. *)
Theorem main_raises_before_dispatch (argv : list string) (w : World) :
  main argv w =
    (Raise (TypeError
       "_StoreAction.__init__() got an unexpected keyword argument 'defualt'"),
     w) /\
  (forall args t,
     Dict.get args "action" = Some (VStr "end") ->
     match last_of (sessions (data t)) with
     | None => True
     | Some s => end_time s <> None
     end ->
     exists w',
       dispatch args t w = (Ok tt, w') /\
       stdout w' =
         (stdout w ++
          ["No active session to end. Start a new session first."])%list /\
       files w' = files w).
Proof.
  split; [reflexivity |].
  intros args t Ha Hl.
  rewrite (dispatch_end_without_pending_session args t w Ha Hl).
  eexists. split; [reflexivity |]. split; reflexivity.
Qed.

(* ================================================================= *)
(** ** Examples *)

(** A session begun at 10:00 and ended at 11:30 lasts 1.5 hours; it
    stays in memory and the data file ends up empty. *)
Lemma end_session_after_ninety_minutes :
  naive_now (wednesday 11 30) = true /\
  fromisoformat "2024-01-10T10:00:00" = Some (wednesday 10 0) /\
  tzoffset (wednesday 10 0) = None /\
  datetime_le (wednesday 10 0) (wednesday 11 30) = true /\
  writable (world_at (wednesday 11 30) []) "deep_work_data.json" = true /\
  exists w',
    end_session "2024-01-10T10:00:00" "writing" (Some "draft")
      (mkProcess fresh (world_at (wednesday 11 30) [])) =
    (Raise unexpected_incident,
     mkProcess
       (tracking [mkSession "2024-01-10T10:00:00" (Some "2024-01-10T11:30:00")
                            one_and_a_half "writing" (Some "draft")] [])
       w') /\
    Dict.get (files w') "deep_work_data.json" = Some (File "") /\
    stdout w' = [].
Proof.
  repeat (split; [vm_compute; reflexivity |]).
  pose proof (end_session_appends_but_does_not_persist
                fresh (world_at (wednesday 11 30) [])
                "2024-01-10T10:00:00" "writing" (Some "draft")
                (wednesday 10 0) eq_refl eq_refl eq_refl eq_refl eq_refl) as W.
  cbv zeta in W. destruct W as [w' [W1 [W2 W3]]].
  exists w'. split; [| split; assumption].
  rewrite W1. vm_compute. reflexivity.
Defined.

(** An end time an hour before the start: the session is appended with
    duration -1.0, the error raised is the encoder's, and the data file,
    which held a ledger, is emptied. *)
Lemma end_session_accepts_an_end_before_the_start :
  let before := world_at (wednesday 11 30)
                  [("deep_work_data.json", File (dumps None empty_document))] in
  let after := end_session "2024-01-10T12:30:00" "writing" None
                 (mkProcess fresh before) in
  fst after = Raise unexpected_incident /\
  map duration (sessions (data (self (snd after)))) = [of_Z (-1)] /\
  flt (of_Z (-1)) (Fnum 0) = true /\
  Dict.get (files before) "deep_work_data.json" =
    Some (File (dumps None empty_document)) /\
  Dict.get (files (world (snd after))) "deep_work_data.json" = Some (File "").
Proof. vm_compute. repeat split; reflexivity. Qed.

(** A start time that is no timestamp raises [ValueError] and changes
    nothing but the clock; a start time an hour after the end is taken,
    with a negative duration. *)
Lemma end_session_validation_examples :
  naive_now (wednesday 11 30) = true /\
  end_session "yesterday" "writing" None
    (mkProcess fresh (world_at (wednesday 11 30) [])) =
  (Raise (ValueError "Invalid isoformat string"),
   mkProcess fresh (ticked 1 (world_at (wednesday 11 30) []))) /\
  is_neg (of_Z (-1)) = true /\
  sessions (data (self (snd
    (end_session "2024-01-10T12:30:00" "writing" None
       (mkProcess fresh (world_at (wednesday 11 30) [])))))) =
  [mkSession "2024-01-10T12:30:00" (Some "2024-01-10T11:30:00")
             (of_Z (-1)) "writing" None].
Proof.
  split; [reflexivity |]. split.
  - apply (end_session_validates_only_the_format
             fresh (world_at (wednesday 11 30) []) "yesterday" "writing" None
             eq_refl).
    reflexivity.
  - destruct (end_session_validates_only_the_format
                fresh (world_at (wednesday 11 30) [])
                "2024-01-10T12:30:00" "writing" None eq_refl) as [_ H].
    specialize (H (wednesday 12 30) eq_refl eq_refl).
    cbv zeta in H.
    destruct H as [Hx Hs]; [vm_compute; reflexivity |].
    split; [vm_compute; reflexivity |].
    rewrite Hs. vm_compute. reflexivity.
Defined.



(** A session of last year with duration -1.0: this week's hours of the
    category are 1.0, all its hours are 0.0. *)
Lemma weekly_exceeds_all_with_a_negative_duration :
  let l := [session_on "2023-06-01" "focus" (-1);
            session_on "2024-01-10" "focus" 1] in
  let p := mkProcess (tracking l []) (world_at (wednesday 11 30) []) in
  option_map (fun s => Dict.get (category_time s) "focus")
             (match fst (get_summary "weekly" p) with
              | Ok s => Some s
              | Raise _ => None
              end) = Some (Some (of_Z 1)) /\
  option_map (fun s => Dict.get (category_time s) "focus")
             (match fst (get_summary "all" p) with
              | Ok s => Some s
              | Raise _ => None
              end) = Some (Some (Fnum 0)) /\
  fle (of_Z 1) (Fnum 0) = false.
Proof. vm_compute. repeat split; reflexivity. Qed.

(** Two hours last June and one hour today, both for "focus": one hour
    this week, three hours in all. *)
Lemma weekly_at_most_all_example :
  let l := [session_on "2023-06-01" "focus" 2;
            session_on "2024-01-10" "focus" 1] in
  let p := mkProcess (tracking l []) (world_at (wednesday 11 30) []) in
  forallb (fun s => nonneg (duration s)) l = true /\
  get_summary "weekly" p =
    (Ok (summarize [session_on "2024-01-10" "focus" 1]),
     mkProcess (tracking l []) (ticked 2 (world_at (wednesday 11 30) []))) /\
  get_summary "all" p = (Ok (summarize l), p) /\
  exists v',
    Dict.get (category_time (summarize l)) "focus" = Some v' /\
    fle (of_Z 1) v' = true.
Proof.
  cbv zeta.
  split; [vm_compute; reflexivity |].
  split; [vm_compute; reflexivity |].
  split; [vm_compute; reflexivity |].
  apply (weekly_category_time_at_most_all
           (tracking [session_on "2023-06-01" "focus" 2;
                      session_on "2024-01-10" "focus" 1] [])
           (world_at (wednesday 11 30) []) (world_at (wednesday 11 30) [])
           (summarize [session_on "2024-01-10" "focus" 1])
           (summarize [session_on "2023-06-01" "focus" 2;
                       session_on "2024-01-10" "focus" 1])
           (mkProcess
              (tracking [session_on "2023-06-01" "focus" 2;
                         session_on "2024-01-10" "focus" 1] [])
              (ticked 2 (world_at (wednesday 11 30) [])))
           (mkProcess
              (tracking [session_on "2023-06-01" "focus" 2;
                         session_on "2024-01-10" "focus" 1] [])
              (world_at (wednesday 11 30) []))
           ltac:(vm_compute; reflexivity)
           ltac:(vm_compute; reflexivity)
           ltac:(vm_compute; reflexivity)
           "focus" (of_Z 1)).
  vm_compute. reflexivity.
Defined.

(** One goal of ten hours for "focus": the heading is printed, then the
    call of [item] raises. *)
Lemma track_goals_with_one_goal :
  goals (data (tracking [] [("focus", of_Z 10)])) <> [] /\
  exists e p',
    track_goals (mkProcess (tracking [] [("focus", of_Z 10)])
                           (world_at (wednesday 11 30) [])) = (Raise e, p') /\
    e = AttributeError "dict" "item" /\
    stdout (world p') = ["Weekly Goal Tracking:"].
Proof.
  split; [discriminate |].
  destruct (track_goals_raises (tracking [] [("focus", of_Z 10)])
              (world_at (wednesday 11 30) [])) as [e [p' [H1 H2]]];
    [discriminate |].
  exists e, p'. split; [exact H1 |].
  destruct (H2 (summarize [])
               (mkProcess (tracking [] [("focus", of_Z 10)])
                          (ticked 2 (world_at (wednesday 11 30) []))))
    as [He Hs]; [vm_compute; reflexivity |].
  split; [exact He | exact Hs].
Defined.

(** Two "focus" sessions of 1.0 and 2.0 hours and a "break" of 0.5: both
    totals are 3.5. *)
Lemma totals_of_three_sessions :
  let l := [session_on "2024-01-08" "focus" 1;
            session_on "2024-01-09" "focus" 2;
            mkSession "2024-01-10T09:00:00" (Some "2024-01-10T09:30:00")
                      half "break" None] in
  let p := mkProcess (tracking l []) (world_at (wednesday 11 30) []) in
  forallb parses l = true /\
  exists summary,
    get_summary "all" p = (Ok summary, p) /\
    get_total_time p = (Ok three_and_a_half, p) /\
    total_time summary = three_and_a_half /\
    num_sessions summary = 3.
Proof.
  cbv zeta. split; [vm_compute; reflexivity |].
  destruct (get_summary_all_total_is_get_total_time
              (tracking [session_on "2024-01-08" "focus" 1;
                         session_on "2024-01-09" "focus" 2;
                         mkSession "2024-01-10T09:00:00"
                                   (Some "2024-01-10T09:30:00")
                                   half "break" None] [])
              (world_at (wednesday 11 30) []) eq_refl)
    as [summary [H1 [H2 H3]]].
  exists summary. split; [exact H1 |].
  split; [rewrite H2, H3; vm_compute; reflexivity |].
  split; [rewrite H3; vm_compute; reflexivity |].
  rewrite get_summary_all in H1 by (vm_compute; reflexivity).
  apply (f_equal fst) in H1. cbn [fst] in H1. apply Ok_inj in H1.
  rewrite <- H1. vm_compute. reflexivity.
Defined.

End Properties.

(* ================================================================= *)
(** * The rest of the program *)

(** ** Dicts, once more *)

Module DictLaws.

Import DictFacts.


Lemma get_none_keys {V} (d : Dict.dict V) k :
  Dict.get d k = None <-> ~ In k (Dict.keys d).
Proof.
  induction d as [| [k' v'] d IH]; simpl.
  - tauto.
  - destruct (String.eqb_spec k k') as [-> | Hk].
    + split; [discriminate | intros H; exfalso; apply H; left; reflexivity].
    + rewrite IH. split.
      * intros H [E | E]; [apply Hk; symmetry; exact E | exact (H E)].
      * intros H E. apply H. right. exact E.
Qed.

Lemma keys_set {V} (d : Dict.dict V) k v :
  Dict.keys (Dict.set d k v) =
  if Dict.has d k then Dict.keys d else (Dict.keys d ++ [k])%list.
Proof.
  unfold Dict.has, Dict.keys.
  induction d as [| [k' v'] d IH]; simpl; [reflexivity |].
  destruct (String.eqb_spec k k') as [-> | Hk]; simpl; [reflexivity |].
  rewrite IH. destruct (Dict.get d k); reflexivity.
Qed.

Lemma keys_map {V W} (f : V -> W) (d : Dict.dict V) :
  Dict.keys (map (fun kv => (fst kv, f (snd kv))) d) = Dict.keys d.
Proof.
  unfold Dict.keys. rewrite map_map. apply map_ext. reflexivity.
Qed.

Lemma length_keys_values {V} (d : Dict.dict V) :
  List.length (Dict.keys d) = List.length (Dict.values d).
Proof. unfold Dict.keys, Dict.values. rewrite !length_map. reflexivity. Qed.

End DictLaws.

(* ================================================================= *)
(** ** The order of dates *)

Module CalendarOrder.

Import Datetime DatetimeFacts.
Open Scope Z_scope.

Lemma days_before_year_next y :
  days_before_year (y + 1) =
  days_before_year y + 365 + (if is_leap y then 1 else 0).
Proof.
  unfold days_before_year, is_leap.
  replace (y + 1 - 1) with y by lia.
  destruct (Z.eqb_spec (y mod 4) 0) as [E4 | E4];
    destruct (Z.eqb_spec (y mod 100) 0) as [E100 | E100];
    destruct (Z.eqb_spec (y mod 400) 0) as [E400 | E400];
    cbn [andb orb negb];
    Z.to_euclidean_division_equations; lia.
Qed.

Lemma days_before_year_mono y1 y2 :
  y1 <= y2 -> days_before_year y1 <= days_before_year y2.
Proof.
  intros H. unfold days_before_year.
  Z.to_euclidean_division_equations. lia.
Qed.

Lemma month_cases m :
  1 <= m <= 12 ->
  m = 1 \/ m = 2 \/ m = 3 \/ m = 4 \/ m = 5 \/ m = 6 \/
  m = 7 \/ m = 8 \/ m = 9 \/ m = 10 \/ m = 11 \/ m = 12.
Proof. lia. Qed.

(** The last day of a month comes before the first day of every later
    month, and the last day of December is the last of the year. *)
Lemma days_before_month_next y m1 m2 :
  1 <= m1 -> m1 < m2 -> m2 <= 12 ->
  days_before_month y m1 + days_in_month y m1 <= days_before_month y m2.
Proof.
  intros H1 H12 H2.
  destruct (month_cases m1 ltac:(lia))
    as [-> | [-> | [-> | [-> | [-> | [-> | [-> | [-> | [-> | [-> | [-> | ->]]]]]]]]]]];
  destruct (month_cases m2 ltac:(lia))
    as [-> | [-> | [-> | [-> | [-> | [-> | [-> | [-> | [-> | [-> | [-> | ->]]]]]]]]]]];
  try lia;
  unfold days_before_month, days_in_month; cbn;
  destruct (is_leap y); cbn; lia.
Qed.

Lemma days_before_month_year y m :
  1 <= m <= 12 ->
  0 <= days_before_month y m /\
  days_before_month y m + days_in_month y m <=
  365 + (if is_leap y then 1 else 0).
Proof.
  intros H.
  destruct (month_cases m H)
    as [-> | [-> | [-> | [-> | [-> | [-> | [-> | [-> | [-> | [-> | [-> | ->]]]]]]]]]]];
  unfold days_before_month, days_in_month; cbn;
  destruct (is_leap y); cbn; lia.
Qed.

(** An earlier date has a smaller ordinal. *)
Lemma toordinal_lt a b :
  date_cmp a b = Lt ->
  1 <= month a <= 12 -> day a <= days_in_month (year a) (month a) ->
  1 <= month b <= 12 -> 1 <= day b ->
  toordinal a < toordinal b.
Proof.
  intros Hc Hma Hda Hmb Hdb.
  unfold date_cmp in Hc. unfold toordinal, ymd2ord.
  pose proof (days_before_month_year (year a) (month a) Hma) as [_ Ya].
  pose proof (days_before_month_year (year b) (month b) Hmb) as [Yb _].
  destruct (Z.compare_spec (year a) (year b)) as [Ey | Ly | Gy];
    [| | discriminate Hc].
  - rewrite Ey in *.
    destruct (Z.compare_spec (month a) (month b)) as [Em | Lm | Gm];
      [| | discriminate Hc].
    + rewrite Em in *. rewrite Z.compare_lt_iff in Hc. lia.
    + pose proof (days_before_month_next (year b) (month a) (month b)
                    ltac:(lia) Lm ltac:(lia)).
      lia.
  - pose proof (days_before_year_next (year a)) as Hn.
    pose proof (days_before_year_mono (year a + 1) (year b) ltac:(lia)).
    lia.
Qed.

Lemma toordinal_le_max d : valid_date d = true -> toordinal d <= MAXORDINAL.
Proof.
  intros H. apply valid_date_spec in H. destruct H as (Hy & Hm & Hd).
  unfold toordinal, ymd2ord.
  pose proof (days_before_month_year (year d) (month d) Hm) as [_ Y].
  pose proof (days_before_year_next (year d)) as Hn.
  pose proof (days_before_year_mono (year d + 1) 10000 ltac:(lia)) as Hl.
  change (days_before_year 10000) with 3652059 in Hl.
  unfold MAXORDINAL. lia.
Qed.

(** The month and the day [_ord2ymd] gives are a month of the year and a
    day from 1 on. *)
Lemma ord2ymd_shape n :
  1 <= n -> 1 <= month (ord2ymd n) <= 12 /\ 1 <= day (ord2ymd n).
Proof.
  intros Hn. unfold ord2ymd.
  set (a := n - 1).
  set (n400 := a / 146097). set (r1 := a mod 146097).
  set (n100 := r1 / 36524). set (r2 := r1 mod 36524).
  set (n4 := r2 / 1461). set (r3 := r2 mod 1461).
  set (n1 := r3 / 365). set (r4 := r3 mod 365).
  assert (B1 : 0 <= r1 < 146097) by (apply Z.mod_pos_bound; lia).
  assert (H1 : r1 = n100 * 36524 + r2)
    by (unfold n100, r2; pose proof (Z.div_mod r1 36524); lia).
  assert (B2 : 0 <= r2 < 36524) by (apply Z.mod_pos_bound; lia).
  assert (H2 : r2 = n4 * 1461 + r3)
    by (unfold n4, r3; pose proof (Z.div_mod r2 1461); lia).
  assert (B3 : 0 <= r3 < 1461) by (apply Z.mod_pos_bound; lia).
  assert (H3 : r3 = n1 * 365 + r4)
    by (unfold n1, r4; pose proof (Z.div_mod r3 365); lia).
  assert (B4 : 0 <= r4 < 365) by (apply Z.mod_pos_bound; lia).
  clearbody a n400 r1 n100 r2 n4 r3 n1 r4.
  destruct ((n1 =? 4) || (n100 =? 4)); [cbn [month day]; lia |].
  set (leapyear := (n1 =? 3) && (negb (n4 =? 24) || (n100 =? 3))).
  assert (Hr : 0 <= r4 < (if leapyear then 366 else 365))
    by (destruct leapyear; lia).
  pose proof (month_and_day_table leapyear r4 Hr) as T.
  unfold month_and_day_ok in T.
  destruct (month_and_day leapyear r4) as [m d].
  rewrite !andb_true_iff, !Z.leb_le, Z.eqb_eq in T.
  destruct T as [[[Hm1 Hm2] Hd] Hsum].
  cbn [month day]. lia.
Qed.

(** A date is on or after every valid date whose ordinal is not
    larger. *)
Lemma date_ge_of_toordinal a n :
  valid_date a = true -> 1 <= n -> n <= toordinal a ->
  date_ge a (ord2ymd n) = true.
Proof.
  intros Ha Hn Hle. unfold date_ge.
  destruct (date_cmp a (ord2ymd n)) eqn:E; try reflexivity.
  exfalso. apply valid_date_spec in Ha. destruct Ha as (_ & Hm & Hd).
  pose proof (ord2ymd_shape n Hn) as [Hm' Hd'].
  pose proof (toordinal_lt a (ord2ymd n) E Hm ltac:(lia) Hm' Hd') as Hlt.
  rewrite toordinal_ord2ymd in Hlt by exact Hn. lia.
Qed.

(** Line 62 on one day: the date minus its weekday exists, is a Monday
    and is not after the date. *)
Lemma monday_exists today :
  valid_date today = true ->
  exists monday,
    date_sub_days today (weekday today) = Some monday /\
    weekday monday = 0 /\
    date_ge today monday = true.
Proof.
  intros Hv.
  pose proof (toordinal_positive today Hv) as Hp.
  pose proof (toordinal_le_max today Hv) as Hmax.
  assert (Hw : 0 <= weekday today <= 6 /\ weekday today < toordinal today).
  { unfold weekday. set (o := toordinal today) in *.
    pose proof (Z.mod_pos_bound (o + 6) 7 ltac:(lia)) as Hb.
    split; [lia |].
    destruct (Z_lt_le_dec o 7) as [Hs | Hs]; [| lia].
    assert (E : (o + 6) mod 7 = o - 1).
    { symmetry. apply Z.mod_unique with (q := 1); lia. }
    lia. }
  destruct Hw as [Hw1 Hw2].
  assert (E : date_sub_days today (weekday today) =
              Some (ord2ymd (toordinal today - weekday today))).
  { unfold date_sub_days.
    replace (0 <? toordinal today - weekday today) with true
      by (symmetry; apply Z.ltb_lt; lia).
    replace (toordinal today - weekday today <=? MAXORDINAL) with true
      by (symmetry; apply Z.leb_le; lia).
    reflexivity. }
  exists (ord2ymd (toordinal today - weekday today)).
  split; [exact E |].
  split.
  - exact (proj1 (monday_of_the_week today _ Hp E)).
  - apply date_ge_of_toordinal; [exact Hv | lia | lia].
Qed.

(** [>=] on dates is transitive. *)
Lemma date_ge_trans a b c :
  date_ge a b = true -> date_ge b c = true -> date_ge a c = true.
Proof.
  unfold date_ge, date_cmp. intros H1 H2.
  destruct (Z.compare_spec (year a) (year b));
    destruct (Z.compare_spec (year b) (year c));
    destruct (Z.compare_spec (year a) (year c)); try lia; try reflexivity;
    try discriminate H1; try discriminate H2.
  all: destruct (Z.compare_spec (month a) (month b));
    destruct (Z.compare_spec (month b) (month c));
    destruct (Z.compare_spec (month a) (month c)); try lia; try reflexivity;
    try discriminate H1; try discriminate H2.
  all: destruct (Z.compare_spec (day a) (day b));
    destruct (Z.compare_spec (day b) (day c));
    destruct (Z.compare_spec (day a) (day c)); try lia; try reflexivity;
    try discriminate H1; try discriminate H2.
Qed.

End CalendarOrder.

(* ================================================================= *)
(** ** Calls that leave things as they are *)

Module Frames.

Import Float Datetime Json Py Ledger DeepWorkTracker Traces.
Open Scope string_scope.
Open Scope Z_scope.

Section Keeps.

Context {S : Type} (R : S -> S -> Prop).
Hypothesis R_refl : forall s, R s s.
Hypothesis R_trans : forall a b c, R a b -> R b c -> R a c.

Lemma keeps_ret {A} (a : A) : keeps R (ret a).
Proof. intros s. apply R_refl. Qed.

Lemma keeps_raise {A} e : keeps R (@raise S A e).
Proof. intros s. apply R_refl. Qed.

Lemma keeps_of_option {A} (o : option A) e : keeps R (of_option o e).
Proof. destruct o; [apply keeps_ret | apply keeps_raise]. Qed.

Lemma keeps_bind {A B} (m : M S A) (k : A -> M S B) :
  keeps R m -> (forall a, keeps R (k a)) -> keeps R (bind m k).
Proof.
  intros Hm Hk s. unfold bind. specialize (Hm s).
  destruct (m s) as [[a | e] s']; cbn [snd] in *.
  - apply (R_trans _ _ _ Hm). apply Hk.
  - exact Hm.
Qed.

Lemma keeps_if {A} (b : bool) (m1 m2 : M S A) :
  keeps R m1 -> keeps R m2 -> keeps R (if b then m1 else m2).
Proof. destruct b; auto. Qed.

Lemma keeps_fold_right {A X} (f : X -> M S A -> M S A) (z : M S A) l :
  keeps R z -> (forall x k, keeps R k -> keeps R (f x k)) ->
  keeps R (fold_right f z l).
Proof. intros Hz Hf. induction l; simpl; auto. Qed.

End Keeps.

Lemma same_self_refl (R : World -> World -> Prop) :
  (forall w, R w w) -> forall p, same_self R p p.
Proof. intros H p. split; [reflexivity | apply H]. Qed.

Lemma same_self_trans (R : World -> World -> Prop) :
  (forall a b c, R a b -> R b c -> R a c) ->
  forall a b c, same_self R a b -> same_self R b c -> same_self R a c.
Proof.
  intros H a b c [E1 H1] [E2 H2]. split; [congruence | eauto].
Qed.

Lemma keeps_io {A} (R : World -> World -> Prop) (m : M World A) :
  keeps R m -> keeps (same_self R) (io m).
Proof.
  intros H p. unfold io. specialize (H (world p)).
  destruct (m (world p)) as [r w']. split; [reflexivity | exact H].
Qed.

Lemma keeps_get_self (R : World -> World -> Prop) :
  (forall w, R w w) -> keeps (same_self R) get_self.
Proof. intros H p. apply same_self_refl, H. Qed.

Lemma only_clock_refl w : only_clock w w.
Proof. repeat split; auto. Qed.

Lemma only_clock_trans a b c :
  only_clock a b -> only_clock b c -> only_clock a c.
Proof.
  unfold only_clock. intros (?&?&?&?&?) (?&?&?&?&?).
  repeat split; try congruence. lia.
Qed.

Lemma same_files_refl w : same_files w w.
Proof. reflexivity. Qed.

Lemma same_files_trans a b c :
  same_files a b -> same_files b c -> same_files a c.
Proof. unfold same_files. congruence. Qed.

Lemma only_clock_same_files a b : only_clock a b -> same_files a b.
Proof. intros (?&?&?&?&?). assumption. Qed.

Lemma keeps_weaken {St A} (R R' : St -> St -> Prop) (m : M St A) :
  (forall a b, R a b -> R' a b) -> keeps R m -> keeps R' m.
Proof. intros H Hm s. apply H, Hm. Qed.

Lemma now_only_clock : keeps only_clock now.
Proof. intros w. unfold now, only_clock. cbn. repeat split. lia. Qed.

Lemma print_same_files line : keeps same_files (print line).
Proof. intros w. reflexivity. Qed.

Lemma perform_same_files e : keeps same_files (perform e).
Proof. intros w. reflexivity. Qed.

Lemma now_same_files : keeps same_files now.
Proof. intros w. reflexivity. Qed.

(** Walk down a computation built from [bind], [ret], [raise] and
    conditionals, for a relation [R] with its two laws. *)
Ltac keeps_step R Rrefl Rtrans :=
  first
    [ apply (keeps_bind R Rtrans); [| intros ?]
    | apply (keeps_ret R Rrefl)
    | apply (keeps_raise R Rrefl)
    | apply (keeps_of_option R Rrefl)
    | apply (keeps_if R) ].

Ltac keeps_files :=
  repeat first
    [ keeps_step same_files same_files_refl same_files_trans
    | apply print_same_files
    | apply now_same_files
    | apply perform_same_files ].

Lemma print_lines_same_files lines : keeps same_files (print_lines lines).
Proof.
  unfold print_lines. apply (keeps_fold_right same_files).
  - keeps_files.
  - intros x k Hk. keeps_files. exact Hk.
Qed.

End Frames.

(* ================================================================= *)
(** ** The methods the specification leaves aside *)

Module Behaviour.

Import Float Datetime Json Py Ledger DeepWorkTracker Argparse Cli Notions.
Import Traces FloatFacts DatetimeFacts DictFacts DictLaws CalendarOrder.
Import Frames Properties.
Open Scope string_scope.
Open Scope Z_scope.

(** *** Output *)

Lemma printed_nil w : printed [] w = w.
Proof. destruct w. unfold printed. cbn. rewrite app_nil_r. reflexivity. Qed.

Lemma printed_printed a b w : printed b (printed a w) = printed (a ++ b) w.
Proof. unfold printed. cbn. rewrite app_assoc. reflexivity. Qed.

Lemma print_lines_printed lines : forall w,
  print_lines lines w = (Ok tt, printed lines w).
Proof.
  induction lines as [| l ls IH]; intros w.
  - cbn. rewrite printed_nil. reflexivity.
  - change (print_lines (l :: ls)) with (print l ;;; print_lines ls).
    unfold bind, print. rewrite IH.
    change (mkWorld (clock w) (ticks w) (files w) (stdout w ++ [l]) (effects w))
      with (printed [l] w).
    rewrite printed_printed. reflexivity.
Qed.

(** *** Saving from inside another method *)

(** [save_data] raises in every world; in a world where the data file can
    be opened it has emptied the file by then. *)
Lemma save_data_outcome t w :
  exists e w',
    save_data (mkProcess t w) = (Raise e, mkProcess t w') /\
    stdout w' = stdout w /\
    (writable w (filename t) = true ->
     e = unexpected_incident /\ w' = with_file (filename t) "" w).
Proof.
  rewrite save_data_cases. unfold writable.
  destruct (Dict.get (files w) (filename t)) as [[text | | |] |].
  - eexists. eexists. split; [reflexivity |]. split; [reflexivity |].
    intros _. split; reflexivity.
  - eexists. eexists. split; [reflexivity |]. split; [reflexivity |].
    intros _. split; reflexivity.
  - eexists. eexists. split; [reflexivity |]. split; [reflexivity |].
    intros H. discriminate H.
  - eexists. eexists. split; [reflexivity |]. split; [reflexivity |].
    intros H. discriminate H.
  - eexists. eexists. split; [reflexivity |]. split; [reflexivity |].
    intros _. split; reflexivity.
Qed.

Lemma init_on_an_emptied_file path w :
  init path (with_file path "" w) =
  (Raise JSONDecodeError, with_file path "" w).
Proof.
  unfold init, bind. rewrite load_data_cases.
  unfold with_file at 1. unfold set_files. cbn [files].
  rewrite get_set_same. reflexivity.
Qed.

(** *** Goals *)

(** [set_goal] up to the exception [save_data] ends it with. *)
Lemma set_goal_outcome t w category hours :
  exists e w',
    set_goal category hours (mkProcess t w) =
    (Raise e,
     mkProcess (mkTracker (filename t)
                  (mkLedger (sessions (data t))
                            (Dict.set (goals (data t)) category hours)))
               w') /\
    stdout w' = stdout w /\
    (writable w (filename t) = true ->
     e = unexpected_incident /\ w' = with_file (filename t) "" w).
Proof.
  set (t' := mkTracker (filename t)
               (mkLedger (sessions (data t))
                         (Dict.set (goals (data t)) category hours))).
  destruct (save_data_outcome t' w) as (e & w' & Hs & Hout & Hw).
  exists e, w'. split; [| split; [exact Hout | exact Hw]].
  unfold set_goal. unfold bind at 1. unfold get_self at 1.
  unfold bind at 1. unfold set_data at 1. cbn [self world].
  fold t'. unfold bind at 1. rewrite Hs. reflexivity.
Qed.

(** X1.  [set_goal] stores the goal in memory only.  The goal of the
    category is the new number of hours, the goals of the other
    categories and the sessions are as before; then [save_data] raises,
    so the call never returns normally and its message is never printed.
    Where the data file can be opened it has been emptied, and the next
    [DeepWorkTracker()] on it raises [JSONDecodeError]. *)
Theorem set_goal_keeps_the_goal_in_memory_only
    (t : Tracker) (w : World) (category : string) (hours : float) :
  exists e w' goals',
    set_goal category hours (mkProcess t w) =
    (Raise e,
     mkProcess (mkTracker (filename t) (mkLedger (sessions (data t)) goals'))
               w') /\
    Dict.get goals' category = Some hours /\
    (forall c, c <> category ->
               Dict.get goals' c = Dict.get (goals (data t)) c) /\
    stdout w' = stdout w /\
    (writable w (filename t) = true ->
     e = unexpected_incident /\
     Dict.get (files w') (filename t) = Some (File "") /\
     init (filename t) w' = (Raise JSONDecodeError, w')).
Proof.
  destruct (set_goal_outcome t w category hours) as (e & w' & Hs & Hout & Hw).
  exists e, w', (Dict.set (goals (data t)) category hours).
  split; [exact Hs |].
  split; [apply get_set_same |].
  split; [intros c Hc; apply get_set_other; exact Hc |].
  split; [exact Hout |].
  intros Hwr. destruct (Hw Hwr) as [He Hw']. subst e w'.
  split; [reflexivity |].
  split.
  - unfold with_file, set_files. cbn [files]. apply get_set_same.
  - apply init_on_an_emptied_file.
Qed.


(** *** Starting and ending a session *)

Lemma naive_now_tzoffset t : naive_now t = true -> tzoffset t = None.
Proof.
  unfold naive_now. intros H. apply andb_true_iff in H. destruct H as [_ H].
  destruct (tzoffset t); [discriminate H | reflexivity].
Qed.

Lemma scale_pos : 0 < scale.
Proof. unfold scale. apply Z.pow_pos_nonneg; lia. Qed.

Lemma nonneg_zero : nonneg (Fnum 0) = true.
Proof. vm_compute. reflexivity. Qed.

Lemma of_ratio_nonneg n d :
  0 <= n -> 0 < d -> nonneg (of_ratio false n d) = true.
Proof.
  intros Hn Hd. rewrite of_ratio_capped. apply nonneg_capped; assumption.
Qed.

Lemma total_seconds_nonneg us :
  0 <= us -> nonneg (total_seconds us) = true.
Proof.
  intros H. unfold total_seconds, int_truediv.
  change (10 ^ 6 <? 0) with false.
  destruct (Z.eqb_spec us 0) as [E | E]; [exact nonneg_zero |].
  replace (us <? 0) with false by (symmetry; apply Z.ltb_ge; lia).
  cbn [xorb]. pose proof scale_pos.
  apply of_ratio_nonneg; [nia | reflexivity].
Qed.

Lemma hours_nonneg x :
  nonneg x = true ->
  nonneg (match fdiv x (of_Z 3600) with Some q => q | None => Fnan end) = true.
Proof.
  intros H.
  assert (E : of_Z 3600 = Fnum (3600 * scale)) by (vm_compute; reflexivity).
  rewrite E. unfold fdiv. pose proof scale_pos as Hs.
  replace (is_zero (Fnum (3600 * scale))) with false
    by (symmetry; cbn [is_zero]; apply Z.eqb_neq; lia).
  replace (3600 * scale <? 0) with false by (symmetry; apply Z.ltb_ge; lia).
  destruct (nonneg_cases x H) as [(k & -> & Hk & _) | [-> | ->]].
  - destruct (Z.eqb_spec k 0) as [E0 | E0]; [exact nonneg_zero |].
    replace (k <? 0) with false by (symmetry; apply Z.ltb_ge; lia).
    cbn [xorb]. apply of_ratio_nonneg; [nia | lia].
  - cbn [is_neg]. replace (3600 * scale <? 0) with false
      by (symmetry; apply Z.ltb_ge; lia).
    reflexivity.
  - cbn [is_neg]. replace (3600 * scale <? 0) with false
      by (symmetry; apply Z.ltb_ge; lia).
    reflexivity.
Qed.

(** The duration of a session that does not end before it starts is a
    double that Python finds [>= 0]. *)
Lemma elapsed_hours_nonneg start finish :
  datetime_le start finish = true ->
  nonneg (round2 (elapsed_hours start finish)) = true.
Proof.
  unfold datetime_le, elapsed_hours. intros H. apply Z.leb_le in H.
  apply round2_nonneg, hours_nonneg, total_seconds_nonneg. exact H.
Qed.

(** X3.  A session started with [start_session] and ended with
    [end_session] at the next reading of the clock.  [start_session]
    records nothing: the ledger and the files are as before.  The start
    time it returns parses back to the reading of the clock, so
    [end_session] appends one session that carries the two readings in
    ISO format and the hours between them rounded to two decimals; the
    duration is not negative when the clock has not gone back.  The call
    of [end_session] still ends with the exception of [save_data]. *)
Theorem start_session_then_end_session
    (t : Tracker) (w : World) (category : string)
    (description : option string) :
  let started := clock w (ticks w) in
  let ended := clock w (S (ticks w)) in
  naive_now started = true ->
  naive_now ended = true ->
  exists p1 e p2,
    start_session category (mkProcess t w) =
      (Ok (isoformat started, category), p1) /\
    self p1 = t /\ files (world p1) = files w /\
    fromisoformat (isoformat started) = Some started /\
    end_session (isoformat started) category description p1 = (Raise e, p2) /\
    sessions (data (self p2)) =
      (sessions (data t) ++
       [mkSession (isoformat started) (Some (isoformat ended))
                  (round2 (elapsed_hours started ended))
                  category description])%list /\
    goals (data (self p2)) = goals (data t) /\
    (datetime_le started ended = true ->
     nonneg (round2 (elapsed_hours started ended)) = true).
Proof.
  intros started ended Hs He.
  pose proof (fromisoformat_isoformat _ Hs) as Hparse.
  set (w1 := printed ["Deep work started at {start_time}"] (ticked 1 w)).
  assert (Hstart : start_session category (mkProcess t w) =
                   (Ok (isoformat started, category), mkProcess t w1))
    by reflexivity.
  assert (Hnow : naive_now (clock w1 (ticks w1)) = true) by exact He.
  pose proof (end_session_appends t w1 (isoformat started) category
                description started Hnow Hparse (naive_now_tzoffset _ Hs))
    as Hend.
  match type of Hend with
  | _ = _ (mkProcess ?t2 ?w2) =>
      destruct (save_data_outcome t2 w2) as (e & w' & Hsave & _)
  end.
  exists (mkProcess t w1), e.
  eexists. split; [exact Hstart |].
  split; [reflexivity |]. split; [reflexivity |].
  split; [exact Hparse |].
  split.
  { rewrite Hend. unfold bind at 1. rewrite Hsave. reflexivity. }
  cbn [self data sessions goals].
  split; [reflexivity |]. split; [reflexivity |].
  apply elapsed_hours_nonneg.
Qed.

Lemma start_session_then_end_session_example :
  naive_now (wednesday 10 0) = true /\
  naive_now (wednesday 11 30) = true /\
  exists p1 e p2,
    start_session "writing"
      (mkProcess fresh
         (mkWorld (fun n => wednesday (10 + Z.of_nat n)
                                      (30 * Z.of_nat n)) 0 [] [] [])) =
      (Ok ("2024-01-10T10:00:00", "writing"), p1) /\
    self p1 = fresh /\ files (world p1) = [] /\
    fromisoformat "2024-01-10T10:00:00" = Some (wednesday 10 0) /\
    end_session "2024-01-10T10:00:00" "writing" None p1 = (Raise e, p2) /\
    sessions (data (self p2)) =
      [mkSession "2024-01-10T10:00:00" (Some "2024-01-10T11:30:00")
                 (round2 (elapsed_hours (wednesday 10 0) (wednesday 11 30)))
                 "writing" None] /\
    goals (data (self p2)) = [] /\
    (datetime_le (wednesday 10 0) (wednesday 11 30) = true ->
     nonneg (round2 (elapsed_hours (wednesday 10 0) (wednesday 11 30)))
     = true).
Proof.
  split; [reflexivity |]. split; [reflexivity |].
  exact (start_session_then_end_session fresh
           (mkWorld (fun n => wednesday (10 + Z.of_nat n) (30 * Z.of_nat n))
                    0 [] [] [])
           "writing" None eq_refl eq_refl).
Defined.

(** X4.  A start time with a UTC offset parses, but the clock's reading
    has none: the subtraction of line 32 raises [TypeError] before a
    session is appended or the data file is opened. *)
Theorem end_session_refuses_an_aware_start_time
    (t : Tracker) (w : World) (start_time category : string)
    (description : option string) (start : datetime) (offset : Z) :
  naive_now (clock w (ticks w)) = true ->
  fromisoformat start_time = Some start ->
  tzoffset start = Some offset ->
  end_session start_time category description (mkProcess t w) =
  (Raise (TypeError "can't subtract offset-naive and offset-aware datetimes"),
   mkProcess t (ticked 1 w)).
Proof.
  intros Hnow Hstart Htz.
  pose proof (fromisoformat_isoformat _ Hnow) as Hend.
  unfold end_session.
  unfold bind at 1. unfold io at 1, now. cbn [world self].
  unfold bind at 1. unfold parse_datetime at 1. rewrite Hend.
  cbn [of_option ret].
  unfold bind at 1. unfold parse_datetime at 1. rewrite Hstart.
  cbn [of_option ret].
  unfold bind at 1. unfold datetime_sub.
  rewrite (naive_now_tzoffset _ Hnow), Htz. reflexivity.
Qed.

Lemma end_session_with_an_offset :
  naive_now (wednesday 11 30) = true /\
  fromisoformat "2024-01-10T10:00:00+01:00" =
    Some (mkDatetime (mkDate 2024 1 10) 10 0 0 0 (Some 3600000000)) /\
  end_session "2024-01-10T10:00:00+01:00" "writing" None
    (mkProcess fresh (world_at (wednesday 11 30) [])) =
  (Raise (TypeError "can't subtract offset-naive and offset-aware datetimes"),
   mkProcess fresh (ticked 1 (world_at (wednesday 11 30) []))).
Proof.
  split; [reflexivity |]. split; [reflexivity |].
  exact (end_session_refuses_an_aware_start_time fresh
           (world_at (wednesday 11 30) []) "2024-01-10T10:00:00+01:00"
           "writing" None _ 3600000000 eq_refl eq_refl eq_refl).
Defined.

(** *** Listing *)

Lemma list_sessions_loop (l : list Session) : forall w,
  fold_right (fun (_ : Session) k => print_lines session_lines ;;; k)
             (ret tt) l w =
  (Ok tt, printed (List.concat (map (fun _ => session_lines) l)) w).
Proof.
  induction l as [| s l IH]; intros w.
  - cbn [fold_right map List.concat]. rewrite printed_nil. reflexivity.
  - cbn [fold_right map List.concat]. unfold bind.
    rewrite print_lines_printed, IH, printed_printed. reflexivity.
Qed.

(** X5.  [list_sessions] prints the same seven lines for every session,
    braces included, since none of its strings is an f-string: the output
    is seven lines per session, shows no field of any session, and is
    empty for an empty ledger.  The ledger, the files and the clock are
    left alone and the call never raises. *)
Theorem list_sessions_prints_seven_fixed_lines (t : Tracker) (w : World) :
  let out := List.concat (map (fun _ => session_lines) (sessions (data t))) in
  list_sessions (mkProcess t w) = (Ok tt, mkProcess t (printed out w)) /\
  List.length out = (7 * List.length (sessions (data t)))%nat /\
  (forall line, In line out -> In line session_lines) /\
  (sessions (data t) = [] -> out = []).
Proof.
  intros out. split; [| split; [| split]].
  - unfold list_sessions. unfold bind at 1. unfold get_self at 1.
    cbn [self]. unfold io. cbn [world self].
    change ["Session {i}:"; "Start: {session['start_time']}";
            "End: {session['end_time']}";
            "Duration: {session['duration']} hours";
            "Category: {session['category]}";
            "Description: {session['description']}"; ""]
      with session_lines.
    rewrite list_sessions_loop. reflexivity.
  - subst out. induction (sessions (data t)) as [| s l IH];
      [reflexivity |].
    cbn [map List.concat]. rewrite length_app, IH.
    change (List.length session_lines) with 7%nat. cbn [List.length]. lia.
  - subst out. intros line H. apply in_concat in H.
    destruct H as (x & Hx & Hl). apply in_map_iff in Hx.
    destruct Hx as (s & <- & _). exact Hl.
  - intros E. subst out. rewrite E. reflexivity.
Qed.

(** *** The timer *)

(** X6.  [pomodoro_timer] announces the timer, sleeps sixty seconds per
    minute asked for and prints that the session is completed.  A
    negative duration makes the sleep raise [ValueError] after the
    announcement; nothing is slept and the closing line is not printed.
    Neither case touches the ledger or a file.  (The durations are kept
    within a hundred million minutes: the clock of [time.sleep] cannot
    hold much more, and the model has no such limit.) *)
Theorem pomodoro_timer_sleeps_or_raises (t : Tracker) (w : World) (d : Z) :
  let announced :=
    printed ["Starting pomodoro timer for {duration} miniutes..."] w in
  (0 <= d <= 100000000 ->
   pomodoro_timer d (mkProcess t w) =
   (Ok tt,
    mkProcess t (printed ["Pomodoro session completed!"]
                   (performed (Sleep (d * 60)) announced)))) /\
  (- 100000000 <= d < 0 ->
   pomodoro_timer d (mkProcess t w) =
   (Raise (ValueError "sleep length must be non-negative"),
    mkProcess t announced)).
Proof.
  intros announced. split; intros H.
  - unfold pomodoro_timer, bind, io, print, sleep, perform.
    cbn [world self].
    replace (d * 60 <? - 9223372036) with false
      by (symmetry; apply Z.ltb_ge; lia).
    replace (9223372036 <? d * 60) with false
      by (symmetry; apply Z.ltb_ge; lia).
    replace (d * 60 <? 0) with false by (symmetry; apply Z.ltb_ge; lia).
    reflexivity.
  - unfold pomodoro_timer, bind, io, print, sleep, perform.
    cbn [world self].
    replace (d * 60 <? - 9223372036) with false
      by (symmetry; apply Z.ltb_ge; lia).
    replace (9223372036 <? d * 60) with false
      by (symmetry; apply Z.ltb_ge; lia).
    replace (d * 60 <? 0) with true by (symmetry; apply Z.ltb_lt; lia).
    reflexivity.
Qed.

(** *** Summaries *)

Lemma filter_since_state {S} d l (st : S) :
  snd (filter_since d l st) = st.
Proof.
  induction l as [| s l IH]; [reflexivity |].
  cbn [filter_since]. unfold bind at 1. unfold parse_datetime, of_option.
  destruct (fromisoformat (start_time s)); [| reflexivity].
  cbn [ret]. unfold bind.
  destruct (filter_since d l st) as [[r | e] st'] eqn:E;
    cbn [snd] in IH; subst st'; reflexivity.
Qed.

Lemma filter_since_raises {S} d l (st : S) :
  forallb parses l = false ->
  filter_since d l st = (Raise (ValueError "Invalid isoformat string"), st).
Proof.
  induction l as [| s l IH]; [intros H; discriminate H |].
  cbn [forallb]. unfold parses at 1. intros H.
  cbn [filter_since]. unfold bind at 1. unfold parse_datetime, of_option.
  destruct (fromisoformat (start_time s)); [| reflexivity].
  cbn [andb] in H. cbn [ret]. unfold bind. rewrite (IH H). reflexivity.
Qed.

(** How often [get_summary] reads the clock. *)
Lemma period_start_outcome period w :
  exists n,
    (n <= 2)%nat /\
    snd (period_start period w) = ticked n w /\
    (fst (period_start period w) = Raise OverflowError /\ period = "weekly" \/
     exists d, fst (period_start period w) = Ok d).
Proof.
  unfold period_start.
  destruct (String.eqb_spec period "daily") as [E | E].
  - exists 1%nat. split; [lia |]. split; [reflexivity |].
    right. eexists. reflexivity.
  - destruct (String.eqb_spec period "weekly") as [E' | E'].
    + exists 2%nat. split; [lia |]. unfold bind, now. cbn [clock ticks].
      unfold of_option.
      destruct (date_sub_days _ _).
      * split; [reflexivity |]. right. eexists. reflexivity.
      * split; [reflexivity |]. left. split; [reflexivity | exact E'].
    + exists 0%nat. split; [lia |]. split.
      * destruct w. reflexivity.
      * right. eexists. reflexivity.
Qed.

(** X7.  [get_summary] only reads: whatever the period and whether it
    returns or raises, the ledger, the files and the output are as
    before, and the clock has been read at most twice. *)
Theorem get_summary_only_reads (period : string) (t : Tracker) (w : World) :
  exists n,
    (n <= 2)%nat /\
    snd (get_summary period (mkProcess t w)) = mkProcess t (ticked n w).
Proof.
  destruct (period_start_outcome period w) as (n & Hn & Hs & _).
  exists n. split; [exact Hn |].
  unfold get_summary. unfold bind at 1. unfold io at 1. cbn [world self].
  destruct (period_start period w) as [[d | e] w'] eqn:E;
    cbn [snd] in Hs; subst w'; [| reflexivity].
  unfold bind at 1. unfold get_self at 1. cbn [self].
  unfold bind at 1.
  pose proof (filter_since_state d (sessions (data t))
                (mkProcess t (ticked n w))) as Hf.
  destruct (filter_since d (sessions (data t)) (mkProcess t (ticked n w)))
    as [[r | e] p']; cbn [snd] in Hf; subst p'; reflexivity.
Qed.

(** X8.  One start time in the ledger that does not parse makes
    [get_summary] raise for every period, [all] included: [ValueError]
    from the list comprehension of line 66 (or, for [weekly], the
    [OverflowError] of line 62 before it).  [get_total_time] does not look
    at start times and still returns the rounded sum. *)
Theorem get_summary_raises_on_an_unreadable_start_time
    (period : string) (t : Tracker) (w : World) :
  forallb parses (sessions (data t)) = false ->
  (exists e,
     fst (get_summary period (mkProcess t w)) = Raise e /\
     (e = ValueError "Invalid isoformat string" \/
      period = "weekly" /\ e = OverflowError)) /\
  (period <> "weekly" ->
   fst (get_summary period (mkProcess t w)) =
   Raise (ValueError "Invalid isoformat string")) /\
  get_total_time (mkProcess t w) =
  (Ok (round2 (fsum (map duration (sessions (data t))))), mkProcess t w).
Proof.
  intros H.
  destruct (period_start_outcome period w) as (n & _ & _ & [[Ho Hp] | [d Hd]]).
  - split; [| split; [| reflexivity]].
    + exists OverflowError. split; [| right; split; [exact Hp | reflexivity]].
      unfold get_summary. unfold bind at 1. unfold io at 1. cbn [world self].
      destruct (period_start period w) as [[d | e] w']; cbn [fst] in Ho;
        [discriminate Ho | injection Ho as ->; reflexivity].
    + intros Hne. contradiction.
  - assert (G' : fst (get_summary period (mkProcess t w)) =
                 Raise (ValueError "Invalid isoformat string")).
    { unfold get_summary. unfold bind at 1. unfold io at 1.
      cbn [world self].
      destruct (period_start period w) as [[d' | e] w'] eqn:E;
        cbn [fst] in Hd; [| discriminate Hd].
      unfold bind at 1. unfold get_self at 1. cbn [self].
      unfold bind at 1. rewrite (filter_since_raises _ _ _ H). reflexivity. }
    split; [| split; [| reflexivity]].
    + eexists. split; [exact G' | left; reflexivity].
    + intros _. exact G'.
Qed.

Lemma get_summary_with_an_unreadable_start_time :
  let t := tracking [mkSession "yesterday" None (of_Z 1) "writing" None] [] in
  let w := world_at (wednesday 11 30) [] in
  forallb parses (sessions (data t)) = false /\
  (exists e,
     fst (get_summary "all" (mkProcess t w)) = Raise e /\
     (e = ValueError "Invalid isoformat string" \/
      "all" = "weekly" /\ e = OverflowError)) /\
  ("all" <> "weekly" ->
   fst (get_summary "all" (mkProcess t w)) =
   Raise (ValueError "Invalid isoformat string")) /\
  get_total_time (mkProcess t w) =
  (Ok (round2 (fsum (map duration (sessions (data t))))), mkProcess t w).
Proof.
  split; [reflexivity |].
  exact (get_summary_raises_on_an_unreadable_start_time "all"
           (tracking [mkSession "yesterday" None (of_Z 1) "writing" None] [])
           (world_at (wednesday 11 30) []) eq_refl).
Defined.

(** The keys of the dict the loop of line 73 builds. *)
Lemma has_add_to d k x c :
  Dict.has d k = true -> Dict.has (add_to d k x) c = Dict.has d c.
Proof.
  unfold Dict.has, add_to. intros H.
  destruct (String.eqb_spec c k) as [-> | Hc].
  - rewrite get_set_same. exact (eq_sym H).
  - rewrite get_set_other by exact Hc. reflexivity.
Qed.

Lemma mem_cons c k seen : mem c (k :: seen) = String.eqb c k || mem c seen.
Proof. reflexivity. Qed.

Lemma keys_sum_by_category l : forall d seen,
  (forall c, mem c seen = Dict.has d c) ->
  Dict.keys (fold_left (fun d s => add_to d (category s) (duration s)) l d) =
  (Dict.keys d ++ categories l seen)%list.
Proof.
  induction l as [| s l IH]; intros d seen H.
  - cbn [fold_left categories]. rewrite app_nil_r. reflexivity.
  - cbn [fold_left categories]. rewrite H.
    destruct (Dict.has d (category s)) eqn:Eh.
    + rewrite (IH _ seen).
      * unfold add_to. rewrite keys_set, Eh. reflexivity.
      * intros c. rewrite has_add_to by exact Eh. apply H.
    + rewrite (IH _ (category s :: seen)).
      * unfold add_to. rewrite keys_set, Eh, <- app_assoc. reflexivity.
      * intros c. rewrite mem_cons. unfold Dict.has, add_to.
        destruct (String.eqb_spec c (category s)) as [-> | Hc].
        -- rewrite get_set_same. reflexivity.
        -- rewrite get_set_other by exact Hc. cbn [orb]. apply H.
Qed.

Lemma mem_In x l : mem x l = true <-> In x l.
Proof.
  unfold mem. rewrite existsb_exists. split.
  - intros (y & Hy & E). apply String.eqb_eq in E. subst y. exact Hy.
  - intros H. exists x. split; [exact H | apply String.eqb_refl].
Qed.

Lemma In_categories l : forall seen c,
  In c (categories l seen) <->
  In c (map category l) /\ mem c seen = false.
Proof.
  induction l as [| s l IH]; intros seen c.
  - cbn. tauto.
  - cbn [categories map].
    destruct (mem (category s) seen) eqn:E.
    + rewrite IH. cbn [In]. split.
      * intros [H1 H2]. split; [right; exact H1 | exact H2].
      * intros [[H1 | H1] H2]; [congruence | split; assumption].
    + cbn [In]. rewrite IH, mem_cons.
      destruct (String.eqb_spec c (category s)) as [-> | Hc]; cbn [orb].
      * split; [intros _; split; [left; reflexivity | exact E] |].
        intros _. left. reflexivity.
      * split.
        -- intros [H1 | [H1 H2]];
             [congruence | split; [right; exact H1 | exact H2]].
        -- intros [[H1 | H1] H2];
             [congruence | right; split; [exact H1 | exact H2]].
Qed.

Lemma NoDup_categories l : forall seen, NoDup (categories l seen).
Proof.
  induction l as [| s l IH]; intros seen; [constructor |].
  cbn [categories]. destruct (mem (category s) seen); [apply IH |].
  constructor; [| apply IH].
  rewrite In_categories. intros [_ H].
  rewrite mem_cons, String.eqb_refl in H. discriminate H.
Qed.

Lemma keys_category_time l :
  Dict.keys (category_time (summarize l)) = categories l [].
Proof.
  unfold summarize. cbn [category_time]. rewrite keys_map.
  unfold sum_by_category. rewrite (keys_sum_by_category l [] []).
  - reflexivity.
  - intros c. reflexivity.
Qed.

Lemma length_categories l : forall seen,
  (List.length (categories l seen) <= List.length l)%nat.
Proof.
  induction l as [| s l IH]; intros seen; [apply le_n |].
  cbn [categories List.length].
  destruct (mem (category s) seen).
  - specialize (IH seen). lia.
  - cbn [List.length]. specialize (IH (category s :: seen)). lia.
Qed.

Lemma In_filter_In {A} (f : A -> bool) l x : In x (filter f l) -> In x l.
Proof. intros H. apply filter_In in H. tauto. Qed.

Lemma length_filter_le {A} (f : A -> bool) l :
  (List.length (filter f l) <= List.length l)%nat.
Proof.
  induction l as [| a l IH]; [apply le_n |].
  cbn [filter]. destruct (f a); cbn [List.length]; lia.
Qed.

(** X9.  The summary [get_summary] returns counts sessions of the ledger
    only, and [category_time] has exactly one entry for every category
    that has a counted session, in the order in which the categories
    first occur: no category twice, none without a session, at most as
    many categories as counted sessions. *)
Theorem get_summary_has_one_entry_per_category
    (period : string) (t : Tracker) (w : World)
    (summary : Summary) (p' : Process) :
  get_summary period (mkProcess t w) = (Ok summary, p') ->
  exists counted,
    (forall s, In s counted -> In s (sessions (data t))) /\
    num_sessions summary = Z.of_nat (List.length counted) /\
    0 <= num_sessions summary <=
      Z.of_nat (List.length (sessions (data t))) /\
    Dict.keys (category_time summary) = categories counted [] /\
    NoDup (Dict.keys (category_time summary)) /\
    (forall c, In c (Dict.keys (category_time summary)) <->
               exists s, In s counted /\ category s = c) /\
    Z.of_nat (List.length (Dict.keys (category_time summary))) <=
      num_sessions summary.
Proof.
  intros H. apply get_summary_returns in H. destruct H as [_ [d ->]].
  set (counted := filter (starts_since d) (sessions (data t))).
  exists counted.
  split; [intros s; apply In_filter_In |].
  split; [reflexivity |].
  split.
  { cbn [summarize num_sessions].
    pose proof (length_filter_le (starts_since d) (sessions (data t))).
    fold counted in H. lia. }
  rewrite keys_category_time.
  split; [reflexivity |].
  split; [apply NoDup_categories |].
  split.
  - intros c. rewrite In_categories, in_map_iff. split.
    + intros [(s & Hs & Hin) _]. exists s. split; assumption.
    + intros (s & Hin & Hs). split; [| reflexivity].
      exists s. split; assumption.
  - cbn [summarize num_sessions].
    pose proof (length_categories counted []). lia.
Qed.

Lemma categories_of_a_week :
  let l := [session_on "2024-01-02" "focus" 1;
            session_on "2024-01-08" "break" 2;
            session_on "2024-01-10" "focus" 1] in
  let p := mkProcess (tracking l []) (world_at (wednesday 11 30) []) in
  get_summary "all" p = (Ok (summarize l), p) /\
  Dict.keys (category_time (summarize l)) = ["focus"; "break"] /\
  exists counted,
    (forall s, In s counted -> In s l) /\
    num_sessions (summarize l) = Z.of_nat (List.length counted) /\
    0 <= num_sessions (summarize l) <= Z.of_nat (List.length l) /\
    Dict.keys (category_time (summarize l)) = categories counted [] /\
    NoDup (Dict.keys (category_time (summarize l))) /\
    (forall c, In c (Dict.keys (category_time (summarize l))) <->
               exists s, In s counted /\ category s = c) /\
    Z.of_nat (List.length (Dict.keys (category_time (summarize l)))) <=
      num_sessions (summarize l).
Proof.
  split; [vm_compute; reflexivity |].
  split; [vm_compute; reflexivity |].
  refine (get_summary_has_one_entry_per_category "all"
            (tracking [session_on "2024-01-02" "focus" 1;
                       session_on "2024-01-08" "break" 2;
                       session_on "2024-01-10" "focus" 1] [])
            (world_at (wednesday 11 30) []) _ _ _).
  vm_compute. reflexivity.
Defined.

Lemma cat_total_of_its_category c l : forall o,
  cat_total c l o =
  cat_total c (filter (fun s => String.eqb c (category s)) l) o.
Proof.
  induction l as [| s l IH]; intros o; [reflexivity |].
  cbn [filter cat_total].
  destruct (String.eqb c (category s)) eqn:E.
  - cbn [cat_total]. rewrite E. apply IH.
  - apply IH.
Qed.

Lemma cat_total_stays c l : forall o, o <> None -> cat_total c l o <> None.
Proof.
  induction l as [| s l IH]; intros o Ho; [exact Ho |].
  cbn [cat_total]. apply IH.
  destruct (String.eqb c (category s)); [| exact Ho].
  unfold cat_add. intros H. discriminate H.
Qed.

Lemma cat_total_none c l :
  cat_total c l None = None <-> forall s, In s l -> category s <> c.
Proof.
  induction l as [| s l IH]; [cbn; tauto |].
  cbn [cat_total].
  destruct (String.eqb_spec c (category s)) as [E | E].
  - split.
    + intros H. exfalso. revert H. apply cat_total_stays.
      unfold cat_add. intros H. discriminate H.
    + intros H. exfalso. apply (H s); [left; reflexivity | congruence].
  - rewrite IH. split.
    + intros H s' [<- | Hin]; [congruence | apply H; exact Hin].
    + intros H s' Hin. apply H. right. exact Hin.
Qed.

(** X10.  The time of a category is computed from the sessions of that
    category alone, in their order: the sessions of the other categories
    can be taken away without changing it.  A category without a session
    has no entry. *)
Theorem category_time_depends_on_its_category_only
    (l : list Session) (c : string) :
  Dict.get (category_time (summarize l)) c =
  Dict.get (category_time
              (summarize (filter (fun s => String.eqb c (category s)) l))) c /\
  (Dict.get (category_time (summarize l)) c = None <->
   forall s, In s l -> category s <> c).
Proof.
  rewrite !get_category_time.
  split; [rewrite <- cat_total_of_its_category; reflexivity |].
  rewrite <- cat_total_none.
  destruct (cat_total c l None); cbn [option_map].
  - split; intros H; discriminate H.
  - split; reflexivity.
Qed.

Lemma filter_filter_of_subset {A} (f g : A -> bool) l :
  (forall x, f x = true -> g x = true) ->
  filter f (filter g l) = filter f l.
Proof.
  intros H. induction l as [| a l IH]; [reflexivity |].
  cbn [filter]. destruct (g a) eqn:G.
  - cbn [filter]. rewrite IH. reflexivity.
  - destruct (f a) eqn:F; [| exact IH].
    rewrite (H a F) in G. discriminate G.
Qed.

Lemma forallb_filter {A} (f g : A -> bool) l :
  forallb f l = true -> forallb f (filter g l) = true.
Proof.
  intros H. rewrite forallb_forall in *. intros x Hx.
  apply H. apply filter_In in Hx. tauto.
Qed.

Lemma starts_since_earlier d1 d2 s :
  date_ge d1 d2 = true -> starts_since d1 s = true ->
  starts_since d2 s = true.
Proof.
  unfold starts_since. intros H.
  destruct (fromisoformat (start_time s)); [| intros E; exact E].
  intros E. exact (date_ge_trans _ _ _ E H).
Qed.

(** X11.  On a day on which both readings of the clock that the weekly
    summary takes fall, the three periods nest: the sessions the daily
    summary counts are counted by the weekly one, and those by the
    summary of [all], which counts every session.  So the numbers of
    sessions rise from daily to weekly to all, the weekly summary never
    raises [OverflowError], and, when no duration is negative, a
    category's daily time is at most its weekly time. *)
Theorem daily_weekly_and_all_summaries_nest (t : Tracker) (w : World) :
  let today := dt_date (clock w (ticks w)) in
  forallb parses (sessions (data t)) = true ->
  valid_date today = true ->
  dt_date (clock w (S (ticks w))) = today ->
  exists daily weekly all,
    fst (get_summary "daily" (mkProcess t w)) = Ok daily /\
    fst (get_summary "weekly" (mkProcess t w)) = Ok weekly /\
    fst (get_summary "all" (mkProcess t w)) = Ok all /\
    num_sessions daily <= num_sessions weekly <= num_sessions all /\
    num_sessions all = Z.of_nat (List.length (sessions (data t))) /\
    (forallb (fun s => nonneg (duration s)) (sessions (data t)) = true ->
     forall c v,
       Dict.get (category_time daily) c = Some v ->
       exists v',
         Dict.get (category_time weekly) c = Some v' /\ fle v v' = true).
Proof.
  intros today Hp Hv Hsame.
  destruct (monday_exists today Hv) as (monday & Hsub & _ & Hge).
  assert (Hsub' : date_sub_days (dt_date (clock w (ticks w)))
                    (weekday (dt_date (clock w (S (ticks w))))) = Some monday)
    by (rewrite Hsame; exact Hsub).
  set (l := sessions (data t)) in *.
  exists (summarize (filter (starts_since today) l)),
         (summarize (filter (starts_since monday) l)),
         (summarize l).
  split; [rewrite (get_summary_daily t w Hp); reflexivity |].
  split; [rewrite (get_summary_weekly t w monday Hp Hsub'); reflexivity |].
  split; [rewrite (get_summary_all t w Hp); reflexivity |].
  assert (Hsubset : forall s, starts_since today s = true ->
                              starts_since monday s = true)
    by (intros s; apply starts_since_earlier; exact Hge).
  pose proof (filter_filter_of_subset _ _ l Hsubset) as Hff.
  split; [| split; [reflexivity |]].
  - cbn [summarize num_sessions].
    pose proof (length_filter_le (starts_since monday) l).
    pose proof (length_filter_le (starts_since today)
                  (filter (starts_since monday) l)) as H2.
    rewrite Hff in H2. lia.
  - intros Hnn c v Hc.
    rewrite get_category_time in *.
    pose proof (cat_total_filter c (starts_since today)
                  (filter (starts_since monday) l)
                  (forallb_filter _ _ _ Hnn) None None I) as Hb.
    rewrite Hff in Hb.
    destruct (cat_total c (filter (starts_since today) l) None) as [a |];
      [| discriminate Hc].
    cbn [option_map] in Hc. apply (f_equal (fun o => match o with
                                                    | Some x => x
                                                    | None => v
                                                    end)) in Hc.
    subst v.
    destruct (cat_total c (filter (starts_since monday) l) None) as [b |];
      [| contradiction].
    destruct Hb as [Hna [Hnb Hab]].
    exists (round2 b). split; [reflexivity |].
    apply round2_mono; assumption.
Qed.

Lemma summaries_of_a_wednesday_nest :
  let l := [session_on "2024-01-02" "focus" 1;
            session_on "2024-01-08" "focus" 2;
            session_on "2024-01-10" "focus" 1] in
  let t := tracking l [] in
  let w := world_at (wednesday 11 30) [] in
  forallb parses l = true /\
  valid_date (mkDate 2024 1 10) = true /\
  exists daily weekly all,
    fst (get_summary "daily" (mkProcess t w)) = Ok daily /\
    fst (get_summary "weekly" (mkProcess t w)) = Ok weekly /\
    fst (get_summary "all" (mkProcess t w)) = Ok all /\
    num_sessions daily <= num_sessions weekly <= num_sessions all /\
    num_sessions all = 3 /\
    (forallb (fun s => nonneg (duration s)) l = true ->
     forall c v,
       Dict.get (category_time daily) c = Some v ->
       exists v',
         Dict.get (category_time weekly) c = Some v' /\ fle v v' = true).
Proof.
  split; [vm_compute; reflexivity |].
  split; [reflexivity |].
  refine (daily_weekly_and_all_summaries_nest
            (tracking [session_on "2024-01-02" "focus" 1;
                       session_on "2024-01-08" "focus" 2;
                       session_on "2024-01-10" "focus" 1] [])
            (world_at (wednesday 11 30) []) _ eq_refl eq_refl).
  vm_compute. reflexivity.
Defined.

(** X12.  On an empty ledger [get_summary] returns a total of zero, no
    category and no session, for every period; the only other outcome is
    the [OverflowError] of line 62, which only [weekly] can meet. *)
Theorem get_summary_of_an_empty_ledger
    (period : string) (t : Tracker) (w : World) :
  sessions (data t) = [] ->
  fst (get_summary period (mkProcess t w)) = Ok (mkSummary (Fnum 0) [] 0) \/
  period = "weekly" /\
  fst (get_summary period (mkProcess t w)) = Raise OverflowError.
Proof.
  intros He.
  destruct (period_start_outcome period w) as (n & _ & _ & [[Ho Hp] | [d Hd]]).
  - right. split; [exact Hp |].
    unfold get_summary. unfold bind at 1. unfold io at 1. cbn [world self].
    destruct (period_start period w) as [[d | e] w']; cbn [fst] in Ho;
      [discriminate Ho | injection Ho as ->; reflexivity].
  - left.
    unfold get_summary. unfold bind at 1. unfold io at 1. cbn [world self].
    destruct (period_start period w) as [[d' | e] w']; cbn [fst] in Hd;
      [| discriminate Hd].
    unfold bind at 1. unfold get_self at 1. cbn [self].
    rewrite He. reflexivity.
Qed.

Lemma get_summary_of_a_fresh_tracker :
  sessions (data fresh) = [] /\
  (fst (get_summary "daily"
          (mkProcess fresh (world_at (wednesday 11 30) []))) =
   Ok (mkSummary (Fnum 0) [] 0) \/
   "daily" = "weekly" /\
   fst (get_summary "daily"
          (mkProcess fresh (world_at (wednesday 11 30) []))) =
   Raise OverflowError).
Proof.
  split; [reflexivity |].
  exact (get_summary_of_an_empty_ledger "daily" fresh
           (world_at (wednesday 11 30) []) eq_refl).
Defined.

(** *** Exporting *)








(** X14.  [export_to_csv] on a path that cannot be opened for writing, a
    directory or a file the user may not write, raises [IsADirectoryError]
    or [PermissionError] from [open]: no file is changed and nothing is
    printed. *)
Theorem export_to_csv_raises_on_an_unwritable_path
    (t : Tracker) (w : World) (path : string) :
  writable w path = false ->
  exists e,
    export_to_csv path (mkProcess t w) = (Raise e, mkProcess t w) /\
    (Dict.get (files w) path = Some Directory /\ e = IsADirectoryError path \/
     Dict.get (files w) path = Some Locked /\ e = PermissionError path).
Proof.
  unfold writable. intros H.
  unfold export_to_csv. unfold bind at 1. unfold get_self at 1. cbn [self].
  unfold bind at 1. unfold io at 1, open_write. cbn [world self].
  destruct (Dict.get (files w) path) as [[c | | |] |]; try discriminate H.
  - eexists. split; [reflexivity | left; split; reflexivity].
  - eexists. split; [reflexivity | right; split; reflexivity].
Qed.

Lemma export_to_a_directory :
  let w := world_at (wednesday 11 30) [("reports", Directory)] in
  writable w "reports" = false /\
  exists e,
    export_to_csv "reports" (mkProcess fresh w) = (Raise e, mkProcess fresh w) /\
    (Dict.get (files w) "reports" = Some Directory /\
     e = IsADirectoryError "reports" \/
     Dict.get (files w) "reports" = Some Locked /\
     e = PermissionError "reports").
Proof.
  split; [reflexivity |].
  exact (export_to_csv_raises_on_an_unwritable_path fresh
           (world_at (wednesday 11 30) [("reports", Directory)])
           "reports" eq_refl).
Defined.

(** *** The chart *)

Lemma combine_keys_values {V} (d : Dict.dict V) :
  combine (Dict.keys d) (Dict.values d) = d.
Proof.
  unfold Dict.keys, Dict.values.
  induction d as [| [k v] d IH]; [reflexivity |].
  cbn [map combine fst snd]. rewrite IH. reflexivity.
Qed.

(** X15.  [visualize_time_distribution] draws one bar per category of
    the ledger, in the order in which the categories first occur; the
    height of a bar is the rounded time [get_summary('all')] gives for
    its category.  An empty ledger gives a chart without bars.  Nothing
    else changes.  When a start time does not parse the summary raises
    [ValueError] and no chart is drawn. *)
Theorem visualize_time_distribution_draws_a_bar_per_category
    (t : Tracker) (w : World) :
  let l := sessions (data t) in
  (forallb parses l = true ->
   exists labels heights,
     visualize_time_distribution (mkProcess t w) =
     (Ok tt, mkProcess t (performed (BarChart labels heights) w)) /\
     labels = categories l [] /\
     NoDup labels /\
     List.length heights = List.length labels /\
     combine labels heights = category_time (summarize l) /\
     (l = [] -> labels = [] /\ heights = [])) /\
  (forallb parses l = false ->
   visualize_time_distribution (mkProcess t w) =
   (Raise (ValueError "Invalid isoformat string"), mkProcess t w)).
Proof.
  intros l. split; intros Hp.
  - exists (Dict.keys (category_time (summarize l))),
           (Dict.values (category_time (summarize l))).
    split.
    { unfold visualize_time_distribution. unfold bind at 1.
      rewrite (get_summary_all t w Hp). reflexivity. }
    rewrite keys_category_time.
    split; [reflexivity |].
    split; [apply NoDup_categories |].
    split.
    { rewrite <- keys_category_time. symmetry. apply length_keys_values. }
    split.
    { rewrite <- keys_category_time. apply combine_keys_values. }
    intros E. rewrite E. split; reflexivity.
  - unfold visualize_time_distribution. unfold bind at 1.
    unfold get_summary. unfold bind at 1. unfold io at 1.
    cbn [world self]. unfold period_start. cbn [String.eqb Ascii.eqb Bool.eqb].
    unfold ret at 1. unfold bind at 1. unfold get_self at 1. cbn [self].
    unfold bind at 1. fold l.
    rewrite (filter_since_raises _ _ _ Hp). destruct w. reflexivity.
Qed.

(** *** Goals, when there are none *)

(** X16.  [track_goals] returns normally exactly when no goal is set: it
    then prints its hint and reads neither the clock nor a session.  With
    a goal set it always ends in an exception. *)
Theorem track_goals_returns_only_without_goals (t : Tracker) (w : World) :
  (goals (data t) = [] ->
   track_goals (mkProcess t w) =
   (Ok tt,
    mkProcess t
      (printed ["No goals set. Use 'set-goals' to set some goals first."] w))) /\
  (fst (track_goals (mkProcess t w)) = Ok tt <-> goals (data t) = []).
Proof.
  assert (H0 : goals (data t) = [] ->
               track_goals (mkProcess t w) =
               (Ok tt,
                mkProcess t
                  (printed
                     ["No goals set. Use 'set-goals' to set some goals first."]
                     w))).
  { intros E. unfold track_goals. unfold bind at 1. unfold get_goals.
    unfold bind at 1. unfold get_self at 1. cbn [self ret]. rewrite E.
    reflexivity. }
  split; [exact H0 |].
  split; [| intros E; rewrite (H0 E); reflexivity].
  destruct (goals (data t)) as [| g gs] eqn:E; [reflexivity |].
  intros H. exfalso. revert H.
  unfold track_goals. unfold bind at 1. unfold get_goals.
  unfold bind at 1. unfold get_self at 1. cbn [self ret]. rewrite E.
  unfold bind at 1.
  destruct (get_summary "weekly" (mkProcess t w)) as [[sm | e] p1].
  - unfold bind at 1. unfold io at 1, print at 1.
    unfold bind at 1. cbn [fst]. intros H. discriminate H.
  - cbn [fst]. intros H. discriminate H.
Qed.

(** *** What the methods leave alone *)

Lemma keeps_filter_since {S} (R : S -> S -> Prop) d l :
  (forall s, R s s) -> keeps R (filter_since d l).
Proof. intros H s. rewrite filter_since_state. apply H. Qed.

Lemma keeps_invoke {A} (tracker : Tracker) (m : Method A) :
  keeps (same_self same_files) m -> keeps same_files (invoke tracker m).
Proof.
  intros H w. unfold invoke. specialize (H (mkProcess tracker w)).
  destruct (m (mkProcess tracker w)) as [[a | e] p]; destruct H as [_ H];
    exact H.
Qed.

Ltac keeps_methods :=
  repeat first
    [ keeps_step (same_self same_files)
                 (same_self_refl same_files same_files_refl)
                 (same_self_trans same_files same_files_trans)
    | apply keeps_get_self; exact same_files_refl
    | apply keeps_io
    | apply keeps_filter_since;
      exact (same_self_refl same_files same_files_refl)
    | progress keeps_files
    | apply print_lines_same_files
    | match goal with
      | |- keeps _ (match ?x with _ => _ end) => destruct x
      | |- keeps _ (fold_right _ _ _) => apply keeps_fold_right; [| intros ? ? ?]
      | H : keeps ?R ?k |- keeps ?R ?k => exact H
      end ].

Lemma start_session_keeps c : keeps (same_self same_files) (start_session c).
Proof. unfold start_session. keeps_methods. Qed.

Lemma list_sessions_keeps : keeps (same_self same_files) list_sessions.
Proof. unfold list_sessions. keeps_methods. Qed.

Lemma get_total_time_keeps : keeps (same_self same_files) get_total_time.
Proof. unfold get_total_time. keeps_methods. Qed.

Lemma get_summary_keeps period :
  keeps (same_self same_files) (get_summary period).
Proof. unfold get_summary, period_start. keeps_methods. Qed.

Lemma pomodoro_timer_keeps d :
  keeps (same_self same_files) (pomodoro_timer d).
Proof. unfold pomodoro_timer, sleep. keeps_methods. Qed.

Lemma pomodoro_timer_without_number_keeps complaint :
  keeps (same_self same_files) (pomodoro_timer_without_number complaint).
Proof. unfold pomodoro_timer_without_number. keeps_methods. Qed.

Lemma get_goals_keeps : keeps (same_self same_files) get_goals.
Proof. unfold get_goals. keeps_methods. Qed.

Lemma track_goals_keeps : keeps (same_self same_files) track_goals.
Proof.
  unfold track_goals. pose proof get_summary_keeps as Hs.
  pose proof get_goals_keeps as Hg.
  apply (keeps_bind _ (same_self_trans same_files same_files_trans));
    [exact Hg | intros goals].
  destruct goals as [| g gs]; [keeps_methods |].
  apply (keeps_bind _ (same_self_trans same_files same_files_trans));
    [apply Hs | intros summary].
  unfold dict_call, divide. keeps_methods.
Qed.

Lemma calculate_productivity_score_keeps :
  keeps (same_self same_files) calculate_productivity_score.
Proof. intros p. apply same_self_refl. exact same_files_refl. Qed.

Lemma visualize_time_distribution_keeps :
  keeps (same_self same_files) visualize_time_distribution.
Proof.
  unfold visualize_time_distribution. pose proof (get_summary_keeps "all").
  keeps_methods.
Qed.

(** X17.  Of the methods of the class only [save_data], [end_session],
    [set_goal] and [export_to_csv] can change the ledger or a file.  The
    others, whether they return or raise, leave the instance and every
    file as they were: [start_session], [list_sessions],
    [get_total_time], [get_summary], [pomodoro_timer], [get_goals],
    [track_goals], [calculate_productivity_score] and
    [visualize_time_distribution]. *)
Theorem reading_methods_keep_the_ledger_and_the_files (p : Process) :
  let unchanged p' := self p' = self p /\ files (world p') = files (world p) in
  (forall category, unchanged (snd (start_session category p))) /\
  unchanged (snd (list_sessions p)) /\
  unchanged (snd (get_total_time p)) /\
  (forall period, unchanged (snd (get_summary period p))) /\
  (forall minutes, unchanged (snd (pomodoro_timer minutes p))) /\
  unchanged (snd (get_goals p)) /\
  unchanged (snd (track_goals p)) /\
  unchanged (snd (calculate_productivity_score p)) /\
  unchanged (snd (visualize_time_distribution p)).
Proof.
  intros unchanged. unfold unchanged.
  split; [intros c; apply (start_session_keeps c p) |].
  split; [apply (list_sessions_keeps p) |].
  split; [apply (get_total_time_keeps p) |].
  split; [intros period; apply (get_summary_keeps period p) |].
  split; [intros d; apply (pomodoro_timer_keeps d p) |].
  split; [apply (get_goals_keeps p) |].
  split; [apply (track_goals_keeps p) |].
  split; [apply (calculate_productivity_score_keeps p) |].
  apply (visualize_time_distribution_keeps p).
Qed.

(** *** The branches of [main] *)

Lemma dispatch_end_outcome args t w :
  dispatch_end args t w =
  match last_of (sessions (data t)) with
  | None =>
      (Ok tt,
       printed ["No active session to end. Start a new session first."] w)
  | Some s =>
      match end_time s with
      | Some _ =>
          (Ok tt,
           printed ["No active session to end. Start a new session first."] w)
      | None => (Raise (UnboundLocalError "category"), w)
      end
  end.
Proof.
  unfold dispatch_end.
  destruct (last_of (sessions (data t))) as [s |]; [| reflexivity].
  destruct (end_time s); reflexivity.
Qed.

Lemma dispatch_action args t w action :
  Dict.get args "action" = Some (VStr action) ->
  dispatch args t w =
  (if String.eqb action "start" then
     c <- attr args "category" ;;
     c <- as_string c ;;
     invoke t (start_session c) ;;;
     print "Started session in category '{category}' at {start_time}"
   else if String.eqb action "end" then dispatch_end args t
   else if String.eqb action "list" then
     call_plain t "list_sessions" ;;; ret tt
   else if String.eqb action "total" then
     invoke t get_total_time ;;;
     print "Total deep work time: {total_time} hours"
   else if String.eqb action "summary" then
     period <- attr args "period" ;;
     period <- as_string period ;;
     r <- invoke t (get_summary period) ;;
     print "Summary for {args.period} period:" ;;;
     print "Total time: {summary['total_time]} hours" ;;;
     print "Time by category:" ;;;
     fold_right (fun (_ : string * float) k =>
                   print "  {category}: {time} hours" ;;; k)
                (ret tt) (category_time (fst r)) ;;;
     print "Number of sessions: {summary['num_sessions']}"
   else if String.eqb action "export" then
     f <- attr args "filename" ;;
     f <- as_string f ;;
     invoke t (export_to_csv f) ;;;
     ret tt
   else if String.eqb action "pomodoro" then
     d <- attr args "duration" ;;
     match d with
     | VInt n => invoke t (pomodoro_timer n) ;;; ret tt
     | VNone =>
         invoke t
           (pomodoro_timer_without_number
              "unsupported operand type(s) for *: 'NoneType' and 'int'") ;;;
         ret tt
     | VStr _ =>
         invoke t
           (pomodoro_timer_without_number
              "'str' object cannot be interpreted as an integer") ;;;
         ret tt
     | VFloat _ => raise (Unmodelled "a float duration")
     end
   else if String.eqb action "set_goal" then
     c <- attr args "category" ;;
     c <- as_string c ;;
     h <- attr args "hours" ;;
     match h with
     | VFloat x => invoke t (set_goal c x) ;;; ret tt
     | _ => raise (Unmodelled "hours that are no float")
     end
   else if String.eqb action "track_goals" then
     call_plain t "tracker_goals" ;;; ret tt
   else if String.eqb action "score" then
     invoke t calculate_productivity_score ;;;
     print "Your current productivity score is: {score}"
   else if String.eqb action "visualize" then
     call_plain t "visualize_time_distribution" ;;; ret tt
   else ret tt) w.
Proof.
  intros Ha. unfold dispatch. unfold bind at 1. unfold attr at 1.
  rewrite Ha. reflexivity.
Qed.

(** X18.  The branch of the [end] command never reaches [end_session].
    Without a session that lacks an end time it prints that there is no
    active session; with one, building the arguments of the call reads
    the local [category], which is only bound in the branch of [start]:
    [UnboundLocalError], nothing printed.  In both cases the files are as
    before. *)
Theorem end_command_never_ends_a_session
    (args : Namespace) (t : Tracker) (w : World) :
  Dict.get args "action" = Some (VStr "end") ->
  (forall s, last_of (sessions (data t)) = Some s -> end_time s = None ->
             dispatch args t w = (Raise (UnboundLocalError "category"), w)) /\
  (dispatch args t w = (Raise (UnboundLocalError "category"), w) \/
   dispatch args t w =
   (Ok tt,
    printed ["No active session to end. Start a new session first."] w)) /\
  files (snd (dispatch args t w)) = files w.
Proof.
  intros Ha. rewrite (dispatch_action args t w "end" Ha).
  cbn [String.eqb Ascii.eqb Bool.eqb]. rewrite dispatch_end_outcome.
  split; [intros s Hs He; rewrite Hs, He; reflexivity |].
  destruct (last_of (sessions (data t))) as [s |].
  - destruct (end_time s); split; try reflexivity;
      [right | left]; reflexivity.
  - split; [right |]; reflexivity.
Qed.

Lemma end_command_with_a_pending_session :
  let args := [("action", VStr "end"); ("description", VNone)] in
  let t := tracking [mkSession "2024-01-10T10:00:00" None half "writing" None]
                    [] in
  let w := world_at (wednesday 11 30) [] in
  Dict.get args "action" = Some (VStr "end") /\
  (forall s, last_of (sessions (data t)) = Some s -> end_time s = None ->
             dispatch args t w = (Raise (UnboundLocalError "category"), w)) /\
  (dispatch args t w = (Raise (UnboundLocalError "category"), w) \/
   dispatch args t w =
   (Ok tt,
    printed ["No active session to end. Start a new session first."] w)) /\
  files (snd (dispatch args t w)) = files w.
Proof.
  split; [reflexivity |].
  exact (end_command_never_ends_a_session
           [("action", VStr "end"); ("description", VNone)]
           (tracking [mkSession "2024-01-10T10:00:00" None half "writing" None]
                     [])
           (world_at (wednesday 11 30) []) eq_refl).
Defined.

(** X19.  Two more commands always fail, before anything is printed or
    written.  The branch of [track_goals] calls [tracker.tracker_goals],
    a name the class does not have (line 220); the branch of [score]
    calls [calculate_productivity_score], which asks for [self.summary].
    Both raise [AttributeError]. *)
Theorem track_goals_and_score_commands_raise
    (args : Namespace) (t : Tracker) (w : World) :
  (Dict.get args "action" = Some (VStr "track_goals") ->
   dispatch args t w =
   (Raise (AttributeError "DeepWorkTracker" "tracker_goals"), w)) /\
  (Dict.get args "action" = Some (VStr "score") ->
   dispatch args t w =
   (Raise (AttributeError "DeepWorkTracker" "summary"), w)).
Proof.
  split; intros Ha.
  - rewrite (dispatch_action args t w "track_goals" Ha). reflexivity.
  - rewrite (dispatch_action args t w "score" Ha). reflexivity.
Qed.

Ltac keeps_commands :=
  repeat first
    [ keeps_step same_files same_files_refl same_files_trans
    | progress keeps_files
    | apply keeps_invoke
    | apply start_session_keeps
    | apply list_sessions_keeps
    | apply get_total_time_keeps
    | apply get_summary_keeps
    | apply pomodoro_timer_keeps
    | apply pomodoro_timer_without_number_keeps
    | apply calculate_productivity_score_keeps
    | apply visualize_time_distribution_keeps
    | match goal with
      | |- keeps _ (match ?x with _ => _ end) => destruct x
      | |- keeps _ (fold_right _ _ _) => apply keeps_fold_right; [| intros ? ? ?]
      | H : keeps ?R ?k |- keeps ?R ?k => exact H
      end ].

(** X20.  Of the commands only [export] and [set_goal] can change a
    file: the branch of every other command leaves all files as they
    are, whether it returns or raises. *)
Theorem only_export_and_set_goal_commands_write
    (args : Namespace) (t : Tracker) (w : World) (action : string) :
  Dict.get args "action" = Some (VStr action) ->
  action <> "export" ->
  action <> "set_goal" ->
  files (snd (dispatch args t w)) = files w.
Proof.
  intros Ha He Hs. apply String.eqb_neq in He, Hs.
  rewrite (dispatch_action args t w action Ha), He, Hs.
  change (call_plain t "list_sessions") with (invoke t list_sessions).
  change (call_plain t "visualize_time_distribution")
    with (invoke t visualize_time_distribution).
  change (call_plain t "tracker_goals")
    with (@raise World (unit * Tracker)
            (AttributeError "DeepWorkTracker" "tracker_goals")).
  destruct (String.eqb action "start").
  { refine ((_ : keeps same_files _) w).
    unfold attr, as_string. keeps_commands. }
  destruct (String.eqb action "end").
  { rewrite dispatch_end_outcome.
    destruct (last_of (sessions (data t))) as [s |]; [| reflexivity].
    destruct (end_time s); reflexivity. }
  destruct (String.eqb action "list").
  { refine ((_ : keeps same_files _) w). keeps_commands. }
  destruct (String.eqb action "total").
  { refine ((_ : keeps same_files _) w). keeps_commands. }
  destruct (String.eqb action "summary").
  { refine ((_ : keeps same_files _) w).
    unfold attr, as_string. keeps_commands. }
  destruct (String.eqb action "pomodoro").
  { refine ((_ : keeps same_files _) w). unfold attr. keeps_commands. }
  destruct (String.eqb action "track_goals").
  { refine ((_ : keeps same_files _) w). keeps_commands. }
  destruct (String.eqb action "score").
  { refine ((_ : keeps same_files _) w). keeps_commands. }
  destruct (String.eqb action "visualize").
  { refine ((_ : keeps same_files _) w). keeps_commands. }
  reflexivity.
Qed.

Lemma the_summary_command_writes_nothing :
  let args := [("action", VStr "summary"); ("period", VStr "all")] in
  let t := tracking [session_on "2024-01-10" "focus" 1] [] in
  let w := world_at (wednesday 11 30)
             [("deep_work_data.json", File "kept")] in
  Dict.get args "action" = Some (VStr "summary") /\
  stdout (snd (dispatch args t w)) =
    ["Summary for {args.period} period:";
     "Total time: {summary['total_time]} hours";
     "Time by category:";
     "  {category}: {time} hours";
     "Number of sessions: {summary['num_sessions']}"] /\
  files (snd (dispatch args t w)) = files w.
Proof.
  split; [reflexivity |].
  split; [vm_compute; reflexivity |].
  refine (only_export_and_set_goal_commands_write
            [("action", VStr "summary"); ("period", VStr "all")]
            (tracking [session_on "2024-01-10" "focus" 1] [])
            (world_at (wednesday 11 30)
               [("deep_work_data.json", File "kept")])
            "summary" eq_refl _ _);
    intros H; discriminate H.
Defined.

(** *** Sessions without an end time *)

Lemma end_session_outcome st c d t w r p' :
  end_session st c d (mkProcess t w) = (r, p') ->
  filename (self p') = filename t /\
  goals (data (self p')) = goals (data t) /\
  (sessions (data (self p')) = sessions (data t) \/
   exists e x,
     sessions (data (self p')) =
       (sessions (data t) ++ [mkSession st (Some e) (round2 x) c d])%list).
Proof.
  assert (Same : forall (r0 : result unit) w1,
            (r0, mkProcess t w1) = (r, p') ->
            filename (self p') = filename t /\
            goals (data (self p')) = goals (data t) /\
            (sessions (data (self p')) = sessions (data t) \/
             exists e x,
               sessions (data (self p')) =
               (sessions (data t) ++
                [mkSession st (Some e) (round2 x) c d])%list)).
  { intros r0 w1 H. apply (f_equal snd) in H. cbn [snd] in H. subst p'.
    cbn [self]. split; [reflexivity |].
    split; [reflexivity |]. left. reflexivity. }
  unfold end_session.
  unfold bind at 1. unfold io at 1, now. cbn [world self].
  unfold bind at 1. unfold parse_datetime at 1.
  destruct (fromisoformat (isoformat (clock w (ticks w)))) as [e |];
    [| unfold of_option, raise; apply Same].
  cbn [of_option ret].
  unfold bind at 1. unfold parse_datetime at 1.
  destruct (fromisoformat st) as [s |];
    [| unfold of_option, raise; apply Same].
  cbn [of_option ret].
  unfold bind at 1. unfold datetime_sub at 1.
  destruct (tzoffset e) as [oe |]; destruct (tzoffset s) as [os |].
  2, 3: unfold raise; apply Same.
  all: cbn [ret].
  all: unfold bind at 1; rewrite divide_by_3600.
  all: unfold bind at 1; unfold get_self at 1; cbn [self].
  all: unfold bind at 1; unfold set_data at 1; cbn [self world filename].
  all: match goal with
       | |- context [(save_data ;;; ?k) (mkProcess ?t2 ?w2)] =>
           destruct (save_data_outcome t2 w2) as (e2 & w' & Hsave & _);
           unfold bind at 1; rewrite Hsave
       end.
  all: intros H; apply (f_equal snd) in H; cbn [snd] in H; subst p'.
  all: cbn [self filename data goals sessions].
  all: split; [reflexivity |]; split; [reflexivity |].
  all: right; eexists; eexists; reflexivity.
Qed.

Lemma last_of_finished l :
  forallb finished l = true ->
  match last_of l with
  | None => True
  | Some s => end_time s <> None
  end.
Proof.
  intros H. unfold last_of.
  destruct (rev l) as [| x r] eqn:E; [exact I |].
  rewrite forallb_forall in H.
  assert (Hin : In x l) by (apply in_rev; rewrite E; left; reflexivity).
  specialize (H x Hin). unfold finished in H.
  destruct (end_time x); [discriminate | discriminate H].
Qed.

(** X21.  [end_session] appends at most one session, none when it raises
    before line 40, and a session it appends has an end time; the goals
    and the file name are as before.  So a ledger in which every session
    has an end time stays such a ledger, and the [end] command then finds
    no active session: the program never makes the session without an
    end time that line 196 looks for. *)
Theorem end_session_leaves_no_session_without_an_end_time
    (start_time category : string) (description : option string)
    (t : Tracker) (w : World) :
  let t' := self (snd (end_session start_time category description
                         (mkProcess t w))) in
  filename t' = filename t /\
  goals (data t') = goals (data t) /\
  (sessions (data t') = sessions (data t) \/
   exists e x,
     sessions (data t') =
       (sessions (data t) ++
        [mkSession start_time (Some e) (round2 x) category description])%list) /\
  (forallb finished (sessions (data t)) = true ->
   forallb finished (sessions (data t')) = true /\
   forall args w2,
     Dict.get args "action" = Some (VStr "end") ->
     dispatch args t' w2 =
     (Ok tt,
      printed ["No active session to end. Start a new session first."] w2)).
Proof.
  intros t'.
  destruct (end_session start_time category description (mkProcess t w))
    as [r p'] eqn:E.
  destruct (end_session_outcome _ _ _ _ _ _ _ E) as (Hf & Hg & Hs).
  cbn [snd] in t'. fold t' in Hf, Hg, Hs.
  split; [exact Hf |]. split; [exact Hg |]. split; [exact Hs |].
  intros Hfin.
  assert (Hfin' : forallb finished (sessions (data t')) = true).
  { destruct Hs as [-> | (e & x & ->)]; [exact Hfin |].
    rewrite forallb_app, Hfin. reflexivity. }
  split; [exact Hfin' |].
  intros args w2 Ha.
  rewrite (dispatch_end_without_pending_session args t' w2 Ha
             (last_of_finished _ Hfin')).
  reflexivity.
Qed.

(** *** One command after another *)

(** [DeepWorkTracker()] reads the files and nothing else. *)
Lemma init_reads_the_files path w w1 t :
  files w1 = files w -> init path w = (Ok t, w) -> init path w1 = (Ok t, w1).
Proof.
  intros Hf. unfold init, bind. rewrite !load_data_cases, Hf.
  destruct (Dict.get (files w) path) as [[text | | |] |].
  - destruct (loads text) as [doc |]; [| intros H; discriminate H].
    destruct (Ledger.of_json doc) as [l |]; unfold ret, raise; intros H.
    + apply (f_equal fst) in H. cbn [fst] in H. rewrite H. reflexivity.
    + discriminate H.
  - intros H. discriminate H.
  - intros H. discriminate H.
  - intros H. discriminate H.
  - destruct (Ledger.of_json empty_document) as [l |]; unfold ret, raise;
      intros H.
    + apply (f_equal fst) in H. cbn [fst] in H. rewrite H. reflexivity.
    + discriminate H.
Qed.

(** X22.  The [start] command records nothing.  Its branch prints two
    lines and returns; no file changes, so the tracker the next run of
    the program builds from the data file is the one this run built.
    When that ledger has no session without an end time, the branch of
    [end] then only reports that there is no active session: the session
    that was started is lost. *)
Theorem start_command_then_end_command
    (args_start args_end : Namespace) (t : Tracker) (w : World)
    (category : string) :
  Dict.get args_start "action" = Some (VStr "start") ->
  Dict.get args_start "category" = Some (VStr category) ->
  Dict.get args_end "action" = Some (VStr "end") ->
  init "deep_work_data.json" w = (Ok t, w) ->
  forallb finished (sessions (data t)) = true ->
  exists w1,
    dispatch args_start t w = (Ok tt, w1) /\
    stdout w1 =
      (stdout w ++
       ["Deep work started at {start_time}";
        "Started session in category '{category}' at {start_time}"])%list /\
    files w1 = files w /\
    init "deep_work_data.json" w1 = (Ok t, w1) /\
    dispatch args_end t w1 =
    (Ok tt,
     printed ["No active session to end. Start a new session first."] w1).
Proof.
  intros Hs Hc He Hi Hfin.
  exists (printed ["Started session in category '{category}' at {start_time}"]
            (printed ["Deep work started at {start_time}"] (ticked 1 w))).
  split.
  { rewrite (dispatch_action args_start t w "start" Hs).
    cbn [String.eqb Ascii.eqb Bool.eqb].
    unfold bind at 1. unfold attr at 1. rewrite Hc. reflexivity. }
  split.
  { unfold printed, ticked. cbn [stdout]. rewrite <- app_assoc.
    reflexivity. }
  split; [reflexivity |].
  split; [apply (init_reads_the_files _ w); [reflexivity | exact Hi] |].
  rewrite (dispatch_end_without_pending_session args_end t _ He
             (last_of_finished _ Hfin)).
  reflexivity.
Qed.

Lemma start_then_end_on_a_fresh_ledger :
  let start := [("action", VStr "start"); ("category", VStr "writing")] in
  let finish := [("action", VStr "end"); ("description", VNone)] in
  let w := world_at (wednesday 11 30) [] in
  init "deep_work_data.json" w = (Ok fresh, w) /\
  exists w1,
    dispatch start fresh w = (Ok tt, w1) /\
    stdout w1 =
      ["Deep work started at {start_time}";
       "Started session in category '{category}' at {start_time}"] /\
    files w1 = files w /\
    init "deep_work_data.json" w1 = (Ok fresh, w1) /\
    dispatch finish fresh w1 =
    (Ok tt,
     printed ["No active session to end. Start a new session first."] w1).
Proof.
  split; [reflexivity |].
  exact (start_command_then_end_command
           [("action", VStr "start"); ("category", VStr "writing")]
           [("action", VStr "end"); ("description", VNone)]
           fresh (world_at (wednesday 11 30) []) "writing"
           eq_refl eq_refl eq_refl eq_refl eq_refl).
Defined.

End Behaviour.
